(** * Verification of the Skyflow MCP SDK core

    A shallow embedding of the vault-configuration validator
    ([utils/validation.ts]), the entity vocabulary ([utils/entityMaps.ts]),
    the error taxonomy ([client/errors.ts]), the client
    ([client/SkyflowMCP.ts]) and the protection envelope
    ([middleware/wrap.ts]), with the properties of the specification stated
    and proved (or refuted) over it. *)

From Stdlib Require Import Ascii String.
From Stdlib Require Import ZArith.
From stdpp Require Import base option list strings gmap.

Local Open Scope string_scope.
Local Open Scope list_scope.

(** ** A backtracking matcher for the JavaScript patterns the SDK uses

    Input is a sequence of characters (those of [string]); a pattern is
    matched by a matcher that takes the rest of the input, the captures
    so far and a continuation, in the style of the ECMAScript pattern
    semantics: a greedy quantifier first tries one more iteration and
    falls back to the continuation when that fails. *)
Module JsRegExp.

Inductive pattern : Type :=
| Eps                              (* the empty pattern *)
| Chr (c : ascii)                  (* a pattern character *)
| NoneOf (cs : list ascii)         (* a negated class, [^...] *)
| Cat (p q : pattern)              (* p followed by q *)
| Opt (p : pattern)                (* p?  greedy *)
| Plus (p : pattern)               (* p+  greedy *)
| Group (p : pattern)              (* (?:p) *)
| Capture (n : nat) (p : pattern). (* (p), the n-th capturing group *)

(** Captures: group number to captured text. *)
Definition captures := list (nat * list ascii).

Definition mstate : Type := list ascii * captures.

Definition cont := list ascii -> captures -> option mstate.

Definition orelse (a : option mstate) (b : option mstate) : option mstate :=
  match a with
  | Some r => Some r
  | None => b
  end.

(** The text consumed between input [s] and its suffix [s']. *)
Definition consumed (s s' : list ascii) : list ascii :=
  take (length s - length s') s.

(** Zero or more greedy iterations of the matcher [m], then [k]. An
    iteration that consumes nothing is rejected, so the length of the
    input is fuel enough. *)
Fixpoint star (m : list ascii -> captures -> cont -> option mstate)
    (k : cont) (fuel : nat) (s : list ascii) (caps : captures)
  : option mstate :=
  match fuel with
  | O => k s caps
  | S fuel' =>
      orelse
        (m s caps (fun s' caps' =>
           if Nat.eqb (length s') (length s) then None
           else star m k fuel' s' caps'))
        (k s caps)
  end.

Fixpoint run (p : pattern) (s : list ascii) (caps : captures) (k : cont)
  : option mstate :=
  match p with
  | Eps => k s caps
  | Chr c =>
      match s with
      | c' :: s' => if Ascii.eqb c c' then k s' caps else None
      | [] => None
      end
  | NoneOf cs =>
      match s with
      | c' :: s' => if existsb (Ascii.eqb c') cs then None else k s' caps
      | [] => None
      end
  | Cat p q => run p s caps (fun s' caps' => run q s' caps' k)
  | Opt p =>
    (* at most one iteration, which must consume something *)
    orelse
      (run p s caps (fun s' caps' =>
         if Nat.eqb (length s') (length s) then None else k s' caps'))
      (k s caps)
  | Plus p =>
      (* one mandatory iteration, then as many as possible *)
      run p s caps (fun s' caps' => star (run p) k (length s') s' caps')
  | Group p => run p s caps k
  | Capture n p =>
      run p s caps (fun s' caps' => k s' ((n, consumed s s') :: caps'))
  end.

(** One attempt at the current position. *)
Definition match_here (p : pattern) (s : list ascii) : option mstate :=
  run p s [] (fun s' caps => Some (s', caps)).

(** The first position, from the left, at which the pattern matches;
    the position after the last character is tried too. *)
Fixpoint search (p : pattern) (s : list ascii) : option (list ascii * mstate) :=
  match match_here p s with
  | Some r => Some (s, r)
  | None =>
      match s with
      | [] => None
      | _ :: s' => search p s'
      end
  end.

Fixpoint lookup_capture (n : nat) (caps : captures) : option (list ascii) :=
  match caps with
  | [] => None
  | (m, t) :: caps' => if Nat.eqb n m then Some t else lookup_capture n caps'
  end.

(** [str.match(re)] for a pattern without the global flag: [None] is
    JavaScript's [null]; otherwise element 0 is the matched text and
    element [n] the text of group [n] ([None] for a group that took no
    part in the match). *)
Definition js_match (p : pattern) (groups : nat) (str : string)
  : option (list (option string)) :=
  match search p (list_ascii_of_string str) with
  | None => None
  | Some (s, (s', caps)) =>
      Some (Some (string_of_list_ascii (consumed s s'))
            :: map (fun n => string_of_list_ascii <$> lookup_capture n caps)
                   (seq 1 groups))
  end.

(** A sequence of terms, [p1 p2 ... pn]. *)
Fixpoint cats (ps : list pattern) : pattern :=
  match ps with
  | [] => Eps
  | [p] => p
  | p :: ps' => Cat p (cats ps')
  end.

End JsRegExp.

(** ** utils/validation.ts *)
Module Validation.
Import JsRegExp.

Record VaultConfig := {
  vaultId : string;
  vaultUrl : string;
  clusterId : string;
  accountId : option string;
  workspaceId : option string;
}.

Record ValidationResult := {
  isValid : bool;
  error : option string;
  config : option VaultConfig;
}.

(** The pattern of [extractClusterId]:
    an optional [http://] or [https://], one or more characters other
    than a dot (group 1), then [.vault]. *)
Definition cluster_pattern : pattern :=
  cats [ Opt (Group (cats [Chr "h"; Chr "t"; Chr "t"; Chr "p"; Opt (Chr "s");
                           Chr ":"; Chr "/"; Chr "/"]));
         Capture 1 (Plus (NoneOf ["."%char]));
         Chr "."; Chr "v"; Chr "a"; Chr "u"; Chr "l"; Chr "t" ].

(** [vaultUrl.match(...)] then [match?.[1] ?? null]. *)
Definition extractClusterId (vaultUrl : string) : option string :=
  match js_match cluster_pattern 1 vaultUrl with
  | None => None
  | Some m =>
      match m !! 1%nat with
      | Some (Some g) => Some g
      | _ => None
      end
  end.

(** JavaScript truthiness of an optional string: [undefined], [null] and
    the empty string are falsy. *)
Definition truthy (v : option string) : bool :=
  match v with
  | Some s => negb (String.eqb s "")
  | None => false
  end.

(** [a || b] on optional strings. *)
Definition or_else (a b : option string) : option string :=
  if truthy a then a else b.

Record VaultParams := {
  p_vaultId : option string;
  p_vaultUrl : option string;
  p_accountId : option string;
  p_workspaceId : option string;
}.

Definition invalid (msg : string) : ValidationResult :=
  {| isValid := false; error := Some msg; config := None |}.

Definition validateVaultConfig (params : VaultParams) : ValidationResult :=
  if negb (truthy (p_vaultId params)) then
    invalid "vaultId is required"
  else if negb (truthy (p_vaultUrl params)) then
    invalid "vaultUrl is required"
  else
    let clusterId := extractClusterId (default "" (p_vaultUrl params)) in
    if negb (truthy clusterId) then
      invalid "Invalid vaultUrl format. Expected format: https://<clusterId>.vault.skyflowapis.com"
    else
      {| isValid := true;
         error := None;
         config := Some {| vaultId := default "" (p_vaultId params);
                           vaultUrl := default "" (p_vaultUrl params);
                           clusterId := default "" clusterId;
                           accountId := p_accountId params;
                           workspaceId := p_workspaceId params |} |}.

End Validation.

(** ** The cluster label, read off the text

    Two direct readings of what [extractClusterId] returns, to compare
    with the matcher. Both walk the text once, keeping the run of
    characters since the last dot. *)
Module ClusterLabel.

Definition is_dot (c : ascii) : bool := Ascii.eqb c ".".

Fixpoint has_prefix (p s : list ascii) : bool :=
  match p, s with
  | [], _ => true
  | c :: p', d :: s' => Ascii.eqb c d && has_prefix p' s'
  | _ :: _, [] => false
  end.

Definition nonempty (s : list ascii) : bool :=
  match s with [] => false | _ => true end.

Definition https_scheme : list ascii := list_ascii_of_string "https://".
Definition http_scheme : list ascii := list_ascii_of_string "http://".
Definition vault : list ascii := list_ascii_of_string "vault".

(** A leading scheme is skipped when something is left after it. *)
Definition skip_scheme (r : list ascii) : list ascii :=
  if has_prefix https_scheme r && nonempty (drop 8 r) then drop 8 r
  else if has_prefix http_scheme r && nonempty (drop 7 r) then drop 7 r
  else r.

(** The run of characters other than a dot in front of the first
    [.vault] of the text, whatever that run is. *)
Fixpoint run_before_first_vault (r s : list ascii) : option (list ascii) :=
  match s with
  | [] => None
  | c :: s' =>
      if is_dot c then
        if has_prefix vault s' then Some r
        else run_before_first_vault [] s'
      else run_before_first_vault (r ++ [c]) s'
  end.

(** The run of characters other than a dot in front of the first
    [.vault] that comes directly after such a character, less a leading
    scheme. *)
Fixpoint scan (r s : list ascii) : option (list ascii) :=
  match s with
  | [] => None
  | c :: s' =>
      if is_dot c then
        if nonempty r && has_prefix vault s' then Some (skip_scheme r)
        else scan [] s'
      else scan (r ++ [c]) s'
  end.

Definition label_of (url : string) : option string :=
  string_of_list_ascii <$> scan [] (list_ascii_of_string url).

(** *** Intermediate views of the matcher, used in the proofs *)

Definition dot_vault : list ascii := "."%char :: vault.

(** The scheme inside [(?:...)?]. *)
Definition scheme : JsRegExp.pattern :=
  JsRegExp.cats
    [JsRegExp.Chr "h"; JsRegExp.Chr "t"; JsRegExp.Chr "t"; JsRegExp.Chr "p";
     JsRegExp.Opt (JsRegExp.Chr "s");
     JsRegExp.Chr ":"; JsRegExp.Chr "/"; JsRegExp.Chr "/"].

(** The run of characters up to the next dot, and what follows. *)
Fixpoint nondot_run (s : list ascii) : list ascii * list ascii :=
  match s with
  | [] => ([], [])
  | c :: s' =>
      if is_dot c then ([], s)
      else let '(r, rest) := nondot_run s' in (c :: r, rest)
  end.

Definition dotfree (r : list ascii) : Prop :=
  Forall (fun c => is_dot c = false) r.

Definition at_dot (rest : list ascii) : Prop :=
  match rest with
  | [] => True
  | c :: _ => is_dot c = true
  end.

(** A continuation that fails unless the input is at a dot. *)
Definition fails_off_dot (k : JsRegExp.cont) : Prop :=
  forall c s caps, is_dot c = false -> k (c :: s) caps = None.

(** One attempt without the scheme: the run up to the next dot, when it
    is not empty and [.vault] follows; with the text after the match. *)
Definition attempt (s : list ascii) : option (list ascii * list ascii) :=
  match nondot_run s with
  | ([], _) => None
  | (c :: r, rest) =>
      if has_prefix dot_vault rest then Some (c :: r, drop 6 rest) else None
  end.

(** One attempt at a position: first past a scheme, then without. *)
Definition attempt_here (s : list ascii) : option (list ascii * list ascii) :=
  let with_scheme :=
    if has_prefix https_scheme s then attempt (drop 8 s)
    else if has_prefix http_scheme s then attempt (drop 7 s)
    else None in
  match with_scheme with
  | Some r => Some r
  | None => attempt s
  end.

Fixpoint first_label (s : list ascii) : option (list ascii) :=
  match attempt_here s with
  | Some (r, _) => Some r
  | None =>
      match s with
      | [] => None
      | _ :: s' => first_label s'
      end
  end.

Definition final : JsRegExp.cont := fun s' caps => Some (s', caps).

(** [s.includes(sub)] *)
Definition contains (sub s : string) : Prop :=
  exists pre post, s = String.append pre (String.append sub post).

Definition no_dot (s : string) : Prop := dotfree (list_ascii_of_string s).

(** An optional parameter that is absent, or the empty string. *)
Definition absent_or_empty (v : option string) : Prop :=
  v = None \/ v = Some "".

(** "[extractClusterId url] is the run in front of the first [.vault]
    of [url]", with or without a leading scheme. *)
Definition returns_run_before_first_vault (url : string) : Prop :=
  exists r,
    run_before_first_vault [] (list_ascii_of_string url) = Some r /\
    (Validation.extractClusterId url = Some (string_of_list_ascii r) \/
     Validation.extractClusterId url
       = Some (string_of_list_ascii (skip_scheme r))).

End ClusterLabel.

(** ** JavaScript values, thrown values and completions *)
Module Js.

(** The values an operation can hand back: primitives and plain objects
    (records of named fields). A field that an object only inherits from
    [Object.prototype] is a function or an object, never a string, so a
    read of a missing field is modelled as [undefined]. *)
#[warnings="-register-all"]
Inductive JsValue : Type :=
| JsUndefined
| JsNull
| JsBool (b : bool)
| JsNumber (n : Z)
| JsString (s : string)
| JsObject (fields : gmap string JsValue).

Definition typeof (v : JsValue) : string :=
  match v with
  | JsUndefined => "undefined"
  | JsNull => "object"
  | JsBool _ => "boolean"
  | JsNumber _ => "number"
  | JsString _ => "string"
  | JsObject _ => "object"
  end.

Definition is_null (v : JsValue) : bool :=
  match v with JsNull => true | _ => false end.

(** [v[key]] for a non-null object. *)
Definition get (v : JsValue) (key : string) : JsValue :=
  match v with
  | JsObject fields => default JsUndefined (fields !! key)
  | _ => JsUndefined
  end.

(** [{ ...v, [key]: x }] for a non-null object: the fields of [v], with
    [key] set to [x]. *)
Definition spread_with (v : JsValue) (key : string) (x : JsValue) : JsValue :=
  match v with
  | JsObject fields => JsObject (<[key := x]> fields)
  | _ => JsObject {[ key := x ]}
  end.

(** client/errors.ts: the fields of [SkyflowMCPError] and its subclasses;
    [C] is the type of the chained cause. *)
Record SkyflowMCPError (C : Type) := {
  name : string;
  message : string;
  code : string;
  cause : option C;
  httpCode : option Z;
  details : JsValue;
}.
Arguments name {C}.
Arguments message {C}.
Arguments code {C}.
Arguments cause {C}.
Arguments httpCode {C}.
Arguments details {C}.

(** skyflow-node: the [error] member of a [SkyflowError]. *)
Record SkyflowErrorBody := {
  http_code : JsValue;
  body_details : JsValue;
}.

(** What a [throw] or a rejected promise can carry. *)
#[warnings="-register-all"]
Inductive Thrown : Type :=
| NotAnError (v : JsValue)                        (* not an [Error] *)
| Error (msg : string)                            (* a plain [Error] *)
| SkyflowError (msg : string) (error : option SkyflowErrorBody)
| SdkError (e : SkyflowMCPError Thrown).          (* this SDK's errors *)

(** [error instanceof Error] *)
Definition instanceof_Error (t : Thrown) : bool :=
  match t with
  | NotAnError _ => false
  | _ => true
  end.

(** [error.message] of an [Error]. *)
Definition message_of (t : Thrown) : string :=
  match t with
  | NotAnError _ => ""
  | Error msg => msg
  | SkyflowError msg _ => msg
  | SdkError e => message e
  end.

Inductive Completion (A : Type) : Type :=
| Normal (a : A)
| Abrupt (t : Thrown).
Arguments Normal {A}.
Arguments Abrupt {A}.

Definition cbind {A B} (c : Completion A) (f : A -> Completion B)
  : Completion B :=
  match c with
  | Normal a => f a
  | Abrupt t => Abrupt t
  end.

(** [xs.map(f)] where [f] may throw: the first throw ends the loop. *)
Fixpoint map_throwing {A B} (f : A -> Completion B) (xs : list A)
  : Completion (list B) :=
  match xs with
  | [] => Normal []
  | x :: xs' =>
      cbind (f x) (fun y =>
      cbind (map_throwing f xs') (fun ys => Normal (y :: ys)))
  end.

End Js.

(** ** utils/entityMaps.ts *)
Module EntityMaps.
Import Js.

(** The members of skyflow-node's [DetectEntities] enumeration that
    [ENTITY_MAP] refers to; each is a non-empty string at run time. *)
Inductive DetectEntities : Type :=
  | AGE | BANK_ACCOUNT | CREDIT_CARD | CREDIT_CARD_EXPIRATION | CVV | DATE |
  DATE_INTERVAL | DOB | DRIVER_LICENSE | EMAIL_ADDRESS | HEALTHCARE_NUMBER |
  IP_ADDRESS | LOCATION | NAME | NUMERICAL_PII | PHONE_NUMBER | SSN | URL |
  VEHICLE_ID | MEDICAL_CODE | NAME_FAMILY | NAME_GIVEN | ACCOUNT_NUMBER |
  EVENT | FILENAME | GENDER | LANGUAGE | LOCATION_ADDRESS | LOCATION_CITY |
  LOCATION_COORDINATE | LOCATION_COUNTRY | LOCATION_STATE | LOCATION_ZIP |
  MARITAL_STATUS | MONEY | NAME_MEDICAL_PROFESSIONAL | OCCUPATION |
  ORGANIZATION | ORGANIZATION_MEDICAL_FACILITY | ORIGIN | PASSPORT_NUMBER |
  PASSWORD | PHYSICAL_ATTRIBUTE | POLITICAL_AFFILIATION | RELIGION | TIME |
  USERNAME | ZODIAC_SIGN | BLOOD_TYPE | CONDITION | DOSE | DRUG | INJURY |
  MEDICAL_PROCESS | STATISTICS | ROUTING_NUMBER | CORPORATE_ACTION |
  FINANCIAL_METRIC | PRODUCT | TREND | DURATION | LOCATION_ADDRESS_STREET |
  ALL | SEXUALITY | EFFECT | PROJECT | ORGANIZATION_ID | DAY | MONTH.

Definition ENTITY_TYPES : list string :=
  [ "age"; "bank_account"; "credit_card"; "credit_card_expiration";
    "cvv"; "date"; "date_interval"; "dob"; "driver_license";
    "email_address"; "healthcare_number"; "ip_address"; "location";
    "name"; "numerical_pii"; "phone_number"; "ssn"; "url"; "vehicle_id";
    "medical_code"; "name_family"; "name_given"; "account_number";
    "event"; "filename"; "gender"; "language"; "location_address";
    "location_city"; "location_coordinate"; "location_country";
    "location_state"; "location_zip"; "marital_status"; "money";
    "name_medical_professional"; "occupation"; "organization";
    "organization_medical_facility"; "origin"; "passport_number";
    "password"; "physical_attribute"; "political_affiliation";
    "religion"; "time"; "username"; "zodiac_sign"; "blood_type";
    "condition"; "dose"; "drug"; "injury"; "medical_process";
    "statistics"; "routing_number"; "corporate_action";
    "financial_metric"; "product"; "trend"; "duration";
    "location_address_street"; "all"; "sexuality"; "effect"; "project";
    "organization_id"; "day"; "month"
  ].

Definition ENTITY_MAP : list (string * DetectEntities) :=
  [
    ("age", AGE); ("bank_account", BANK_ACCOUNT);
    ("credit_card", CREDIT_CARD);
    ("credit_card_expiration", CREDIT_CARD_EXPIRATION); ("cvv", CVV);
    ("date", DATE); ("date_interval", DATE_INTERVAL); ("dob", DOB);
    ("driver_license", DRIVER_LICENSE); ("email_address", EMAIL_ADDRESS);
    ("healthcare_number", HEALTHCARE_NUMBER); ("ip_address", IP_ADDRESS);
    ("location", LOCATION); ("name", NAME);
    ("numerical_pii", NUMERICAL_PII); ("phone_number", PHONE_NUMBER);
    ("ssn", SSN); ("url", URL); ("vehicle_id", VEHICLE_ID);
    ("medical_code", MEDICAL_CODE); ("name_family", NAME_FAMILY);
    ("name_given", NAME_GIVEN); ("account_number", ACCOUNT_NUMBER);
    ("event", EVENT); ("filename", FILENAME); ("gender", GENDER);
    ("language", LANGUAGE); ("location_address", LOCATION_ADDRESS);
    ("location_city", LOCATION_CITY);
    ("location_coordinate", LOCATION_COORDINATE);
    ("location_country", LOCATION_COUNTRY);
    ("location_state", LOCATION_STATE); ("location_zip", LOCATION_ZIP);
    ("marital_status", MARITAL_STATUS); ("money", MONEY);
    ("name_medical_professional", NAME_MEDICAL_PROFESSIONAL);
    ("occupation", OCCUPATION); ("organization", ORGANIZATION);
    ("organization_medical_facility", ORGANIZATION_MEDICAL_FACILITY);
    ("origin", ORIGIN); ("passport_number", PASSPORT_NUMBER);
    ("password", PASSWORD); ("physical_attribute", PHYSICAL_ATTRIBUTE);
    ("political_affiliation", POLITICAL_AFFILIATION);
    ("religion", RELIGION); ("time", TIME); ("username", USERNAME);
    ("zodiac_sign", ZODIAC_SIGN); ("blood_type", BLOOD_TYPE);
    ("condition", CONDITION); ("dose", DOSE); ("drug", DRUG);
    ("injury", INJURY); ("medical_process", MEDICAL_PROCESS);
    ("statistics", STATISTICS); ("routing_number", ROUTING_NUMBER);
    ("corporate_action", CORPORATE_ACTION);
    ("financial_metric", FINANCIAL_METRIC); ("product", PRODUCT);
    ("trend", TREND); ("duration", DURATION);
    ("location_address_street", LOCATION_ADDRESS_STREET); ("all", ALL);
    ("sexuality", SEXUALITY); ("effect", EFFECT); ("project", PROJECT);
    ("organization_id", ORGANIZATION_ID); ("day", DAY); ("month", MONTH)
  ].

(** [ENTITY_MAP] is written as an object literal, so its prototype is
    [Object.prototype]; these are the property names it inherits. *)
Definition Object_prototype : list string :=
  [ "constructor"; "hasOwnProperty"; "isPrototypeOf";
    "propertyIsEnumerable"; "toLocaleString"; "toString"; "valueOf";
    "__proto__"; "__defineGetter__"; "__defineSetter__";
    "__lookupGetter__"; "__lookupSetter__" ].

(** What a property read on [ENTITY_MAP] can give. *)
Inductive MapValue : Type :=
| Enum (d : DetectEntities)       (* an own property *)
| Inherited (name : string).      (* a member of [Object.prototype] *)

Fixpoint own_property {A} (key : string) (obj : list (string * A)) : option A :=
  match obj with
  | [] => None
  | (k, v) :: obj' => if String.eqb key k then Some v else own_property key obj'
  end.

Definition mem (key : string) (keys : list string) : bool :=
  existsb (String.eqb key) keys.

(** [key in ENTITY_MAP]: own properties, then the prototype chain. *)
Definition has_property (key : string) : bool :=
  match own_property key ENTITY_MAP with
  | Some _ => true
  | None => mem key Object_prototype
  end.

(** [ENTITY_MAP[key]]; [None] is [undefined]. *)
Definition get_property (key : string) : option MapValue :=
  match own_property key ENTITY_MAP with
  | Some d => Some (Enum d)
  | None => if mem key Object_prototype then Some (Inherited key) else None
  end.

Definition isValidEntity (entity : string) : bool := has_property entity.

(** Every value a read can give is truthy: the enumeration members are
    non-empty strings, the inherited members functions or objects. So
    [!entityEnum] holds exactly for [undefined]. *)
Definition getEntityEnum (entity : string) : Completion MapValue :=
  match get_property entity with
  | None => Abrupt (Error (String.append "Invalid entity type: " entity))
  | Some entityEnum => Normal entityEnum
  end.

End EntityMaps.

(** ** The parts of the skyflow-node package the client calls *)
Module SkyflowNode.
Import Js EntityMaps.

(** [{ token }] or [{ apiKey }] *)
Inductive Credentials : Type :=
| Token (token : string)
| ApiKey (apiKey : string).

(** skyflow-node's [TokenType] enumeration. *)
Inductive TokenType : Type :=
| VAULT_TOKEN
| ENTITY_UNIQUE_COUNTER
| ENTITY_ONLY.

(** [TokenFormat], after [setDefault]. *)
Record TokenFormat := { format_default : option TokenType }.

(** [DeidentifyTextOptions]: a field is [None] until its setter is
    called. *)
Record DeidentifyTextOptions := {
  opt_tokenFormat : option TokenFormat;
  opt_entities : option (list MapValue);
}.

Definition setTokenFormat (f : TokenFormat) (o : DeidentifyTextOptions) :=
  {| opt_tokenFormat := Some f; opt_entities := opt_entities o |}.

Definition setEntities (es : list MapValue) (o : DeidentifyTextOptions) :=
  {| opt_tokenFormat := opt_tokenFormat o; opt_entities := Some es |}.

Record DeidentifyTextResponse := {
  resp_processedText : string;
  resp_entities : option (list JsValue);
  resp_wordCount : option Z;
  resp_charCount : option Z;
}.

Record ReidentifyTextResponse := { reid_processedText : string }.

Record VaultInit := {
  init_vaultId : string;
  init_clusterId : string;
  init_credentials : Credentials;
}.

(** The argument of [new Skyflow(...)], which is all the client knows
    of the instance. *)
Record Skyflow := { vaultConfigs : list VaultInit }.

(** The vault service. [World] is whatever state the service and the
    caller's operations live in. The constructor may throw; the two
    calls of [skyflow.detect()] may reject. *)
Class VaultService (World : Type) := {
  Skyflow_new : Skyflow -> option Thrown;
  deidentifyText :
    Skyflow -> string -> DeidentifyTextOptions -> World ->
    Completion DeidentifyTextResponse * World;
  reidentifyText :
    Skyflow -> string -> World ->
    Completion ReidentifyTextResponse * World;
}.

End SkyflowNode.

(** ** client/types.ts *)
Module Types.
Import Js.

Inductive TokenType : Type :=
| VAULT_TOKEN
| ENTITY_UNIQUE_COUNTER
| ENTITY_ONLY.

Record SkyflowMCPOptions := {
  defaultTokenType : option TokenType;
  defaultEntities : option (list string);
}.

Record SkyflowMCPConfig := {
  c_vaultId : string;
  c_vaultUrl : string;
  c_credentials : SkyflowNode.Credentials;
  c_accountId : option string;
  c_workspaceId : option string;
  c_options : option SkyflowMCPOptions;
}.

(** [Partial<SkyflowMCPConfig>] *)
Record PartialConfig := {
  o_vaultId : option string;
  o_vaultUrl : option string;
  o_credentials : option SkyflowNode.Credentials;
  o_accountId : option string;
  o_workspaceId : option string;
  o_options : option SkyflowMCPOptions;
}.

Record DeidentifyOptions := {
  tokenType : option TokenType;
  entities : option (list string);
}.

Record DeidentifyResult := {
  processedText : string;
  r_entities : option (list JsValue);
  wordCount : option Z;
  charCount : option Z;
}.

Record ReidentifyResult := { reidentified : string }.

(** [WrapOptions extends DeidentifyOptions] *)
Record WrapOptions := {
  w_deidentify : DeidentifyOptions;
  w_reidentifyOutput : option bool;
}.

End Types.

(** ** Effects: the world, a trace of calls, and thrown values *)
Module Effects.
Import Js Types.

(** What is recorded of a run: each call that leaves the SDK. *)
Inductive Event : Type :=
| CallDeidentifyText (text : string) (o : SkyflowNode.DeidentifyTextOptions)
| CallReidentifyText (text : string)
| CallOperation (protectedInput : string)
| CallOnDeidentify (r : DeidentifyResult)
| CallOnReidentify (text : string).

Record Sys (World : Type) := { world : World; trace : list Event }.
Arguments world {World}.
Arguments trace {World}.

Definition Eff (World A : Type) : Type :=
  Sys World -> Completion A * Sys World.

Definition ret {W A} (a : A) : Eff W A := fun s => (Normal a, s).

Definition throw {W A} (t : Thrown) : Eff W A := fun s => (Abrupt t, s).

Definition bind {W A B} (m : Eff W A) (f : A -> Eff W B) : Eff W B :=
  fun s =>
    match m s with
    | (Normal a, s') => f a s'
    | (Abrupt t, s') => (Abrupt t, s')
    end.

(** [try { m } catch (error) { h error }] *)
Definition try_catch {W A} (m : Eff W A) (h : Thrown -> Eff W A) : Eff W A :=
  fun s =>
    match m s with
    | (Normal a, s') => (Normal a, s')
    | (Abrupt t, s') => h t s'
    end.

Definition lift {W A} (c : Completion A) : Eff W A := fun s => (c, s).

(** A call that leaves the SDK: recorded, then run on the world. *)
Definition call {W A} (e : Event) (f : W -> Completion A * W) : Eff W A :=
  fun s =>
    let '(c, w') := f (world s) in
    (c, {| world := w'; trace := trace s ++ [e] |}).

(** [callback?.(x)] *)
Definition call_optional {W X} (e : Event)
    (callback : option (X -> W -> Completion () * W)) (x : X) : Eff W () :=
  match callback with
  | Some f => call e (f x)
  | None => ret ()
  end.

Definition operations (t : list Event) : list string :=
  omap (fun e => match e with CallOperation x => Some x | _ => None end) t.

Definition reidentify_calls (t : list Event) : list string :=
  omap (fun e => match e with CallReidentifyText x => Some x | _ => None end) t.

Definition deidentify_calls (t : list Event)
  : list (string * SkyflowNode.DeidentifyTextOptions) :=
  omap (fun e => match e with
                 | CallDeidentifyText x o => Some (x, o)
                 | _ => None
                 end) t.

End Effects.

Declare Scope eff_scope.
Delimit Scope eff_scope with eff.
Notation "'let*' x ':=' m 'in' k" := (Effects.bind m (fun x => k))
  (at level 10, x name, m at level 100, k at level 200, only parsing)
  : eff_scope.

(** ** client/errors.ts *)
Module Errors.
Import Js.

Definition ConfigurationError (message : string) (cause : option Thrown)
  : Thrown :=
  SdkError {| name := "ConfigurationError"; message := message;
              code := "CONFIGURATION_ERROR"; cause := cause;
              httpCode := None; details := JsUndefined |}.

Definition AuthenticationError (message : string) (cause : option Thrown)
  : Thrown :=
  SdkError {| name := "AuthenticationError"; message := message;
              code := "AUTHENTICATION_ERROR"; cause := cause;
              httpCode := None; details := JsUndefined |}.

Definition DeidentifyError (message : string) (httpCode : option Z)
    (details : JsValue) (cause : option Thrown) : Thrown :=
  SdkError {| name := "DeidentifyError"; message := message;
              code := "DEIDENTIFY_ERROR"; cause := cause;
              httpCode := httpCode; details := details |}.

Definition ReidentifyError (message : string) (httpCode : option Z)
    (details : JsValue) (cause : option Thrown) : Thrown :=
  SdkError {| name := "ReidentifyError"; message := message;
              code := "REIDENTIFY_ERROR"; cause := cause;
              httpCode := httpCode; details := details |}.

End Errors.

(** ** client/SkyflowMCP.ts *)
Module Client.
Import Js EntityMaps Types Effects Errors.
Import Validation(validateVaultConfig, truthy, or_else).
Local Open Scope eff_scope.

Definition TOKEN_TYPE_MAP (t : TokenType) : SkyflowNode.TokenType :=
  match t with
  | VAULT_TOKEN => SkyflowNode.VAULT_TOKEN
  | ENTITY_UNIQUE_COUNTER => SkyflowNode.ENTITY_UNIQUE_COUNTER
  | ENTITY_ONLY => SkyflowNode.ENTITY_ONLY
  end.

Record SkyflowMCP := {
  skyflow : SkyflowNode.Skyflow;
  vaultId : string;
  config : SkyflowMCPConfig;
}.

Section WithService.
Context {World : Type} {service : SkyflowNode.VaultService World}.

(** The constructor. *)
Definition new_SkyflowMCP (config : SkyflowMCPConfig)
  : Completion SkyflowMCP :=
  let validation :=
    validateVaultConfig
      {| Validation.p_vaultId := Some (c_vaultId config);
         Validation.p_vaultUrl := Some (c_vaultUrl config);
         Validation.p_accountId := c_accountId config;
         Validation.p_workspaceId := c_workspaceId config |} in
  match Validation.isValid validation, Validation.config validation with
  | true, Some vc =>
      let sdk :=
        {| SkyflowNode.vaultConfigs :=
             [ {| SkyflowNode.init_vaultId := Validation.vaultId vc;
                  SkyflowNode.init_clusterId := Validation.clusterId vc;
                  SkyflowNode.init_credentials := c_credentials config |} ] |} in
      match SkyflowNode.Skyflow_new sdk with
      | Some error =>
          Abrupt (ConfigurationError "Failed to initialize Skyflow SDK"
                    (if instanceof_Error error then Some error else None))
      | None =>
          Normal {| skyflow := sdk;
                    vaultId := Validation.vaultId vc;
                    config := config |}
      end
  | _, _ =>
      Abrupt (ConfigurationError
                (default "Invalid configuration"
                   (or_else (Validation.error validation)
                            (Some "Invalid configuration")))
                None)
  end.

(** Per call, then the client's default, then [VAULT_TOKEN]. *)
Definition effective_tokenType (this : SkyflowMCP)
    (options : option DeidentifyOptions) : TokenType :=
  match options ≫= tokenType with
  | Some t => t
  | None =>
      match c_options (config this) ≫= defaultTokenType with
      | Some t => t
      | None => VAULT_TOKEN
      end
  end.

(** [options?.entities || this.config.options?.defaultEntities]: an
    array is truthy whatever its length. *)
Definition effective_entities (this : SkyflowMCP)
    (options : option DeidentifyOptions) : option (list string) :=
  match options ≫= entities with
  | Some es => Some es
  | None => c_options (config this) ≫= defaultEntities
  end.

(** The options handed to the vault, up to the external call. *)
Definition deidentifyOptions_for (this : SkyflowMCP)
    (options : option DeidentifyOptions)
  : Completion SkyflowNode.DeidentifyTextOptions :=
  let tokenType := effective_tokenType this options in
  let tokenFormat :=
    {| SkyflowNode.format_default := Some (TOKEN_TYPE_MAP tokenType) |} in
  let deidentifyOptions :=
    SkyflowNode.setTokenFormat tokenFormat
      {| SkyflowNode.opt_tokenFormat := None;
         SkyflowNode.opt_entities := None |} in
  match effective_entities this options with
  | Some (e :: es) =>
      cbind (map_throwing getEntityEnum (e :: es)) (fun entityEnums =>
      Normal (SkyflowNode.setEntities entityEnums deidentifyOptions))
  | _ => Normal deidentifyOptions
  end.

(** The [catch] clause of [deidentify] and of [reidentify], given the
    error class to raise and its fallback message. *)
Definition reclassify
    (mk : string -> option Z -> JsValue -> option Thrown -> Thrown)
    (unknown : string) (error : Thrown) : Thrown :=
  match error with
  | SkyflowError msg body =>
      let httpCode := default JsUndefined (http_code <$> body) in
      mk msg
         (match httpCode with JsNumber n => Some n | _ => None end)
         (default JsUndefined (body_details <$> body))
         (Some error)
  | _ =>
      mk (if instanceof_Error error then message_of error else unknown)
         None JsUndefined
         (if instanceof_Error error then Some error else None)
  end.

Definition deidentify (this : SkyflowMCP) (text : string)
    (options : option DeidentifyOptions) : Eff World DeidentifyResult :=
  try_catch
    (let* deidentifyOptions := lift (deidentifyOptions_for this options) in
     let* response :=
       call (CallDeidentifyText text deidentifyOptions)
            (SkyflowNode.deidentifyText (skyflow this) text deidentifyOptions) in
     ret {| processedText := SkyflowNode.resp_processedText response;
            r_entities := SkyflowNode.resp_entities response;
            wordCount := SkyflowNode.resp_wordCount response;
            charCount := SkyflowNode.resp_charCount response |})
    (fun error =>
       throw (reclassify DeidentifyError "Unknown deidentify error" error)).

Definition reidentify (this : SkyflowMCP) (text : string)
  : Eff World ReidentifyResult :=
  try_catch
    (let* response :=
       call (CallReidentifyText text)
            (SkyflowNode.reidentifyText (skyflow this) text) in
     ret {| reidentified := SkyflowNode.reid_processedText response |})
    (fun error =>
       throw (reclassify ReidentifyError "Unknown reidentify error" error)).

(** The caller's operation: given the protected text it runs in the
    world and resolves to a value or rejects. *)
Definition Operation : Type := string -> World -> Completion JsValue * World.

Definition wrap (this : SkyflowMCP) (input : string)
    (operation : Operation) (options : option WrapOptions)
  : Eff World JsValue :=
  let* d := deidentify this input (w_deidentify <$> options) in
  let protectedInput := processedText d in
  let* result := call (CallOperation protectedInput) (operation protectedInput) in
  let shouldReidentify :=
    match options ≫= w_reidentifyOutput with
    | Some false => false
    | _ => true
    end in
  match shouldReidentify, result with
  | true, JsString str =>   (* typeof result === "string" *)
      let* r := reidentify this str in
      ret (JsString (reidentified r))
  | _, _ => ret result
  end.

(** [process.env], and [createFromEnv]. *)
Definition createFromEnv (overrides : option PartialConfig)
    (env : gmap string string) : Completion SkyflowMCP :=
  let vaultId := or_else (overrides ≫= o_vaultId) (env !! "SKYFLOW_VAULT_ID") in
  let vaultUrl := or_else (overrides ≫= o_vaultUrl) (env !! "SKYFLOW_VAULT_URL") in
  let apiKey := env !! "SKYFLOW_API_KEY" in
  let bearerToken := env !! "SKYFLOW_BEARER_TOKEN" in
  if negb (truthy vaultId) then
    Abrupt (ConfigurationError
              "SKYFLOW_VAULT_ID environment variable is required" None)
  else if negb (truthy vaultUrl) then
    Abrupt (ConfigurationError
              "SKYFLOW_VAULT_URL environment variable is required" None)
  else
    let credentials :=
      match overrides ≫= o_credentials with
      | Some credentials => Normal credentials
      | None =>
          if truthy bearerToken then
            Normal (SkyflowNode.Token (default "" bearerToken))
          else if truthy apiKey then
            Normal (SkyflowNode.ApiKey (default "" apiKey))
          else
            Abrupt (ConfigurationError
                      "Either SKYFLOW_BEARER_TOKEN or SKYFLOW_API_KEY environment variable is required"
                      None)
      end in
    cbind credentials (fun credentials =>
    new_SkyflowMCP
      {| c_vaultId := default "" vaultId;
         c_vaultUrl := default "" vaultUrl;
         c_credentials := credentials;
         c_accountId :=
           or_else (overrides ≫= o_accountId) (env !! "SKYFLOW_ACCOUNT_ID");
         c_workspaceId :=
           or_else (overrides ≫= o_workspaceId) (env !! "SKYFLOW_WORKSPACE_ID");
         c_options := overrides ≫= o_options |}).

End WithService.

End Client.

(** ** middleware/wrap.ts *)
Module Middleware.
Import Js Types Effects Client.
Local Open Scope eff_scope.

Section WithService.
Context {World : Type} {service : SkyflowNode.VaultService World}.

(** [WrapWithProtectionOptions extends DeidentifyOptions] *)
Record WrapWithProtectionOptions := {
  p_deidentify : DeidentifyOptions;
  reidentifyOutput : option bool;
  reidentifyField : option string;
  onDeidentify : option (DeidentifyResult -> World -> Completion () * World);
  onReidentify : option (string -> World -> Completion () * World);
}.

(** [options = {}] *)
Definition no_options : WrapWithProtectionOptions :=
  {| p_deidentify := {| tokenType := None; entities := None |};
     reidentifyOutput := None;
     reidentifyField := None;
     onDeidentify := None;
     onReidentify := None |}.

Definition wrapWithProtection (client : SkyflowMCP) (input : string)
    (operation : Operation) (options : option WrapWithProtectionOptions)
  : Eff World JsValue :=
  let options := default no_options options in
  let reidentifyOutput_ := default true (reidentifyOutput options) in
  let deidentifyOptions := p_deidentify options in
  let* deidentifyResult := deidentify client input (Some deidentifyOptions) in
  let* _ := call_optional (CallOnDeidentify deidentifyResult)
                          (onDeidentify options) deidentifyResult in
  let* result := call (CallOperation (processedText deidentifyResult))
                      (operation (processedText deidentifyResult)) in
  if negb reidentifyOutput_ then ret result
  else
    match result with
    | JsString str =>   (* typeof result === "string" *)
        let* r := reidentify client str in
        let* _ := call_optional (CallOnReidentify (reidentified r))
                                (onReidentify options) (reidentified r) in
        ret (JsString (reidentified r))
    | _ =>
        if Validation.truthy (reidentifyField options)
           && String.eqb (typeof result) "object"
           && negb (is_null result)
        then
          let field := default "" (reidentifyField options) in
          match get result field with
          | JsString fieldValue =>   (* typeof fieldValue === "string" *)
              let* r := reidentify client fieldValue in
              let* _ := call_optional (CallOnReidentify (reidentified r))
                                      (onReidentify options) (reidentified r) in
              ret (spread_with result field (JsString (reidentified r)))
          | _ => ret result
          end
        else ret result
    end.

Definition createProtectedWrapper (client : SkyflowMCP)
    (input : string) (operation : Operation)
    (options : option WrapWithProtectionOptions) : Eff World JsValue :=
  wrapWithProtection client input operation options.

End WithService.

End Middleware.

(** ** Test doubles, after tests/unit/client/SkyflowMCP.test.ts *)
Module Stubs.
Import Js Types Effects Client Middleware.

(** A vault that answers every deidentify call with one token text and
    every reidentify call with the restored text. *)
Definition stub_service : SkyflowNode.VaultService () :=
  {| SkyflowNode.Skyflow_new := fun _ => None;
     SkyflowNode.deidentifyText := fun _ _ _ w =>
       (Normal {| SkyflowNode.resp_processedText := "[EMAIL_ADDRESS_abc123]";
                  SkyflowNode.resp_entities := None;
                  SkyflowNode.resp_wordCount := None;
                  SkyflowNode.resp_charCount := None |}, w);
     SkyflowNode.reidentifyText := fun _ _ w =>
       (Normal {| SkyflowNode.reid_processedText := "john@example.com" |}, w) |}.

(** A vault whose deidentify call rejects with [failure]. *)
Definition rejecting_service (failure : Thrown) : SkyflowNode.VaultService () :=
  {| SkyflowNode.Skyflow_new := fun _ => None;
     SkyflowNode.deidentifyText := fun _ _ _ w => (Abrupt failure, w);
     SkyflowNode.reidentifyText := fun _ _ w =>
       (Normal {| SkyflowNode.reid_processedText := "john@example.com" |}, w) |}.

Definition validConfig : SkyflowMCPConfig :=
  {| c_vaultId := "vault-123";
     c_vaultUrl := "https://abc123.vault.skyflowapis.com";
     c_credentials := SkyflowNode.Token "test-bearer-token";
     c_accountId := None;
     c_workspaceId := None;
     c_options := None |}.

Definition stub_client : SkyflowMCP :=
  {| skyflow :=
       {| SkyflowNode.vaultConfigs :=
            [ {| SkyflowNode.init_vaultId := "vault-123";
                 SkyflowNode.init_clusterId := "abc123";
                 SkyflowNode.init_credentials :=
                   SkyflowNode.Token "test-bearer-token" |} ] |};
     vaultId := "vault-123";
     config := validConfig |}.

(** A client whose default entities name something outside the
    vocabulary. *)
Definition bogus_defaults_client : SkyflowMCP :=
  {| skyflow := skyflow stub_client;
     vaultId := "vault-123";
     config :=
       {| c_vaultId := "vault-123";
          c_vaultUrl := "https://abc123.vault.skyflowapis.com";
          c_credentials := SkyflowNode.Token "test-bearer-token";
          c_accountId := None;
          c_workspaceId := None;
          c_options := Some {| defaultTokenType := None;
                               defaultEntities := Some ["bogus"] |} |} |}.

Definition start : Sys () := {| world := (); trace := [] |}.

(** An operation that echoes the protected text back. *)
Definition echo : string -> () -> Completion JsValue * () :=
  fun protectedText w => (Normal (JsString protectedText), w).

(** An operation that answers with [{ output: <its input>, other: "x" }]. *)
Definition structured : string -> () -> Completion JsValue * () :=
  fun protectedText w =>
    (Normal (JsObject (<["output" := JsString protectedText]>
                       (<["other" := JsString "x"]> ∅))), w).

(** An operation that answers with an object whose only field has the
    empty name. *)
Definition unnamed_field : string -> () -> Completion JsValue * () :=
  fun protectedText w =>
    (Normal (JsObject (<["" := JsString protectedText]> ∅)), w).

Definition field_options (output : option bool) (field : string)
  : WrapWithProtectionOptions (World := ()) :=
  {| p_deidentify := {| tokenType := None; entities := None |};
     reidentifyOutput := output;
     reidentifyField := Some field;
     onDeidentify := None;
     onReidentify := None |}.

Definition both_set : gmap string string :=
  <["SKYFLOW_VAULT_ID" := "env-vault-id"]>
  (<["SKYFLOW_VAULT_URL" := "https://envcluster.vault.skyflowapis.com"]>
  (<["SKYFLOW_API_KEY" := "env-api-key"]>
  (<["SKYFLOW_BEARER_TOKEN" := "env-bearer-token"]> ∅))).

Definition empty_bearer : gmap string string :=
  <["SKYFLOW_BEARER_TOKEN" := ""]> both_set.

Definition credentials_override : PartialConfig :=
  {| o_vaultId := None;
     o_vaultUrl := None;
     o_credentials := Some (SkyflowNode.ApiKey "override-api-key");
     o_accountId := None;
     o_workspaceId := None;
     o_options := None |}.

End Stubs.

(** ** The words of the specification

    Predicates that the statements below are written with. *)
Module Spec.
Import Js Types Effects Client Middleware.

(** The result of the operation is a string. *)
Definition is_string (v : JsValue) : Prop := exists s, v = JsString s.

(** The result is a non-null structured value, and the field that
    [reidentifyField] gives holds a string. *)
Definition field_holds_string (field : option string) (result : JsValue)
  : Prop :=
  exists f t fields,
    field = Some f /\ result = JsObject fields /\
    fields !! f = Some (JsString t).

(** The same, for a field name that is not the empty string. *)
Definition named_field_holds_string (field : option string)
    (result : JsValue) : Prop :=
  exists f t fields,
    field = Some f /\ f <> "" /\ result = JsObject fields /\
    fields !! f = Some (JsString t).

(** The error is a [DeidentifyError]. *)
Definition is_DeidentifyError (e : SkyflowMCPError Thrown) : Prop :=
  name e = "DeidentifyError" /\ code e = "DEIDENTIFY_ERROR".

(** The status code and the details of the service's error, when it has
    them, are on the error. *)
Definition carries_status (failure : Thrown) (e : SkyflowMCPError Thrown)
  : Prop :=
  (forall msg body n,
     failure = SkyflowError msg (Some body) -> http_code body = JsNumber n ->
     httpCode e = Some n) /\
  (forall msg body,
     failure = SkyflowError msg (Some body) ->
     details e = body_details body).

(** The run recorded no call of the operation, of reidentify, since
    [before]. *)
Definition no_operation_since {W} (before after : Sys W) : Prop :=
  operations (trace after) = operations (trace before).

Definition no_reidentify_since {W} (before after : Sys W) : Prop :=
  reidentify_calls (trace after) = reidentify_calls (trace before).

(** The run recorded exactly one call, with this text, since [before]. *)
Definition one_operation_since {W} (before after : Sys W) (text : string)
  : Prop :=
  operations (trace after) = operations (trace before) ++ [text].

Definition one_reidentify_since {W} (before after : Sys W) (text : string)
  : Prop :=
  reidentify_calls (trace after) = reidentify_calls (trace before) ++ [text].

(** The same client, had it been built without default entities. *)
Definition without_default_entities (client : SkyflowMCP) : SkyflowMCP :=
  {| skyflow := skyflow client;
     vaultId := vaultId client;
     config :=
       {| c_vaultId := c_vaultId (config client);
          c_vaultUrl := c_vaultUrl (config client);
          c_credentials := c_credentials (config client);
          c_accountId := c_accountId (config client);
          c_workspaceId := c_workspaceId (config client);
          c_options :=
            match c_options (config client) with
            | Some o => Some {| defaultTokenType := defaultTokenType o;
                                defaultEntities := None |}
            | None => None
            end |} |}.

(** The client was built with these credentials. *)
Definition uses_credentials (client : SkyflowMCP)
    (credentials : SkyflowNode.Credentials) : Prop :=
  c_credentials (config client) = credentials /\
  Forall (fun v => SkyflowNode.init_credentials v = credentials)
         (SkyflowNode.vaultConfigs (skyflow client)) /\
  SkyflowNode.vaultConfigs (skyflow client) <> [].

End Spec.

(** ** client/SkyflowMCP.ts: the accessors *)
Module Accessors.
Import Client.

Definition getSkyflowInstance (this : SkyflowMCP) : SkyflowNode.Skyflow :=
  skyflow this.

Definition getVaultId (this : SkyflowMCP) : string := vaultId this.

End Accessors.

(** ** mcp/schemas.ts

    The schemas are kept as the calls of the zod builder that make them.
    Whether [import("zod")] resolves, and [JSON.stringify], belong to
    the runtime. *)
Module Schemas.
Import Js EntityMaps.

Class Runtime := {
  zod_installed : bool;
  JSON_stringify : JsValue -> string;
}.

Inductive ZodType : Type :=
| ZString
| ZNumber
| ZEnum (values : list string)
| ZArray (item : ZodType)
| ZMin (n : nat) (inner : ZodType)
| ZOptional (inner : ZodType)
| ZDescribe (description : string) (inner : ZodType).

Definition Schema : Type := list (string * ZodType).

Section WithRuntime.
Context {runtime : Runtime}.

(** The module keeps what the first successful import gave; a later
    call then returns it, as a new import would. *)
Definition getZod : Completion () :=
  if zod_installed then Normal ()
  else Abrupt (Error "zod is required for MCP tool schemas. Install it with: npm install zod").

Definition createDeidentifyInputSchema : Completion Schema :=
  cbind getZod (fun _ =>
  Normal
    [ ("inputString",
       ZDescribe "The text to deidentify" (ZMin 1 ZString));
      ("tokenType",
       ZDescribe "Token format for replacements (default: VAULT_TOKEN)"
         (ZOptional
            (ZEnum ["VAULT_TOKEN"; "ENTITY_UNIQUE_COUNTER"; "ENTITY_ONLY"])));
      ("entities",
       ZDescribe "Specific entity types to detect (default: all)"
         (ZOptional (ZArray (ZEnum ENTITY_TYPES)))) ]).

Definition createDeidentifyOutputSchema : Completion Schema :=
  cbind getZod (fun _ =>
  Normal
    [ ("processedText",
       ZDescribe "Text with sensitive data replaced" ZString);
      ("wordCount",
       ZDescribe "Word count of processed text" (ZOptional ZNumber));
      ("charCount",
       ZDescribe "Character count of processed text" (ZOptional ZNumber));
      ("entitiesFound",
       ZDescribe "Number of entities found" (ZOptional ZNumber)) ]).

Definition createReidentifyInputSchema : Completion Schema :=
  cbind getZod (fun _ =>
  Normal
    [ ("inputString",
       ZDescribe "The text containing vault tokens to restore"
         (ZMin 1 ZString)) ]).

Definition createReidentifyOutputSchema : Completion Schema :=
  cbind getZod (fun _ =>
  Normal
    [ ("processedText",
       ZDescribe "Text with original data restored" ZString) ]).

End WithRuntime.

End Schemas.

(** ** mcp/tools/deidentify.ts, mcp/tools/reidentify.ts, mcp/register.ts *)
Module Tools.
Import Js Types Effects Client Schemas.
Local Open Scope eff_scope.

(** The arguments a handler is called with: the server hands both tools
    a record of named arguments; the reidentify tool reads [inputString]
    only. *)
Record ToolArgs := {
  inputString : string;
  arg_tokenType : option TokenType;
  arg_entities : option (list string);
}.

Record TextContent := { content_type : string; text : string }.

Record CallToolResult := {
  content : list TextContent;
  structuredContent : JsValue;
}.

(** A number that may be [undefined]. *)
Definition optional_number (n : option Z) : JsValue :=
  match n with
  | Some n => JsNumber n
  | None => JsUndefined
  end.

Definition quote : string := String (Ascii.ascii_of_nat 34) "".

Definition newline : string := String (Ascii.ascii_of_nat 10) "".

Section WithService.
Context {World : Type} {service : SkyflowNode.VaultService World}
        {runtime : Runtime}.

Record ToolDefinition := {
  name : string;
  title : string;
  description : string;
  inputSchema : Schema;
  outputSchema : Schema;
  handler : ToolArgs -> Eff World CallToolResult;
}.

Definition deidentify_handler (client : SkyflowMCP) (args : ToolArgs)
  : Eff World CallToolResult :=
  let* result :=
    deidentify client (inputString args)
      (Some {| tokenType := arg_tokenType args;
               entities := arg_entities args |}) in
  let output :=
    JsObject
      (<["processedText" := JsString (processedText result)]>
      (<["wordCount" := optional_number (wordCount result)]>
      (<["charCount" := optional_number (charCount result)]>
      (<["entitiesFound" :=
           optional_number
             ((fun es => Z.of_nat (length es)) <$> r_entities result)]> ∅)))) in
  ret {| content := [ {| content_type := "text";
                         text := JSON_stringify output |} ];
         structuredContent := output |}.

(** [namePrefix = ""]: an omitted prefix is the empty string. *)
Definition createDeidentifyTool (client : SkyflowMCP)
    (namePrefix : option string) : Completion ToolDefinition :=
  let namePrefix := default "" namePrefix in
  cbind createDeidentifyInputSchema (fun inputSchema =>
  cbind createDeidentifyOutputSchema (fun outputSchema =>
  Normal
    {| name := String.append namePrefix "deidentify";
       title := "Skyflow Deidentify Tool";
       description :=
         String.concat ""
           [ "Deidentify sensitive information in text using Skyflow.";
             newline;
             "Replaces PII/PHI (emails, SSNs, credit cards, etc.) with vault tokens that can be reversed.";
             newline;
             "Example: "; quote; "My email is john@example.com"; quote;
             " → "; quote; "My email is [EMAIL_ADDRESS_abc123]"; quote ];
       inputSchema := inputSchema;
       outputSchema := outputSchema;
       handler := deidentify_handler client |})).

Definition reidentify_handler (client : SkyflowMCP) (args : ToolArgs)
  : Eff World CallToolResult :=
  let* result := reidentify client (inputString args) in
  let output :=
    JsObject (<["processedText" := JsString (reidentified result)]> ∅) in
  ret {| content := [ {| content_type := "text";
                         text := JSON_stringify output |} ];
         structuredContent := output |}.

Definition createReidentifyTool (client : SkyflowMCP)
    (namePrefix : option string) : Completion ToolDefinition :=
  let namePrefix := default "" namePrefix in
  cbind createReidentifyInputSchema (fun inputSchema =>
  cbind createReidentifyOutputSchema (fun outputSchema =>
  Normal
    {| name := String.append namePrefix "reidentify";
       title := "Skyflow Reidentify Tool";
       description :=
         String.concat ""
           [ "Restore previously deidentified text using Skyflow.";
             newline;
             "Replaces vault tokens with their original sensitive values.";
             newline;
             "Example: "; quote; "My email is [EMAIL_ADDRESS_abc123]"; quote;
             " â†’ "; quote; "My email is john@example.com"; quote ];
       inputSchema := inputSchema;
       outputSchema := outputSchema;
       handler := reidentify_handler client |})).

Record RegisterToolsOptions := {
  includeDeidentify : option bool;
  includeReidentify : option bool;
  toolNamePrefix : option string;
}.

(** The second argument of [registerTool]. *)
Record ToolInfo := {
  info_title : string;
  info_description : string;
  info_inputSchema : Schema;
  info_outputSchema : Schema;
}.

(** [McpServerLike]: a server takes a name, the description of a tool
    and its handler; what [registerTool] returns is not used, but it may
    throw. *)
Class McpServerLike (Server : Type) := {
  registerTool :
    string -> ToolInfo -> (ToolArgs -> Eff World CallToolResult) ->
    Server -> Completion () * Server;
}.

Context {Server : Type} {mcp : McpServerLike Server}.

Definition register (tool : ToolDefinition) (server : Server)
  : Completion () * Server :=
  registerTool (name tool)
    {| info_title := title tool;
       info_description := description tool;
       info_inputSchema := inputSchema tool;
       info_outputSchema := outputSchema tool |}
    (fun args => handler tool args)
    server.

(** The server the promise settles with is returned beside the
    completion. *)
Definition registerSkyflowTools (server : Server)
    (clientOrConfig : SkyflowMCP + SkyflowMCPConfig)
    (options : option RegisterToolsOptions)
  : Completion () * Server :=
  let includeDeidentify_ := default true (options ≫= includeDeidentify) in
  let includeReidentify_ := default true (options ≫= includeReidentify) in
  let toolNamePrefix_ := default "" (options ≫= toolNamePrefix) in
  match (match clientOrConfig with
         | inl client => Normal client    (* instanceof SkyflowMCP *)
         | inr config => new_SkyflowMCP config
         end) with
  | Abrupt error => (Abrupt error, server)
  | Normal client =>
      let registered :=
        if includeDeidentify_ then
          match createDeidentifyTool client (Some toolNamePrefix_) with
          | Normal deidentifyTool => register deidentifyTool server
          | Abrupt error => (Abrupt error, server)
          end
        else (Normal (), server) in
      match registered with
      | (Abrupt error, server) => (Abrupt error, server)
      | (Normal _, server) =>
          if includeReidentify_ then
            match createReidentifyTool client (Some toolNamePrefix_) with
            | Normal reidentifyTool => register reidentifyTool server
            | Abrupt error => (Abrupt error, server)
            end
          else (Normal (), server)
      end
  end.

Definition registerSkyflowToolsFromEnv (server : Server)
    (options : option RegisterToolsOptions) (env : gmap string string)
  : Completion () * Server :=
  match createFromEnv None env with
  | Abrupt error => (Abrupt error, server)
  | Normal client => registerSkyflowTools server (inl client) options
  end.

End WithService.

End Tools.

(** ** More test doubles *)
Module ToolStubs.
Import Js Types Effects Client Middleware Schemas Tools.

(** A runtime with zod installed; the serialiser is a stand-in. *)
Definition with_zod : Runtime :=
  {| zod_installed := true; JSON_stringify := fun _ => "{}" |}.

Definition without_zod : Runtime :=
  {| zod_installed := false; JSON_stringify := fun _ => "{}" |}.

(** A server that takes every tool and keeps the names. *)
Definition recording_server : McpServerLike (World := ()) (list string) :=
  {| registerTool := fun name _ _ server => (Normal (), server ++ [name]) |}.

(** A vault whose reidentify call rejects with [failure]. *)
Definition failing_reidentify_service (failure : Thrown)
  : SkyflowNode.VaultService () :=
  {| SkyflowNode.Skyflow_new := fun _ => None;
     SkyflowNode.deidentifyText :=
       SkyflowNode.deidentifyText (VaultService := Stubs.stub_service);
     SkyflowNode.reidentifyText := fun _ _ w => (Abrupt failure, w) |}.

(** A vault that reports what it found. *)
Definition counting_service : SkyflowNode.VaultService () :=
  {| SkyflowNode.Skyflow_new := fun _ => None;
     SkyflowNode.deidentifyText := fun _ _ _ w =>
       (Normal {| SkyflowNode.resp_processedText := "My email is [EMAIL_ADDRESS_abc123]";
                  SkyflowNode.resp_entities := Some [JsString "EMAIL_ADDRESS"];
                  SkyflowNode.resp_wordCount := Some 4%Z;
                  SkyflowNode.resp_charCount := Some 28%Z |}, w);
     SkyflowNode.reidentifyText :=
       SkyflowNode.reidentifyText (VaultService := Stubs.stub_service) |}.

(** An SDK whose constructor throws. *)
Definition unavailable_sdk (failure : Thrown) : SkyflowNode.VaultService () :=
  {| SkyflowNode.Skyflow_new := fun _ => Some failure;
     SkyflowNode.deidentifyText :=
       SkyflowNode.deidentifyText (VaultService := Stubs.stub_service);
     SkyflowNode.reidentifyText :=
       SkyflowNode.reidentifyText (VaultService := Stubs.stub_service) |}.

(** An operation that rejects. *)
Definition failing_operation (failure : Thrown)
  : string -> () -> Completion JsValue * () :=
  fun _ w => (Abrupt failure, w).

(** Callbacks: one that returns, one that throws. *)
Definition quiet_callback {X} : X -> () -> Completion () * () :=
  fun _ w => (Normal (), w).

Definition throwing_callback {X} (failure : Thrown)
  : X -> () -> Completion () * () :=
  fun _ w => (Abrupt failure, w).

Definition callback_options
    (onDeidentify : option (DeidentifyResult -> () -> Completion () * ()))
    (onReidentify : option (string -> () -> Completion () * ()))
  : WrapWithProtectionOptions (World := ()) :=
  {| p_deidentify := {| tokenType := None; entities := None |};
     reidentifyOutput := None;
     reidentifyField := None;
     Middleware.onDeidentify := onDeidentify;
     Middleware.onReidentify := onReidentify |}.

Definition email_args : ToolArgs :=
  {| inputString := "My email is john@example.com";
     arg_tokenType := None;
     arg_entities := Some ["email_address"] |}.

Definition api_key_only : gmap string string :=
  <["SKYFLOW_VAULT_ID" := "env-vault-id"]>
  (<["SKYFLOW_VAULT_URL" := "https://envcluster.vault.skyflowapis.com"]>
  (<["SKYFLOW_API_KEY" := "env-api-key"]> ∅)).

Definition full_overrides : PartialConfig :=
  {| o_vaultId := Some "override-vault";
     o_vaultUrl := Some "https://override.vault.skyflowapis.com";
     o_credentials := Some (SkyflowNode.ApiKey "override-api-key");
     o_accountId := Some "override-account";
     o_workspaceId := Some "override-workspace";
     o_options := None |}.

End ToolStubs.

(** ** Words for the behaviour of the client, the envelope and the tools *)
Module Behaviour.
Import Js Types Effects Client Middleware Schemas Tools.

Definition is_ReidentifyError (e : SkyflowMCPError Thrown) : Prop :=
  Js.name e = "ReidentifyError" /\ code e = "REIDENTIFY_ERROR".

Definition is_ConfigurationError (e : SkyflowMCPError Thrown) : Prop :=
  Js.name e = "ConfigurationError" /\ code e = "CONFIGURATION_ERROR".




(** The options of [SkyflowMCP.wrap], read as options of
    [wrapWithProtection]: the same object, which has no field name and
    no callbacks. *)
Definition as_protection {World} (options : WrapOptions)
  : WrapWithProtectionOptions (World := World) :=
  {| p_deidentify := w_deidentify options;
     reidentifyOutput := w_reidentifyOutput options;
     reidentifyField := None;
     onDeidentify := None;
     onReidentify := None |}.



(** The token format of the external call: per call, then the client's
    default, then [VAULT_TOKEN]. *)
Definition sent_format (client : SkyflowMCP)
    (options : option DeidentifyOptions) : SkyflowNode.TokenFormat :=
  {| SkyflowNode.format_default :=
       Some (TOKEN_TYPE_MAP
               (default (default VAULT_TOKEN
                           (c_options (config client) ≫= defaultTokenType))
                        (options ≫= tokenType))) |}.

(** The argument of [new Skyflow(...)] for a configuration and the
    cluster id read from its url. *)
Definition sdk_for (config : SkyflowMCPConfig) (cluster : string)
  : SkyflowNode.Skyflow :=
  {| SkyflowNode.vaultConfigs :=
       [ {| SkyflowNode.init_vaultId := c_vaultId config;
            SkyflowNode.init_clusterId := cluster;
            SkyflowNode.init_credentials := c_credentials config |} ] |}.


(** The enumeration a schema type ends in, if any. *)
Fixpoint enum_of (t : ZodType) : option (list string) :=
  match t with
  | ZEnum values => Some values
  | ZArray item => enum_of item
  | ZMin _ inner => enum_of inner
  | ZOptional inner => enum_of inner
  | ZDescribe _ inner => enum_of inner
  | _ => None
  end.

(** The names a schema allows under [key]. *)
Definition allowed_names (key : string) (schema : Schema)
  : option (list string) :=
  EntityMaps.own_property key schema ≫= enum_of.

(** The error of [getZod]. *)
Definition zod_missing : Thrown :=
  Error "zod is required for MCP tool schemas. Install it with: npm install zod".

(** The options the deidentify tool passes to the client. *)
Definition options_of (args : ToolArgs) : option DeidentifyOptions :=
  Some {| tokenType := arg_tokenType args; entities := arg_entities args |}.

End Behaviour.

(** * Proofs *)

(** ** The matcher on the cluster pattern *)
Module MatcherFacts.
Import JsRegExp Validation ClusterLabel.

(** A constant comparison of two characters is evaluated. *)
Ltac eval_eqb :=
  match goal with
  | |- context [Ascii.eqb ?a ?b] =>
      let v := eval vm_compute in (Ascii.eqb a b) in
      match v with
      | true => change (Ascii.eqb a b) with true
      | false => change (Ascii.eqb a b) with false
      end
  end.

(** Case analysis on the leading characters of the input. *)
Ltac split_chars :=
  repeat first
    [ progress cbn [run cats has_prefix andb orb drop list_ascii_of_string
                    existsb is_dot]
    | eval_eqb
    | match goal with
      | |- context [match ?s with [] => _ | _ :: _ => _ end] =>
          is_var s; destruct s
      | |- context [Ascii.eqb ?a ?b] =>
          let H := fresh "H" in
          destruct (Ascii.eqb a b) eqn:H;
          [apply Ascii.eqb_eq in H; try subst|]
      end ].

Lemma has_prefix_length p s : has_prefix p s = true -> length p <= length s.
Proof.
  revert s. induction p as [|c p IH]; intros [|d s]; simpl; try done; try lia.
  intros [_ Hp]%andb_prop. apply IH in Hp. lia.
Qed.

(** A run of pattern characters matches exactly that prefix. *)
Lemma run_chars t s caps k :
  run (cats (map Chr t)) s caps k =
  if has_prefix t s then k (drop (length t) s) caps else None.
Proof.
  revert s. induction t as [|c [|c' t] IH]; intros s.
  - reflexivity.
  - destruct s as [|d s]; [done|]. simpl. by destruct (Ascii.eqb c d).
  - change (cats (map Chr (c :: c' :: t)))
      with (Cat (Chr c) (cats (map Chr (c' :: t)))).
    destruct s as [|d s]; [done|]. cbn [run has_prefix].
    destruct (Ascii.eqb c d); [|done]. rewrite IH. reflexivity.
Qed.

Lemma run_scheme s caps k :
  run scheme s caps k =
  if has_prefix https_scheme s then k (drop 8 s) caps
  else if has_prefix http_scheme s then k (drop 7 s) caps
  else None.
Proof.
  unfold scheme, https_scheme, http_scheme, orelse.
  split_chars; try done.
  all: try rewrite (proj2 (Nat.eqb_neq _ _)) by (simpl; lia).
  all: unfold orelse; try done.
  all: by destruct (k _ caps).
Qed.

Lemma https_not_http s :
  has_prefix https_scheme s = true -> has_prefix http_scheme s = false.
Proof. unfold https_scheme, http_scheme. split_chars; done. Qed.

(** *** The greedy run of characters other than a dot *)

Lemma nondot_run_app r rest :
  dotfree r -> at_dot rest -> nondot_run (r ++ rest) = (r, rest).
Proof.
  induction 1 as [|c r Hc Hr IH]; intros Hrest; cbn [app nondot_run].
  - destruct rest as [|c rest]; [done|]. cbn [nondot_run]. simpl in Hrest.
    by rewrite Hrest.
  - rewrite Hc, IH by done. done.
Qed.

Lemma nondot_run_spec s :
  s = (nondot_run s).1 ++ (nondot_run s).2 /\
  dotfree (nondot_run s).1 /\ at_dot (nondot_run s).2.
Proof.
  induction s as [|c s (IH1 & IH2 & IH3)]; cbn [nondot_run].
  - repeat split. constructor.
  - destruct (is_dot c) eqn:Hc; simpl.
    + repeat split; [constructor | done].
    + destruct (nondot_run s) as [r rest]; simpl in *.
      repeat split; [by f_equal | by constructor | done].
Qed.

(** Backtracking into a shorter run cannot help a continuation that
    needs a dot next: the iterations give the whole run. *)
Lemma star_nondot k fuel s caps :
  fails_off_dot k -> length s <= fuel ->
  star (run (NoneOf ["."%char])) k fuel s caps = k (nondot_run s).2 caps.
Proof.
  intros Hk. revert s. induction fuel as [|fuel IH]; intros s Hlen.
  - destruct s; [done | simpl in Hlen; lia].
  - destruct s as [|c s]; simpl.
    + by destruct (k [] caps).
    + unfold is_dot. rewrite orb_false_r.
      destruct (Ascii.eqb c ".") eqn:Hc; simpl.
      * done.
      * replace (Nat.eqb (length s) (S (length s))) with false
          by (symmetry; apply Nat.eqb_neq; lia).
        rewrite IH by (simpl in Hlen; lia).
        destruct (nondot_run s) as [r rest]; simpl.
        rewrite (Hk c s caps Hc). by destruct (k rest caps).
Qed.

Lemma plus_nondot k s caps :
  fails_off_dot k ->
  run (Plus (NoneOf ["."%char])) s caps k =
  match nondot_run s with
  | ([], _) => None
  | (_ :: _, rest) => k rest caps
  end.
Proof.
  intros Hk. destruct s as [|c s]; simpl; [done|].
  unfold is_dot. rewrite orb_false_r.
  destruct (Ascii.eqb c "."); simpl; [done|].
  rewrite star_nondot by done. by destruct (nondot_run s).
Qed.

Lemma consumed_app (r rest : list ascii) : consumed (r ++ rest) rest = r.
Proof.
  unfold consumed. rewrite length_app.
  replace (length r + length rest - length rest) with (length r) by lia.
  by rewrite take_app_length.
Qed.

(** *** One attempt of the whole pattern *)

Lemma run_label s caps :
  run (Cat (Capture 1 (Plus (NoneOf ["."%char]))) (cats (map Chr dot_vault)))
      s caps final =
  match attempt s with
  | Some (r, after) => Some (after, (1, r) :: caps)
  | None => None
  end.
Proof.
  change (run (Cat (Capture 1 ?p) ?q) s caps final)
    with (run p s caps (fun s' caps' =>
            run q s' ((1, consumed s s') :: caps') final)).
  rewrite plus_nondot.
  - unfold attempt. pose proof (nondot_run_spec s) as (Hs & _ & _).
    destruct (nondot_run s) as [[|c r] rest]; [done|]. simpl in Hs.
    rewrite run_chars.
    destruct (has_prefix dot_vault rest); [|done].
    unfold final. rewrite Hs at 1.
    change (c :: r ++ rest) with ((c :: r) ++ rest). by rewrite consumed_app.
  - intros c s' caps' Hc. rewrite run_chars.
    unfold dot_vault. cbn [has_prefix]. unfold is_dot in Hc.
    rewrite Ascii.eqb_sym, Hc. done.
Qed.

Lemma match_here_cluster s :
  match_here cluster_pattern s =
  match attempt_here s with
  | Some (r, after) => Some (after, [(1, r)])
  | None => None
  end.
Proof.
  unfold match_here, cluster_pattern.
  change (cats _) with
    (Cat (Opt (Group scheme))
       (Cat (Capture 1 (Plus (NoneOf ["."%char]))) (cats (map Chr dot_vault)))).
  change (run (Cat ?p ?q) s [] ?k)
    with (run p s [] (fun s' caps' => run q s' caps' k)).
  change (run (Opt (Group scheme)) s [] ?k)
    with (orelse
            (run scheme s [] (fun s' caps' =>
               if Nat.eqb (length s') (length s) then None else k s' caps'))
            (k s [])).
  rewrite run_scheme. unfold attempt_here, orelse.
  fold final. rewrite !run_label.
  destruct (has_prefix https_scheme s) eqn:Hs.
  - apply has_prefix_length in Hs. change (length https_scheme) with 8 in Hs.
    rewrite (proj2 (Nat.eqb_neq _ _)) by (rewrite length_drop; lia).
    destruct (attempt (drop 8 s)) as [[r after]|]; [done|].
    by destruct (attempt s) as [[r after]|].
  - destruct (has_prefix http_scheme s) eqn:Hh.
    + apply has_prefix_length in Hh. change (length http_scheme) with 7 in Hh.
      rewrite (proj2 (Nat.eqb_neq _ _)) by (rewrite length_drop; lia).
      destruct (attempt (drop 7 s)) as [[r after]|]; [done|].
      by destruct (attempt s) as [[r after]|].
    + by destruct (attempt s) as [[r after]|].
Qed.

(** *** The leftmost match *)

Lemma search_cluster s :
  (fun m => lookup_capture 1 m.2.2) <$> search cluster_pattern s
  = Some <$> first_label s.
Proof.
  induction s as [|c s IH]; cbn [search first_label];
    rewrite match_here_cluster;
    destruct (attempt_here _) as [[r after]|]; try done.
Qed.

Lemma extractClusterId_first_label url :
  extractClusterId url =
  string_of_list_ascii <$> first_label (list_ascii_of_string url).
Proof.
  unfold extractClusterId, js_match.
  pose proof (search_cluster (list_ascii_of_string url)) as H.
  destruct (search cluster_pattern _) as [[s [s' caps]]|]; simpl in *.
  - destruct (first_label _) as [l|]; [|done]. simpl in H.
    injection H as H. by rewrite H.
  - by destruct (first_label _).
Qed.

Lemma has_prefix_app_dotfree p r rest :
  dotfree p -> at_dot rest -> has_prefix p (r ++ rest) = has_prefix p r.
Proof.
  intros Hp Hrest. revert r.
  induction Hp as [|c p Hc Hp IH]; intros r; [done|].
  destruct r as [|d r]; cbn [app has_prefix].
  - destruct rest as [|d rest]; [done|]. simpl in Hrest.
    cbn [has_prefix]. unfold is_dot in *.
    destruct (Ascii.eqb c d) eqn:Hcd; [|done].
    apply Ascii.eqb_eq in Hcd. congruence.
  - by rewrite IH.
Qed.

Lemma attempt_app r rest :
  dotfree r -> at_dot rest ->
  attempt (r ++ rest) =
  if nonempty r && has_prefix dot_vault rest
  then Some (r, drop 6 rest) else None.
Proof.
  intros Hr Hrest. unfold attempt. rewrite nondot_run_app by done.
  by destruct r.
Qed.

Lemma dotfree_https : dotfree https_scheme.
Proof. repeat constructor. Qed.

Lemma dotfree_http : dotfree http_scheme.
Proof. repeat constructor. Qed.

Lemma nonempty_length (r : list ascii) n :
  S n <= length r -> nonempty r = true.
Proof. destruct r; simpl; [lia | done]. Qed.

Lemma attempt_here_app r rest :
  dotfree r -> at_dot rest ->
  attempt_here (r ++ rest) =
  if nonempty r && has_prefix dot_vault rest
  then Some (skip_scheme r, drop 6 rest) else None.
Proof.
  intros Hr Hrest. unfold attempt_here, skip_scheme.
  rewrite !has_prefix_app_dotfree by auto using dotfree_https, dotfree_http.
  rewrite (attempt_app r rest) by done.
  destruct (has_prefix https_scheme r) eqn:Hs.
  - rewrite (https_not_http _ Hs).
    pose proof (has_prefix_length _ _ Hs) as Hlen.
    change (length https_scheme) with 8 in Hlen.
    rewrite drop_app_le by done.
    rewrite attempt_app by (done || by apply Forall_drop).
    rewrite (nonempty_length r 7) by done.
    cbn [andb].
    destruct (nonempty (drop 8 r)) eqn:Hne; cbn [andb]; [|done].
    by destruct (has_prefix dot_vault rest).
  - cbn [andb]. destruct (has_prefix http_scheme r) eqn:Hh; [|done].
    pose proof (has_prefix_length _ _ Hh) as Hlen.
    change (length http_scheme) with 7 in Hlen.
    rewrite drop_app_le by done.
    rewrite attempt_app by (done || by apply Forall_drop).
    rewrite (nonempty_length r 6) by done.
    cbn [andb].
    destruct (nonempty (drop 7 r)) eqn:Hne; cbn [andb]; [|done].
    by destruct (has_prefix dot_vault rest).
Qed.

(** A run that [.vault] does not follow rules out every position in
    it, and the dot after it. *)
Lemma first_label_run r rest :
  dotfree r -> at_dot rest ->
  first_label (r ++ rest) =
  if nonempty r && has_prefix dot_vault rest then Some (skip_scheme r)
  else match rest with
       | [] => None
       | _ :: rest' => first_label rest'
       end.
Proof.
  intros Hr Hrest. induction Hr as [|c r Hc Hr IH].
  - cbn [app nonempty andb].
    destruct rest as [|d rest]; [done|].
    cbn [first_label].
    change (attempt_here (d :: rest)) with (attempt_here ([] ++ d :: rest)).
    rewrite (attempt_here_app [] (d :: rest)) by (done || constructor).
    done.
  - change ((c :: r) ++ rest) with (c :: r ++ rest). cbn [first_label].
    change (c :: r ++ rest) with ((c :: r) ++ rest).
    rewrite attempt_here_app by (done || by constructor).
    cbn [nonempty andb].
    destruct (has_prefix dot_vault rest) eqn:Hv; [done|].
    rewrite IH. by rewrite andb_false_r.
Qed.

Lemma first_label_scan r s :
  dotfree r -> first_label (r ++ s) = scan r s.
Proof.
  revert r. induction s as [|c s IH]; intros r Hr.
  - rewrite first_label_run by done. cbn [scan].
    by rewrite andb_false_r.
  - cbn [scan]. destruct (is_dot c) eqn:Hc.
    + rewrite first_label_run by done.
      unfold dot_vault. cbn [has_prefix].
      unfold is_dot in Hc. rewrite Ascii.eqb_sym, Hc. cbn [andb].
      destruct (nonempty r && has_prefix vault s); [done|].
      apply (IH []). constructor.
    + rewrite <- IH.
      * by rewrite <- app_assoc.
      * apply Forall_app. split; [done | by repeat constructor].
Qed.

(** The matcher computes the direct reading [label_of]. *)
Lemma extractClusterId_label_of url : extractClusterId url = label_of url.
Proof.
  rewrite extractClusterId_first_label. unfold label_of.
  by rewrite <- (first_label_scan []) by constructor.
Qed.

Lemma skip_scheme_label r :
  dotfree r -> nonempty r = true ->
  dotfree (skip_scheme r) /\ nonempty (skip_scheme r) = true.
Proof.
  intros Hr Hne. unfold skip_scheme.
  destruct (has_prefix https_scheme r && nonempty (drop 8 r)) eqn:H1.
  - apply andb_prop in H1 as [_ H1]. split; [by apply Forall_drop | done].
  - destruct (has_prefix http_scheme r && nonempty (drop 7 r)) eqn:H2.
    + apply andb_prop in H2 as [_ H2]. split; [by apply Forall_drop | done].
    + done.
Qed.

Lemma scan_label r s l :
  dotfree r -> scan r s = Some l -> dotfree l /\ nonempty l = true.
Proof.
  revert r. induction s as [|c s IH]; intros r Hr; cbn [scan]; [done|].
  destruct (is_dot c) eqn:Hc.
  - destruct (nonempty r && has_prefix vault s) eqn:Hv.
    + intros [= <-]. apply andb_prop in Hv as [Hne _].
      by apply skip_scheme_label.
    + apply IH. constructor.
  - apply IH. apply Forall_app. split; [done | by repeat constructor].
Qed.

Lemma list_ascii_of_list l :
  list_ascii_of_string (string_of_list_ascii l) = l.
Proof. apply list_ascii_of_string_of_list_ascii. Qed.

(** What comes back is a label: not empty, and without a dot. *)
Lemma extractClusterId_label url label :
  extractClusterId url = Some label -> label <> "" /\ no_dot label.
Proof.
  rewrite extractClusterId_label_of. unfold label_of, no_dot.
  destruct (scan [] _) as [l|] eqn:Hscan; [|done].
  intros [= <-]. apply scan_label in Hscan as [Hdot Hne]; [|constructor].
  rewrite list_ascii_of_list. split; [|done].
  destruct l; [done|]. discriminate.
Qed.

Lemma extractClusterId_truthy url :
  truthy (extractClusterId url) = true <-> is_Some (extractClusterId url).
Proof.
  destruct (extractClusterId url) as [label|] eqn:H; simpl.
  - apply extractClusterId_label in H as [Hne _].
    split; [eauto|]. intros _. destruct label; [done|]. done.
  - split; [done|]. by intros [? ?].
Qed.

End MatcherFacts.

(** ** The validator *)
Section ValidatorClaims.
Import Validation ClusterLabel MatcherFacts.

Lemma append_empty_r s : String.append s "" = s.
Proof.
  induction s as [|c s IH]; [reflexivity|].
  change (String c (String.append s "") = String c s). by rewrite IH.
Qed.

Lemma contains_refl s : contains s s.
Proof.
  exists "", "". change (s = String.append s ""). by rewrite append_empty_r.
Qed.

Lemma contains_prefix sub post : contains sub (String.append sub post).
Proof. by exists "", post. Qed.

Lemma truthy_false v : truthy v = false <-> absent_or_empty v.
Proof.
  unfold absent_or_empty. destruct v as [[|c s]|]; simpl; split;
    first [done | by auto | by intros [?|?]].
Qed.

Lemma truthy_true v : truthy v = true <-> exists s, v = Some s /\ s <> "".
Proof.
  destruct v as [[|c s]|]; simpl; split; try done.
  - intros (s & [= <-] & Hs). done.
  - intros _. by eexists.
  - intros (s & ? & _). done.
Qed.

(** A vault id, a vault url and a cluster id that are all there give the
    configuration. *)
Lemma validateVaultConfig_valid vid vurl cid account workspace :
  vid <> "" -> vurl <> "" -> extractClusterId vurl = Some cid ->
  validateVaultConfig
    {| p_vaultId := Some vid; p_vaultUrl := Some vurl;
       p_accountId := account; p_workspaceId := workspace |}
  = {| isValid := true;
       error := None;
       config := Some {| vaultId := vid;
                         vaultUrl := vurl;
                         clusterId := cid;
                         accountId := account;
                         workspaceId := workspace |} |}.
Proof.
  intros Hvid Hvurl Hcid. unfold validateVaultConfig. simpl.
  destruct vid; [done|]. destruct vurl; [done|]. simpl. rewrite Hcid.
  apply extractClusterId_label in Hcid as [Hne _].
  by destruct cid.
Qed.

(** C5. [extractClusterId] is total and pure: the embedding is a closed
    function of its argument, so it returns on every string, throws
    nothing, and a second call gives what the first gave; what it
    returns is [null] or a label that is not empty (and has no dot); and
    the five listed values are as stated. *)
Theorem extractClusterId_total_pure :
  (forall s : string,
     extractClusterId s = None \/
     exists label,
       extractClusterId s = Some label /\ label <> "" /\ no_dot label) /\
  (forall s : string,
     let first := extractClusterId s in
     let again := extractClusterId s in
     again = first) /\
  extractClusterId "https://abc123.vault.skyflowapis.com" = Some "abc123" /\
  extractClusterId "abc123.vault.skyflowapis.com" = Some "abc123" /\
  extractClusterId "http://abc123.vault.skyflowapis.com" = Some "abc123" /\
  extractClusterId "https://invalid.com" = None /\
  extractClusterId "" = None.
Proof.
  split; [|split; [done|by vm_compute]].
  intros s. destruct (extractClusterId s) as [label|] eqn:H; [right|by left].
  exists label. split; [done|]. by apply (extractClusterId_label s).
Qed.

(** C6. [validateVaultConfig] case by case: a vault id that is absent
    or empty; else a vault url that is absent or empty; else a url from
    which no cluster id is extracted; else success, with the
    configuration built from the parameters and the extracted id, the
    optional ids carried over as they are. *)
Theorem validateVaultConfig_characterised (params : VaultParams) :
  let result := validateVaultConfig params in
  (absent_or_empty (p_vaultId params) ->
     isValid result = false /\ config result = None /\
     exists e, error result = Some e /\ contains "vaultId is required" e) /\
  (~ absent_or_empty (p_vaultId params) ->
   absent_or_empty (p_vaultUrl params) ->
     isValid result = false /\ config result = None /\
     exists e, error result = Some e /\ contains "vaultUrl is required" e) /\
  (forall vid vurl,
     p_vaultId params = Some vid -> vid <> "" ->
     p_vaultUrl params = Some vurl -> vurl <> "" ->
     extractClusterId vurl = None ->
     isValid result = false /\ config result = None /\
     exists e, error result = Some e /\
               contains "Invalid vaultUrl format" e /\
               contains "https://<clusterId>.vault." e) /\
  (forall vid vurl cid,
     p_vaultId params = Some vid -> vid <> "" ->
     p_vaultUrl params = Some vurl -> vurl <> "" ->
     extractClusterId vurl = Some cid ->
     result = {| isValid := true;
                 error := None;
                 config := Some {| vaultId := vid;
                                   vaultUrl := vurl;
                                   clusterId := cid;
                                   accountId := p_accountId params;
                                   workspaceId := p_workspaceId params |} |}).
Proof.
  cbv zeta. split; [|split; [|split]].
  - intros Hid%truthy_false. unfold validateVaultConfig. rewrite Hid.
    do 2 (split; [done|]). eexists. split; [done | apply contains_refl].
  - intros Hid Hurl%truthy_false. rewrite <- truthy_false in Hid.
    apply not_false_is_true in Hid.
    unfold validateVaultConfig. rewrite Hid, Hurl.
    do 2 (split; [done|]). eexists. split; [done | apply contains_refl].
  - intros vid vurl Hid Hvid Hurl Hvurl Hcid.
    unfold validateVaultConfig. rewrite Hid, Hurl. simpl.
    destruct vid; [done|]. destruct vurl; [done|]. simpl. rewrite Hcid.
    do 2 (split; [done|]). eexists. split; [done|]. split.
    + apply contains_prefix with (sub := "Invalid vaultUrl format").
    + by exists "Invalid vaultUrl format. Expected format: ",
                "skyflowapis.com".
  - intros vid vurl cid Hid Hvid Hurl Hvurl Hcid.
    destruct params as [pid purl account workspace]. simpl in *. subst.
    by apply validateVaultConfig_valid.
Qed.

(** The four cases of C6 at the inputs of the unit tests. *)
Lemma validateVaultConfig_cases_witness :
  (let params := {| p_vaultId := None;
                    p_vaultUrl := Some "https://abc123.vault.skyflowapis.com";
                    p_accountId := None; p_workspaceId := None |} in
   absent_or_empty (p_vaultId params) /\
   isValid (validateVaultConfig params) = false) /\
  (let params := {| p_vaultId := Some "vault-123"; p_vaultUrl := Some "";
                    p_accountId := None; p_workspaceId := None |} in
   absent_or_empty (p_vaultUrl params) /\
   isValid (validateVaultConfig params) = false) /\
  (let params := {| p_vaultId := Some "vault-123";
                    p_vaultUrl := Some "https://invalid.com";
                    p_accountId := None; p_workspaceId := None |} in
   extractClusterId "https://invalid.com" = None /\
   isValid (validateVaultConfig params) = false) /\
  (let params := {| p_vaultId := Some "vault-123";
                    p_vaultUrl := Some "https://abc123.vault.skyflowapis.com";
                    p_accountId := Some "account-456";
                    p_workspaceId := None |} in
   extractClusterId "https://abc123.vault.skyflowapis.com" = Some "abc123" /\
   validateVaultConfig params =
     {| isValid := true;
        error := None;
        config := Some {| vaultId := "vault-123";
                          vaultUrl := "https://abc123.vault.skyflowapis.com";
                          clusterId := "abc123";
                          accountId := Some "account-456";
                          workspaceId := None |} |}).
Proof.
  cbv zeta. split; [|split; [|split]].
  - match goal with |- _ /\ isValid (validateVaultConfig ?p) = _ =>
      destruct (validateVaultConfig_characterised p) as (H & _) end.
    split; [by left|]. apply H. by left.
  - match goal with |- _ /\ isValid (validateVaultConfig ?p) = _ =>
      destruct (validateVaultConfig_characterised p) as (_ & H & _) end.
    split; [by right|]. apply H; [|by right].
    intros [?|?]; discriminate.
  - match goal with |- _ /\ isValid (validateVaultConfig ?p) = _ =>
      destruct (validateVaultConfig_characterised p) as (_ & _ & H & _) end.
    split; [reflexivity|].
    eapply H; try reflexivity; discriminate.
  - match goal with |- _ /\ validateVaultConfig ?p = _ =>
      destruct (validateVaultConfig_characterised p) as (_ & _ & _ & H) end.
    split; [reflexivity|].
    eapply H; try reflexivity; discriminate.
Defined.

(** *** The label and the first [.vault] *)

Lemma scan_agrees_when_labelled r0 s r :
  run_before_first_vault r0 s = Some r -> nonempty r = true ->
  scan r0 s = Some (skip_scheme r).
Proof.
  revert r0. induction s as [|c s IH]; intros r0; cbn [run_before_first_vault scan];
    [done|].
  destruct (is_dot c); [|by apply IH].
  destruct (has_prefix vault s).
  - intros [= ->] ->. done.
  - rewrite andb_false_r. by apply IH.
Qed.

Lemma scan_none_without_vault r0 s :
  run_before_first_vault r0 s = None -> scan r0 s = None.
Proof.
  revert r0. induction s as [|c s IH]; intros r0; cbn [run_before_first_vault scan];
    [done|].
  destruct (is_dot c); [|by apply IH].
  destruct (has_prefix vault s); [done|].
  rewrite andb_false_r. by apply IH.
Qed.

(** C9, as stated, fails: in [.vault.x.vault] nothing stands in front of
    the first [.vault], and the function goes on to the next one and
    returns [x]. *)
Lemma first_vault_without_label_counterexample :
  run_before_first_vault [] (list_ascii_of_string ".vault.x.vault") = Some [] /\
  extractClusterId ".vault.x.vault" = Some "x" /\
  ~ returns_run_before_first_vault ".vault.x.vault".
Proof.
  split; [reflexivity|]. split; [reflexivity|].
  intros (r & Hr & H). vm_compute in Hr. injection Hr as <-.
  vm_compute in H. destruct H as [H|H]; discriminate.
Qed.

(** C9, amended. [extractClusterId] returns the run of characters other
    than a dot in front of the first [.vault] that comes directly after
    such a character ([null] when there is none), less a leading
    [http://] or [https://] when something is left after it. So it is
    the run in front of the first [.vault] whenever that run is not
    empty; [vault] need not be a whole label, nor the cluster label the
    first one; and [validateVaultConfig] accepts every url with such a
    label. *)
Theorem extractClusterId_first_labelled_vault :
  (forall url, extractClusterId url = label_of url) /\
  (forall url r,
     run_before_first_vault [] (list_ascii_of_string url) = Some r ->
     r <> [] ->
     extractClusterId url = Some (string_of_list_ascii (skip_scheme r))) /\
  (forall url,
     run_before_first_vault [] (list_ascii_of_string url) = None ->
     extractClusterId url = None) /\
  extractClusterId "foo.vaultbar.com" = Some "foo" /\
  extractClusterId "https://a.b.vault.com" = Some "b" /\
  (forall vid url account workspace,
     vid <> "" -> is_Some (label_of url) ->
     isValid (validateVaultConfig
                {| p_vaultId := Some vid; p_vaultUrl := Some url;
                   p_accountId := account; p_workspaceId := workspace |})
     = true).
Proof.
  split; [apply extractClusterId_label_of|].
  split; [|split; [|split; [reflexivity|split; [reflexivity|]]]].
  - intros url r Hr Hne. rewrite extractClusterId_label_of. unfold label_of.
    rewrite (scan_agrees_when_labelled _ _ r); [done..|]. by destruct r.
  - intros url Hr. rewrite extractClusterId_label_of. unfold label_of.
    by rewrite scan_none_without_vault.
  - intros vid url account workspace Hvid [label Hlabel].
    rewrite <- extractClusterId_label_of in Hlabel.
    assert (url <> "") as Hurl by (intros ->; discriminate).
    by rewrite (validateVaultConfig_valid vid url label).
Qed.

(** The amended C9 at urls whose [vault] is not a whole label and whose
    cluster label is not the first. *)
Lemma extractClusterId_first_labelled_vault_witness :
  (run_before_first_vault [] (list_ascii_of_string "https://a.b.vault.com")
     = Some (list_ascii_of_string "b") /\
   extractClusterId "https://a.b.vault.com" = Some "b") /\
  ("vault-123" <> "" /\ is_Some (label_of "foo.vaultbar.com") /\
   isValid (validateVaultConfig
              {| p_vaultId := Some "vault-123";
                 p_vaultUrl := Some "foo.vaultbar.com";
                 p_accountId := None; p_workspaceId := None |}) = true).
Proof.
  destruct extractClusterId_first_labelled_vault
    as (_ & Hrun & _ & _ & _ & Hvalid).
  split.
  - split; [reflexivity|].
    apply (Hrun "https://a.b.vault.com" (list_ascii_of_string "b"));
      [reflexivity | discriminate].
  - split; [discriminate|]. split; [by eexists|].
    apply Hvalid; [discriminate | by eexists].
Defined.

End ValidatorClaims.

(** ** The envelope *)
Import Js EntityMaps Types Effects Errors Client Middleware Stubs Spec.
Import Validation(truthy, or_else).
Import ClusterLabel(absent_or_empty, contains).

Section EnvelopeFacts.
Context {World : Type} {service : SkyflowNode.VaultService World}.

Lemma operations_app (t u : list Event) :
  operations (t ++ u) = operations t ++ operations u.
Proof. apply omap_app. Qed.

Lemma reidentify_calls_app (t u : list Event) :
  reidentify_calls (t ++ u) = reidentify_calls t ++ reidentify_calls u.
Proof. apply omap_app. Qed.

Lemma deidentify_calls_app (t u : list Event) :
  deidentify_calls (t ++ u) = deidentify_calls t ++ deidentify_calls u.
Proof. apply omap_app. Qed.

(** What [deidentify] does, by the outcome of its steps. *)
Lemma deidentify_run (this : SkyflowMCP) text options (sys : Sys World) :
  deidentify this text options sys =
  match deidentifyOptions_for this options with
  | Abrupt error =>
      (Abrupt (reclassify DeidentifyError "Unknown deidentify error" error), sys)
  | Normal o =>
      let '(c, w') := SkyflowNode.deidentifyText (skyflow this) text o (world sys) in
      let sys' := {| world := w'; trace := trace sys ++ [CallDeidentifyText text o] |} in
      match c with
      | Normal response =>
          (Normal {| processedText := SkyflowNode.resp_processedText response;
                     r_entities := SkyflowNode.resp_entities response;
                     wordCount := SkyflowNode.resp_wordCount response;
                     charCount := SkyflowNode.resp_charCount response |}, sys')
      | Abrupt error =>
          (Abrupt (reclassify DeidentifyError "Unknown deidentify error" error), sys')
      end
  end.
Proof.
  unfold deidentify, try_catch, bind, lift, call, ret, throw.
  destruct (deidentifyOptions_for this options) as [o|error]; [|done].
  destruct (SkyflowNode.deidentifyText _ _ _ _) as [[response|error] w']; done.
Qed.

Lemma reidentify_run (this : SkyflowMCP) text (sys : Sys World) :
  reidentify this text sys =
  let '(c, w') := SkyflowNode.reidentifyText (skyflow this) text (world sys) in
  let sys' := {| world := w'; trace := trace sys ++ [CallReidentifyText text] |} in
  match c with
  | Normal response =>
      (Normal {| reidentified := SkyflowNode.reid_processedText response |}, sys')
  | Abrupt error =>
      (Abrupt (reclassify ReidentifyError "Unknown reidentify error" error), sys')
  end.
Proof.
  unfold reidentify, try_catch, bind, call, ret, throw.
  destruct (SkyflowNode.reidentifyText _ _ _) as [[response|error] w']; done.
Qed.

Lemma deidentify_quiet (this : SkyflowMCP) text options (sys : Sys World) :
  no_operation_since sys (deidentify this text options sys).2 /\
  no_reidentify_since sys (deidentify this text options sys).2.
Proof.
  unfold no_operation_since, no_reidentify_since. rewrite deidentify_run.
  destruct (deidentifyOptions_for this options) as [o|error]; [|done].
  destruct (SkyflowNode.deidentifyText _ _ _ _) as [[response|error] w'];
    simpl; rewrite operations_app, reidentify_calls_app; simpl;
    by rewrite !app_nil_r.
Qed.

Lemma reidentify_once (this : SkyflowMCP) text (sys : Sys World) :
  one_reidentify_since sys (reidentify this text sys).2 text /\
  no_operation_since sys (reidentify this text sys).2.
Proof.
  unfold one_reidentify_since, no_operation_since. rewrite reidentify_run.
  destruct (SkyflowNode.reidentifyText _ _ _) as [[response|error] w'];
    simpl; rewrite operations_app, reidentify_calls_app; simpl;
    by rewrite !app_nil_r.
Qed.

Lemma call_optional_quiet {X} (e : Event)
    (cb : option (X -> World -> Completion () * World)) x (sys : Sys World) :
  (forall p, e <> CallOperation p) -> (forall t, e <> CallReidentifyText t) ->
  no_operation_since sys (call_optional e cb x sys).2 /\
  no_reidentify_since sys (call_optional e cb x sys).2.
Proof.
  intros Ho Hr. unfold no_operation_since, no_reidentify_since, call_optional.
  destruct cb as [f|]; [|done]. unfold call.
  destruct (f x (world sys)) as [c w']. simpl.
  rewrite operations_app, reidentify_calls_app.
  destruct e; simpl; rewrite ?app_nil_r; try done.
  - by destruct (Hr text).
  - by destruct (Ho protectedInput).
Qed.

Lemma default_options_for (this : SkyflowMCP) :
  deidentifyOptions_for this (Some (p_deidentify (no_options (World:=World))))
  = deidentifyOptions_for this None.
Proof. reflexivity. Qed.

(** C1. With the default options, once the external deidentify call has
    succeeded, the envelope (either one) calls the operation exactly once,
    with the text that call produced; and when the operation returns a
    string, reidentify is called on that string, once, and what it gives
    is returned in place of the string. *)
Theorem envelope_default_path (client : SkyflowMCP) (input : string)
    (operation : Operation) (sys : Sys World) o response w1 :
  deidentifyOptions_for client None = Normal o ->
  SkyflowNode.deidentifyText (skyflow client) input o (world sys)
    = (Normal response, w1) ->
  let protectedText := SkyflowNode.resp_processedText response in
  forall envelope : Eff World JsValue,
    envelope = wrapWithProtection client input operation None \/
    envelope = wrap client input operation None ->
    one_operation_since sys (envelope sys).2 protectedText /\
    forall str w2,
      operation protectedText w1 = (Normal (JsString str), w2) ->
      one_reidentify_since sys (envelope sys).2 str /\
      forall restored w3,
        SkyflowNode.reidentifyText (skyflow client) str w2
          = (Normal restored, w3) ->
        (envelope sys).1
          = Normal (JsString (SkyflowNode.reid_processedText restored)).
Proof.
  intros Hopts Hde protectedText envelope Henv.
  assert (envelope sys =
    let sys1 := {| world := w1; trace := trace sys ++ [CallDeidentifyText input o] |} in
    let '(c, w2) := operation protectedText w1 in
    let sys2 := {| world := w2; trace := trace sys1 ++ [CallOperation protectedText] |} in
    match c with
    | Normal (JsString str) =>
        let '(r, sys3) := reidentify client str sys2 in
        match r with
        | Normal r => (Normal (JsString (reidentified r)), sys3)
        | Abrupt t => (Abrupt t, sys3)
        end
    | Normal result => (Normal result, sys2)
    | Abrupt t => (Abrupt t, sys2)
    end) as Hrun.
  { destruct Henv as [-> | ->].
    - unfold wrapWithProtection, bind. simpl default.
      rewrite deidentify_run, default_options_for, Hopts, Hde. simpl.
      unfold call, ret. simpl.
      destruct (operation _ w1) as [[result|t] w2]; simpl; [|done].
      by destruct result.
    - unfold wrap, bind. simpl.
      rewrite deidentify_run, Hopts, Hde. simpl.
      unfold call, ret. simpl.
      destruct (operation _ w1) as [[result|t] w2]; simpl; [|done].
      by destruct result. }
  rewrite Hrun. clear Hrun Henv envelope. cbv zeta. split.
  - unfold one_operation_since.
    destruct (operation protectedText w1) as [[result|t] w2].
    + destruct result;
        try (simpl; rewrite !operations_app; simpl; by rewrite !app_nil_r).
      pose proof (reidentify_once client s
        {| world := w2;
           trace := (trace sys ++ [CallDeidentifyText input o])
                    ++ [CallOperation protectedText] |}) as [_ Hq].
      destruct (reidentify client s _) as [[r|t] sys3];
        simpl in *; unfold no_operation_since in Hq; simpl in Hq; rewrite Hq;
        rewrite !operations_app; simpl; by rewrite !app_nil_r.
    + simpl. rewrite !operations_app. simpl. by rewrite !app_nil_r.
  - intros str w2 ->.
    pose proof (reidentify_once client str
      {| world := w2;
         trace := (trace sys ++ [CallDeidentifyText input o])
                  ++ [CallOperation protectedText] |}) as [Hq _].
    rewrite reidentify_run in *.
    destruct (SkyflowNode.reidentifyText _ _ _) as [[r|t] w3] eqn:Hre;
      simpl in *; unfold one_reidentify_since in *; simpl in *.
    + split.
      * rewrite Hq, !reidentify_calls_app. simpl. by rewrite !app_nil_r.
      * by intros restored w3' [= <- <-].
    + split.
      * rewrite Hq, !reidentify_calls_app. simpl. by rewrite !app_nil_r.
      * done.
Qed.

Lemma not_one_and_none (t : list string) text : t ++ [text] <> t.
Proof.
  intros H. apply (f_equal length) in H. rewrite length_app in H.
  simpl in H. lia.
Qed.

(** After the operation has returned [result] in state [sys3]: the last
    step of [wrapWithProtection]. *)
Lemma wrapWithProtection_prefix (client : SkyflowMCP) input
    (operation : Operation) options (sys : Sys World) d sys1 sys2 result w3 :
  let opts := default no_options options in
  deidentify client input (Some (p_deidentify opts)) sys = (Normal d, sys1) ->
  call_optional (CallOnDeidentify d) (onDeidentify opts) d sys1
    = (Normal (), sys2) ->
  operation (processedText d) (world sys2) = (Normal result, w3) ->
  let sys3 := {| world := w3;
                 trace := trace sys2 ++ [CallOperation (processedText d)] |} in
  no_reidentify_since sys sys3 /\
  one_operation_since sys sys3 (processedText d) /\
  wrapWithProtection client input operation options sys =
  if negb (default true (reidentifyOutput opts)) then (Normal result, sys3)
  else
    match result with
    | JsString str =>
        match reidentify client str sys3 with
        | (Normal r, sys4) =>
            match call_optional (CallOnReidentify (reidentified r))
                    (onReidentify opts) (reidentified r) sys4 with
            | (Normal _, sys5) => (Normal (JsString (reidentified r)), sys5)
            | (Abrupt t, sys5) => (Abrupt t, sys5)
            end
        | (Abrupt t, sys4) => (Abrupt t, sys4)
        end
    | JsObject fields =>
        match reidentifyField opts with
        | Some field =>
            if String.eqb field "" then (Normal result, sys3)
            else
              match fields !! field with
              | Some (JsString fieldValue) =>
                  match reidentify client fieldValue sys3 with
                  | (Normal r, sys4) =>
                      match call_optional (CallOnReidentify (reidentified r))
                              (onReidentify opts) (reidentified r) sys4 with
                      | (Normal _, sys5) =>
                          (Normal (JsObject (<[field := JsString (reidentified r)]> fields)),
                           sys5)
                      | (Abrupt t, sys5) => (Abrupt t, sys5)
                      end
                  | (Abrupt t, sys4) => (Abrupt t, sys4)
                  end
              | _ => (Normal result, sys3)
              end
        | None => (Normal result, sys3)
        end
    | _ => (Normal result, sys3)
    end.
Proof.
  intros opts Hde Hcb Hop sys3.
  pose proof (deidentify_quiet client input (Some (p_deidentify opts)) sys)
    as [Ho1 Hr1].
  rewrite Hde in Ho1, Hr1. simpl in Ho1, Hr1.
  pose proof (call_optional_quiet (CallOnDeidentify d) (onDeidentify opts) d sys1)
    as [Ho2 Hr2]; [done..|].
  rewrite Hcb in Ho2, Hr2. simpl in Ho2, Hr2.
  unfold no_reidentify_since, no_operation_since, one_operation_since in *.
  split; [|split].
  - subst sys3. simpl. rewrite reidentify_calls_app. simpl.
    rewrite app_nil_r. congruence.
  - subst sys3. simpl. rewrite operations_app. simpl. congruence.
  - unfold wrapWithProtection, bind. fold opts.
    rewrite Hde, Hcb. unfold call at 1. rewrite Hop. fold sys3.
    destruct (negb (default true (reidentifyOutput opts))); [done|].
    destruct result as [| | | |str|fields]; try done;
      simpl; destruct (reidentifyField opts) as [[|c f]|]; try done.
    simpl. by destruct (fields !! String c f) as [[| | | |fv|]|].
Qed.

Lemma wrap_prefix (client : SkyflowMCP) input (operation : Operation)
    options (sys : Sys World) d sys1 result w2 :
  deidentify client input (w_deidentify <$> options) sys = (Normal d, sys1) ->
  operation (processedText d) (world sys1) = (Normal result, w2) ->
  let sys2 := {| world := w2;
                 trace := trace sys1 ++ [CallOperation (processedText d)] |} in
  no_reidentify_since sys sys2 /\
  one_operation_since sys sys2 (processedText d) /\
  wrap client input operation options sys =
  match options ≫= w_reidentifyOutput, result with
  | Some false, _ => (Normal result, sys2)
  | _, JsString str =>
      match reidentify client str sys2 with
      | (Normal r, sys3) => (Normal (JsString (reidentified r)), sys3)
      | (Abrupt t, sys3) => (Abrupt t, sys3)
      end
  | _, _ => (Normal result, sys2)
  end.
Proof.
  intros Hde Hop sys2.
  pose proof (deidentify_quiet client input (w_deidentify <$> options) sys)
    as [Ho1 Hr1].
  rewrite Hde in Ho1, Hr1. simpl in Ho1, Hr1.
  unfold no_reidentify_since, no_operation_since, one_operation_since in *.
  split; [|split].
  - subst sys2. simpl. rewrite reidentify_calls_app. simpl.
    rewrite app_nil_r. congruence.
  - subst sys2. simpl. rewrite operations_app. simpl. congruence.
  - unfold wrap, bind. rewrite Hde. unfold call at 1. rewrite Hop. fold sys2.
    destruct (options ≫= w_reidentifyOutput) as [[|]|]; by destruct result.
Qed.

(** The two ways the last step can go. *)
Lemma reidentify_then_callback (client : SkyflowMCP) text
    (cb : option (string -> World -> Completion () * World))
    (sys sys3 : Sys World) (wrap_up : string -> JsValue) :
  no_reidentify_since sys sys3 ->
  let out :=
    match reidentify client text sys3 with
    | (Normal r, sys4) =>
        match call_optional (CallOnReidentify (reidentified r)) cb
                (reidentified r) sys4 with
        | (Normal _, sys5) => (Normal (wrap_up (reidentified r)), sys5)
        | (Abrupt t, sys5) => (Abrupt t, sys5)
        end
    | (Abrupt t, sys4) => (Abrupt t, sys4)
    end in
  one_reidentify_since sys out.2 text.
Proof.
  intros Hq. pose proof (reidentify_once client text sys3) as [Hone _].
  unfold one_reidentify_since, no_reidentify_since in *. cbv zeta.
  destruct (reidentify client text sys3) as [[r|t] sys4]; simpl in *.
  - pose proof (call_optional_quiet (CallOnReidentify (reidentified r)) cb
                  (reidentified r) sys4) as [_ Hcb]; [done..|].
    unfold no_reidentify_since in Hcb.
    destruct (call_optional _ cb _ sys4) as [[[]|t] sys5]; simpl in *;
      congruence.
  - congruence.
Qed.

(** C3, amended. Once the operation has returned, the envelope calls
    reidentify (once) exactly when [reidentifyOutput] is not [false] and
    the result is a string or, in [wrapWithProtection], a non-null
    structured value in which the field named by a [reidentifyField] that
    is not the empty string holds a string; in every other case the
    result comes back unchanged, without an error, and reidentify is not
    called. *)
Theorem reidentify_invoked_iff (client : SkyflowMCP) (input : string)
    (operation : Operation) (sys : Sys World) :
  (forall options d sys1 sys2 result w3,
     let opts := default no_options options in
     deidentify client input (Some (p_deidentify opts)) sys = (Normal d, sys1) ->
     call_optional (CallOnDeidentify d) (onDeidentify opts) d sys1
       = (Normal (), sys2) ->
     operation (processedText d) (world sys2) = (Normal result, w3) ->
     let out := wrapWithProtection client input operation options sys in
     let enabled :=
       reidentifyOutput opts <> Some false /\
       (is_string result \/
        named_field_holds_string (reidentifyField opts) result) in
     ((exists text, one_reidentify_since sys out.2 text) <-> enabled) /\
     (~ enabled -> out.1 = Normal result /\ no_reidentify_since sys out.2)) /\
  (forall options d sys1 result w2,
     deidentify client input (w_deidentify <$> options) sys = (Normal d, sys1) ->
     operation (processedText d) (world sys1) = (Normal result, w2) ->
     let out := wrap client input operation options sys in
     let enabled :=
       (options ≫= w_reidentifyOutput) <> Some false /\ is_string result in
     ((exists text, one_reidentify_since sys out.2 text) <-> enabled) /\
     (~ enabled -> out.1 = Normal result /\ no_reidentify_since sys out.2)).
Proof.
  split.
  - intros options d sys1 sys2 result w3 opts Hde Hcb Hop out enabled.
    destruct (wrapWithProtection_prefix client input operation options sys
                d sys1 sys2 result w3 Hde Hcb Hop) as (Hq & _ & Hrun).
    fold opts in Hrun. fold out in Hrun.
    set (sys3 := {| world := w3; trace := _ |}) in *.
    assert ((enabled /\ exists text, one_reidentify_since sys out.2 text) \/
            (~ enabled /\ out.1 = Normal result /\ no_reidentify_since sys out.2))
      as [[Hen Hone] | [Hdis [Hres Hnone]]].
    { subst enabled. rewrite Hrun. clear Hrun.
      destruct (reidentifyOutput opts) as [[|]|] eqn:Hout; simpl negb; cbv iota.
      3: destruct result as [| | | |str|fields].
      1: destruct result as [| | | |str|fields].
      all: try (right; split; [|done];
                intros [Hne [[s Hs]|(f & t & fields' & Hf & Hnf & Hr & Hl)]];
                congruence).
      all: try (left; split;
                [split; [done | left; by eexists]|];
                exists str;
                by apply (reidentify_then_callback client str _ sys sys3
                            JsString)).
      all: destruct (reidentifyField opts) as [field|] eqn:Hfield;
        [destruct (String.eqb_spec field "") as [->|Hnamed];
         [|destruct (fields !! field) as [[| | | |fv|]|] eqn:Hlook]|].
      all: try (right; split; [|done];
                intros [Hne [[s Hs]|(f & t & fields' & Hf & Hnf & Hr & Hl)]];
                congruence).
      all: left; split;
        [split; [done | right; by exists field, fv, fields]|];
        exists fv;
        by apply (reidentify_then_callback client fv _ sys sys3
                    (fun x => JsObject (<[field := JsString x]> fields))). }
    + split; [done|]. intros Hdis. done.
    + split; [|done]. split; [|done].
      intros [text Hone]. unfold one_reidentify_since, no_reidentify_since in *.
      rewrite Hnone in Hone. symmetry in Hone. by apply not_one_and_none in Hone.
  - intros options d sys1 result w2 Hde Hop out enabled.
    destruct (wrap_prefix client input operation options sys
                d sys1 result w2 Hde Hop) as (Hq & _ & Hrun).
    fold out in Hrun.
    set (sys2 := {| world := w2; trace := _ |}) in *.
    assert ((enabled /\ exists text, one_reidentify_since sys out.2 text) \/
            (~ enabled /\ out.1 = Normal result /\ no_reidentify_since sys out.2))
      as [[Hen Hone] | [Hdis [Hres Hnone]]].
    { subst enabled. rewrite Hrun. clear Hrun.
      destruct (options ≫= w_reidentifyOutput) as [[|]|] eqn:Hout;
        destruct result as [| | | |str|fields].
      all: try (right; split; [|done]; intros [Hne [s Hs]]; congruence).
      all: left; split; [split; [done | by eexists]|];
        exists str;
        pose proof (reidentify_once client str sys2) as [Hone _];
        unfold one_reidentify_since, no_reidentify_since in *;
        destruct (reidentify client str sys2) as [[r|t] sys3]; simpl in *;
        congruence. }
    + split; [done|]. intros Hdis. done.
    + split; [|done]. split; [|done].
      intros [text Hone]. unfold one_reidentify_since, no_reidentify_since in *.
      rewrite Hnone in Hone. symmetry in Hone. by apply not_one_and_none in Hone.
Qed.

(** C4, amended. With [reidentifyOutput] not [false], a result that is a
    structured value, and a [reidentifyField] that is not the empty string
    and names a field holding a string, [wrapWithProtection], when the
    reidentify call succeeds and the [onReidentify] callback, if there is
    one, returns without throwing, gives a new value in which that field
    holds the reidentified text and every other field is as it was. *)
Theorem field_reidentify_frame (client : SkyflowMCP) (input : string)
    (operation : Operation) options (sys : Sys World)
    d sys1 sys2 fields w3 field fieldValue restored w4 sys5 :
  let opts := default no_options options in
  deidentify client input (Some (p_deidentify opts)) sys = (Normal d, sys1) ->
  call_optional (CallOnDeidentify d) (onDeidentify opts) d sys1
    = (Normal (), sys2) ->
  operation (processedText d) (world sys2) = (Normal (JsObject fields), w3) ->
  reidentifyOutput opts <> Some false ->
  reidentifyField opts = Some field -> field <> "" ->
  fields !! field = Some (JsString fieldValue) ->
  SkyflowNode.reidentifyText (skyflow client) fieldValue w3
    = (Normal restored, w4) ->
  call_optional
    (CallOnReidentify (SkyflowNode.reid_processedText restored))
    (onReidentify opts) (SkyflowNode.reid_processedText restored)
    {| world := w4;
       trace := (trace sys2 ++ [CallOperation (processedText d)])
                ++ [CallReidentifyText fieldValue] |}
    = (Normal (), sys5) ->
  let out := wrapWithProtection client input operation options sys in
  exists fields',
    out.1 = Normal (JsObject fields') /\
    fields' !! field
      = Some (JsString (SkyflowNode.reid_processedText restored)) /\
    (forall other, other <> field -> fields' !! other = fields !! other) /\
    one_reidentify_since sys out.2 fieldValue.
Proof.
  intros opts Hde Hcb Hop Hout Hfield Hnamed Hlook Hre Hcb2 out.
  destruct (wrapWithProtection_prefix client input operation options sys
              d sys1 sys2 (JsObject fields) w3 Hde Hcb Hop) as (Hq & _ & Hrun).
  fold opts in Hrun. fold out in Hrun.
  set (sys3 := {| world := w3; trace := _ |}) in *.
  pose proof (reidentify_then_callback client fieldValue (onReidentify opts)
                sys sys3
                (fun x => JsObject (<[field := JsString x]> fields)) Hq)
    as Hone.
  cbv zeta in Hone.
  assert (negb (default true (reidentifyOutput opts)) = false) as Hon.
  { by destruct (reidentifyOutput opts) as [[|]|]. }
  rewrite Hon, Hfield, Hlook in Hrun.
  destruct (String.eqb_spec field "") as [?|_]; [done|].
  rewrite reidentify_run in Hrun, Hone. simpl in Hrun, Hone.
  rewrite Hre in Hrun, Hone. simpl in Hrun, Hone.
  rewrite Hcb2 in Hrun, Hone.
  exists (<[field := JsString (SkyflowNode.reid_processedText restored)]> fields).
  rewrite Hrun. simpl. repeat split.
  - apply lookup_insert_eq.
  - intros other Hother. by apply lookup_insert_ne.
  - done.
Qed.

Lemma reclassify_DeidentifyError failure :
  exists e,
    reclassify DeidentifyError "Unknown deidentify error" failure = SdkError e /\
    is_DeidentifyError e /\ carries_status failure e /\
    (instanceof_Error failure = true ->
       cause e = Some failure /\ message e = message_of failure) /\
    (instanceof_Error failure = false ->
       cause e = None /\ message e = "Unknown deidentify error").
Proof.
  unfold is_DeidentifyError, carries_status.
  destruct failure as [v|msg|msg body|e0]; eexists; (split; [reflexivity|]);
    simpl; repeat split; try done.
  - intros msg' body' n [= -> ->] Hn. simpl. by rewrite Hn.
  - by intros msg' body' [= -> ->].
Qed.

(** C2, amended. When the external deidentify call fails, the envelope
    (either one) rejects with a [DeidentifyError], code
    [DEIDENTIFY_ERROR], carrying the status code (when it is a number)
    and the details of the service's error; the failure is attached as
    the cause, with its message, when it is an [Error], and otherwise the
    cause is absent and the message is "Unknown deidentify error"; and
    the operation is not called. *)
Theorem deidentify_failure_stops_envelope (client : SkyflowMCP)
    (input : string) (operation : Operation) (sys : Sys World)
    dopts o failure w1 :
  deidentifyOptions_for client dopts = Normal o ->
  SkyflowNode.deidentifyText (skyflow client) input o (world sys)
    = (Abrupt failure, w1) ->
  forall envelope : Eff World JsValue,
    (exists options,
       dopts = Some (p_deidentify (default no_options options)) /\
       envelope = wrapWithProtection client input operation options) \/
    (exists options,
       dopts = w_deidentify <$> options /\
       envelope = wrap client input operation options) ->
    exists e,
      (envelope sys).1 = Abrupt (SdkError e) /\
      is_DeidentifyError e /\ carries_status failure e /\
      (instanceof_Error failure = true ->
         cause e = Some failure /\ message e = message_of failure) /\
      (instanceof_Error failure = false ->
         cause e = None /\ message e = "Unknown deidentify error") /\
      no_operation_since sys (envelope sys).2.
Proof.
  intros Hopts Hde envelope Henv.
  destruct (reclassify_DeidentifyError failure) as (e & He & Hprops).
  exists e.
  assert (envelope sys =
            (Abrupt (SdkError e),
             {| world := w1;
                trace := trace sys ++ [CallDeidentifyText input o] |})) as ->.
  { destruct Henv as [(options & -> & ->) | (options & -> & ->)].
    - unfold wrapWithProtection, bind.
      by rewrite deidentify_run, Hopts, Hde, He.
    - unfold wrap, bind. by rewrite deidentify_run, Hopts, Hde, He. }
  simpl. split; [done|].
  destruct Hprops as (H1 & H2 & H3 & H4).
  do 4 (split; [done|]).
  unfold no_operation_since. simpl. rewrite operations_app. simpl.
  by rewrite app_nil_r.
Qed.

End EnvelopeFacts.

(** ** The envelope on the test doubles *)

(** C1 at the stubs of the unit tests. *)
Lemma envelope_default_path_witness :
  let out := wrapWithProtection (service := stub_service) stub_client
               "john@example.com" echo None start in
  operations (trace out.2) = ["[EMAIL_ADDRESS_abc123]"] /\
  reidentify_calls (trace out.2) = ["[EMAIL_ADDRESS_abc123]"] /\
  out.1 = Normal (JsString "john@example.com").
Proof.
  cbv zeta.
  destruct (envelope_default_path (service := stub_service) stub_client
              "john@example.com" echo start _
              {| SkyflowNode.resp_processedText := "[EMAIL_ADDRESS_abc123]";
                 SkyflowNode.resp_entities := None;
                 SkyflowNode.resp_wordCount := None;
                 SkyflowNode.resp_charCount := None |} ()
              eq_refl eq_refl
              (wrapWithProtection (service := stub_service) stub_client
                 "john@example.com" echo None)
              (or_introl eq_refl)) as [Hop Hstr].
  split; [exact Hop|].
  destruct (Hstr "[EMAIL_ADDRESS_abc123]" () eq_refl) as [Hre Hout].
  split; [exact Hre|].
  exact (Hout {| SkyflowNode.reid_processedText := "john@example.com" |} ()
              eq_refl).
Defined.

(** The amended C2 at a vault that answers 401. *)
Lemma deidentify_failure_witness :
  let failure :=
    SkyflowError "Unauthorized"
      (Some {| http_code := JsNumber 401; body_details := JsString "denied" |}) in
  let out := wrapWithProtection (service := rejecting_service failure)
               stub_client "john@example.com" echo None start in
  exists e,
    out.1 = Abrupt (SdkError e) /\
    code e = "DEIDENTIFY_ERROR" /\ httpCode e = Some 401%Z /\
    details e = JsString "denied" /\ cause e = Some failure /\
    operations (trace out.2) = [].
Proof.
  cbv zeta.
  destruct (deidentify_failure_stops_envelope
              (service := rejecting_service
                 (SkyflowError "Unauthorized"
                    (Some {| http_code := JsNumber 401;
                             body_details := JsString "denied" |})))
              stub_client "john@example.com" echo start
              (Some {| tokenType := None; entities := None |}) _ _ ()
              eq_refl eq_refl _
              (or_introl (ex_intro _ None (conj eq_refl eq_refl))))
    as (e & He & [_ Hcode] & [Hhttp Hdetails] & Hcause & _ & Hops).
  exists e. split; [exact He|]. split; [exact Hcode|].
  split; [exact (Hhttp _ _ _ eq_refl eq_refl)|].
  split; [exact (Hdetails _ _ eq_refl)|].
  split; [exact (proj1 (Hcause eq_refl))|].
  exact Hops.
Defined.

(** C2, as stated, fails: a failure that is not an [Error] is not attached
    as the cause. *)
Lemma deidentify_failure_without_cause_counterexample :
  let failure := NotAnError (JsString "boom") in
  let out := wrapWithProtection (service := rejecting_service failure)
               stub_client "john@example.com" echo None start in
  out.1 = Abrupt (DeidentifyError "Unknown deidentify error" None
                    JsUndefined None) /\
  ~ (exists e, out.1 = Abrupt (SdkError e) /\ cause e = Some failure).
Proof.
  cbv zeta. split; [reflexivity|].
  intros (e & He & Hcause). vm_compute in He. injection He as <-.
  discriminate Hcause.
Qed.

(** C3, as stated, fails: with [reidentifyField] the empty string, the
    field of that name holds a string and reidentify is not called. *)
Lemma empty_field_name_counterexample :
  let options := Some (field_options None "") in
  let out := wrapWithProtection (service := stub_service) stub_client
               "john@example.com" unnamed_field options start in
  let result := JsObject (<["" := JsString "[EMAIL_ADDRESS_abc123]"]> ∅) in
  operations (trace out.2) = ["[EMAIL_ADDRESS_abc123]"] /\
  field_holds_string (Some "") result /\
  out.1 = Normal result /\
  reidentify_calls (trace out.2) = [].
Proof.
  cbv zeta. split; [reflexivity|]. split; [|split; reflexivity].
  exists "", "[EMAIL_ADDRESS_abc123]". eexists.
  split; [reflexivity|]. split; reflexivity.
Qed.

(** The amended C3 at the stubs. *)
Lemma reidentify_invoked_iff_witness :
  (exists text,
     one_reidentify_since start
       (wrapWithProtection (service := stub_service) stub_client
          "john@example.com" structured
          (Some (field_options None "output")) start).2 text) /\
  (wrap (service := stub_service) stub_client "john@example.com" echo
     (Some {| w_deidentify := {| tokenType := None; entities := None |};
              w_reidentifyOutput := Some false |}) start).1
  = Normal (JsString "[EMAIL_ADDRESS_abc123]").
Proof.
  destruct (reidentify_invoked_iff (service := stub_service) stub_client
              "john@example.com" structured start) as [Henv _].
  destruct (reidentify_invoked_iff (service := stub_service) stub_client
              "john@example.com" echo start) as [_ Hwrap].
  split.
  - destruct (Henv (Some (field_options None "output")) _ _ _ _ ()
                eq_refl eq_refl eq_refl) as [Hiff _].
    apply Hiff. split; [discriminate|]. right.
    exists "output", "[EMAIL_ADDRESS_abc123]". eexists.
    split; [reflexivity|]. split; [discriminate|]. split; reflexivity.
  - destruct (Hwrap
                (Some {| w_deidentify := {| tokenType := None; entities := None |};
                         w_reidentifyOutput := Some false |})
                _ _ _ () eq_refl eq_refl) as [_ Hoff].
    apply Hoff. intros [Hne _]. by apply Hne.
Defined.

(** The amended C4 at the stubs: [output] restored, [other] as it was. *)
Lemma field_reidentify_frame_witness :
  let out := wrapWithProtection (service := stub_service) stub_client
               "john@example.com" structured
               (Some (field_options None "output")) start in
  exists fields,
    out.1 = Normal (JsObject fields) /\
    fields !! "output" = Some (JsString "john@example.com") /\
    fields !! "other" = Some (JsString "x").
Proof.
  cbv zeta.
  edestruct (field_reidentify_frame (service := stub_service) stub_client
               "john@example.com" structured
               (Some (field_options None "output")) start)
    as (fields & Hout & Hfield & Hframe & _);
    [reflexivity | reflexivity | reflexivity | discriminate | reflexivity
    | discriminate | reflexivity | reflexivity | reflexivity |].
  exists fields. split; [exact Hout|]. split; [exact Hfield|].
  rewrite (Hframe "other"); [reflexivity | discriminate].
Defined.

(** C4, as stated, fails: with [reidentifyOutput: false], and with the
    empty string for [reidentifyField], the field keeps the token. *)
Lemma field_not_replaced_counterexample :
  (let out := wrapWithProtection (service := stub_service) stub_client
                "john@example.com" structured
                (Some (field_options (Some false) "output")) start in
   exists fields,
     out.1 = Normal (JsObject fields) /\
     fields !! "output" = Some (JsString "[EMAIL_ADDRESS_abc123]") /\
     reidentify_calls (trace out.2) = []) /\
  (let out := wrapWithProtection (service := stub_service) stub_client
                "john@example.com" unnamed_field
                (Some (field_options None "")) start in
   exists fields,
     out.1 = Normal (JsObject fields) /\
     fields !! "" = Some (JsString "[EMAIL_ADDRESS_abc123]") /\
     reidentify_calls (trace out.2) = []).
Proof.
  cbv zeta. split; eexists; (split; [reflexivity|]); split; reflexivity.
Qed.

(** ** The entity vocabulary and the entities of a call *)
Section ClientFacts.
Context {World : Type} {service : SkyflowNode.VaultService World}.

Lemma own_property_keys (key : string) :
  is_Some (own_property key ENTITY_MAP) <-> In key ENTITY_TYPES.
Proof.
  assert (forall (m : list (string * DetectEntities)),
            is_Some (own_property key m) <-> In key (map fst m)) as H.
  { induction m as [|[k v] m IH]; simpl.
    - split; [by intros [? ?] | done].
    - destruct (String.eqb_spec key k) as [->|Hne].
      + split; [by left | by eexists].
      + rewrite IH. split; [by right | by intros [?|?]]. }
  rewrite H. reflexivity.
Qed.

Lemma mem_In key keys : mem key keys = true <-> In key keys.
Proof.
  unfold mem. rewrite existsb_exists. split.
  - intros (k & Hin & Heq). apply String.eqb_eq in Heq. by subst.
  - intros Hin. exists key. split; [done | apply String.eqb_refl].
Qed.

Lemma isValidEntity_own_or_inherited entity :
  isValidEntity entity = true <->
  In entity ENTITY_TYPES \/ In entity Object_prototype.
Proof.
  unfold isValidEntity, has_property. rewrite <- own_property_keys.
  destruct (own_property entity ENTITY_MAP) as [d|].
  - split; [left; by eexists | done].
  - rewrite mem_In. split; [by right | by intros [[? ?]|?]].
Qed.

Lemma getEntityEnum_outside entity :
  ~ In entity ENTITY_TYPES -> ~ In entity Object_prototype ->
  getEntityEnum entity
    = Abrupt (Error (String.append "Invalid entity type: " entity)) /\
  contains entity (String.append "Invalid entity type: " entity).
Proof.
  intros Hown Hproto. split.
  - unfold getEntityEnum, get_property.
    destruct (own_property entity ENTITY_MAP) as [d|] eqn:Hd.
    + destruct Hown. apply own_property_keys. by eexists.
    + destruct (mem entity Object_prototype) eqn:Hm; [|done].
      destruct Hproto. by apply mem_In.
  - exists "Invalid entity type: ", "". 
    f_equal. clear. induction entity as [|c s IH]; [done|].
    change (String c s = String c (String.append s "")). by f_equal.
Qed.

(** The parts of C7 that hold. *)
Lemma isValidEntity_case_sensitive :
  isValidEntity "email_address" = true /\
  isValidEntity "EMAIL_ADDRESS" = false /\
  getEntityEnum "bogus" = Abrupt (Error "Invalid entity type: bogus").
Proof. by vm_compute. Qed.

Lemma deidentify_rejects_bogus (client : SkyflowMCP) text tokenType
    (sys : Sys World) :
  deidentify client text
    (Some {| tokenType := tokenType; entities := Some ["bogus"] |}) sys
  = (Abrupt (DeidentifyError "Invalid entity type: bogus" None JsUndefined
               (Some (Error "Invalid entity type: bogus"))), sys).
Proof. by rewrite deidentify_run. Qed.

(** C7, the defect. [isValidEntity] tests [entity in ENTITY_MAP], which
    is also true of the names that the object inherits: [toString] is
    accepted though it is not in the vocabulary, [getEntityEnum] returns
    the inherited member and does not throw, and [deidentify] hands it to
    the external call. *)
Theorem isValidEntity_inherited_names :
  isValidEntity "toString" = true /\
  ~ In "toString" ENTITY_TYPES /\
  getEntityEnum "toString" = Normal (Inherited "toString") /\
  forall (client : SkyflowMCP) (text : string) (sys : Sys World),
    let options :=
      Some {| tokenType := None; entities := Some ["toString"] |} in
    exists o,
      deidentifyOptions_for client options = Normal o /\
      SkyflowNode.opt_entities o = Some [Inherited "toString"] /\
      deidentify_calls (trace (deidentify client text options sys).2)
        = deidentify_calls (trace sys) ++ [(text, o)].
Proof.
  split; [reflexivity|]. split.
  { rewrite <- own_property_keys. by intros [? ?]. }
  split; [reflexivity|].
  intros client text sys options. eexists. split; [reflexivity|].
  split; [reflexivity|].
  rewrite deidentify_run. simpl.
  destruct (SkyflowNode.deidentifyText _ _ _ _) as [[response|error] w'];
    simpl; rewrite deidentify_calls_app; simpl; done.
Qed.

Lemma without_default_entities_tokenType (client : SkyflowMCP) options :
  effective_tokenType (without_default_entities client) options
  = effective_tokenType client options.
Proof.
  unfold effective_tokenType, without_default_entities. simpl.
  destruct (options ≫= tokenType); [done|].
  by destruct (c_options (config client)).
Qed.

(** C10. A per-call [entities: []] wins over the client's default
    entities; the options sent then carry no entities and no name is
    checked, exactly as for a call without entities on a client without
    default entities; and entities are checked and sent only when the
    effective list is not empty. *)
Theorem empty_entities_override (client : SkyflowMCP)
    (perCall : option TokenType) :
  let per_call := Some {| tokenType := perCall; entities := Some [] |} in
  let omitted := Some {| tokenType := perCall; entities := None |} in
  effective_entities client per_call = Some [] /\
  (exists format,
     deidentifyOptions_for client per_call
     = Normal {| SkyflowNode.opt_tokenFormat := Some format;
                 SkyflowNode.opt_entities := None |}) /\
  (forall text sys,
     deidentify client text per_call sys
     = deidentify (without_default_entities client) text omitted sys) /\
  (forall options o enums,
     deidentifyOptions_for client options = Normal o ->
     SkyflowNode.opt_entities o = Some enums ->
     exists e es,
       effective_entities client options = Some (e :: es) /\
       map_throwing getEntityEnum (e :: es) = Normal enums) /\
  (forall options,
     effective_entities client options = None \/
     effective_entities client options = Some [] ->
     exists format,
       deidentifyOptions_for client options
       = Normal {| SkyflowNode.opt_tokenFormat := Some format;
                   SkyflowNode.opt_entities := None |}).
Proof.
  cbv zeta. split; [reflexivity|]. split; [by eexists|]. split; [|split].
  - intros text sys. rewrite !deidentify_run.
    assert (deidentifyOptions_for (without_default_entities client)
              (Some {| tokenType := perCall; entities := None |})
            = deidentifyOptions_for client
                (Some {| tokenType := perCall; entities := Some [] |})) as ->.
    { unfold deidentifyOptions_for.
      rewrite without_default_entities_tokenType.
      unfold effective_entities, effective_tokenType, without_default_entities.
      simpl. by destruct (c_options (config client)). }
    done.
  - intros options o enums Ho Henums. unfold deidentifyOptions_for in Ho.
    destruct (effective_entities client options) as [[|e es]|].
    + injection Ho as <-. done.
    + exists e, es. split; [done|].
      destruct (map_throwing getEntityEnum (e :: es)) as [enums'|t];
        [|done].
      simpl in Ho. injection Ho as <-. simpl in Henums. congruence.
    + injection Ho as <-. done.
  - intros options Hnone. unfold deidentifyOptions_for.
    destruct Hnone as [-> | ->]; by eexists.
Qed.

End ClientFacts.

(** C10 at a client whose default entities would be rejected. *)
Lemma empty_entities_override_witness :
  effective_entities bogus_defaults_client None = Some ["bogus"] /\
  (exists e, (deidentify (service := stub_service) bogus_defaults_client
                "john@example.com" None start).1 = Abrupt (SdkError e)) /\
  (deidentify (service := stub_service) bogus_defaults_client "john@example.com"
     (Some {| tokenType := None; entities := Some [] |}) start).1
  = Normal {| processedText := "[EMAIL_ADDRESS_abc123]";
              r_entities := None; wordCount := None; charCount := None |}.
Proof.
  split; [reflexivity|]. split; [by eexists|].
  destruct (empty_entities_override (service := stub_service)
              bogus_defaults_client None) as (_ & _ & Heq & _).
  rewrite Heq. reflexivity.
Defined.

(** ** Construction from the environment *)
Section EnvFacts.
Context {World : Type} {service : SkyflowNode.VaultService World}.

Lemma new_SkyflowMCP_credentials (cfg : SkyflowMCPConfig) client :
  new_SkyflowMCP cfg = Normal client ->
  config client = cfg /\ uses_credentials client (c_credentials cfg).
Proof.
  unfold new_SkyflowMCP, uses_credentials.
  destruct (Validation.isValid _); [|done].
  destruct (Validation.config _) as [vc|]; [|done].
  destruct (SkyflowNode.Skyflow_new _) as [error|]; [done|].
  intros [= <-]. simpl. repeat split; try done. by repeat constructor.
Qed.

Lemma or_else_absent a b :
  absent_or_empty (or_else a b) <-> absent_or_empty a /\ absent_or_empty b.
Proof.
  rewrite <- !truthy_false. unfold or_else.
  destruct (truthy a) eqn:Ha.
  - rewrite Ha. split; [done | by intros [? _]].
  - split; [done | by intros [_ ?]].
Qed.

(** C8, amended. [createFromEnv] fails with a [ConfigurationError], each
    with its own message: when the vault id is missing; when the vault id
    is there and the vault url is missing; and when the vault id and the
    vault url are both there, no credentials are passed and both
    credential variables are missing (missing: absent or empty, once what
    is passed has been applied). And when no credentials are passed and
    the bearer-token variable is not empty, a client that is built uses
    the bearer token, whatever the API-key variable holds. *)
Theorem createFromEnv_errors_and_precedence
    (overrides : option PartialConfig) (env : gmap string string) :
  let vaultId := or_else (overrides ≫= o_vaultId) (env !! "SKYFLOW_VAULT_ID") in
  let vaultUrl := or_else (overrides ≫= o_vaultUrl) (env !! "SKYFLOW_VAULT_URL") in
  let missing_id :=
    ConfigurationError "SKYFLOW_VAULT_ID environment variable is required"
      None in
  let missing_url :=
    ConfigurationError "SKYFLOW_VAULT_URL environment variable is required"
      None in
  let missing_credentials :=
    ConfigurationError
      "Either SKYFLOW_BEARER_TOKEN or SKYFLOW_API_KEY environment variable is required"
      None in
  (absent_or_empty vaultId ->
     createFromEnv overrides env = Abrupt missing_id) /\
  (~ absent_or_empty vaultId -> absent_or_empty vaultUrl ->
     createFromEnv overrides env = Abrupt missing_url) /\
  (~ absent_or_empty vaultId -> ~ absent_or_empty vaultUrl ->
   overrides ≫= o_credentials = None ->
   absent_or_empty (env !! "SKYFLOW_BEARER_TOKEN") ->
   absent_or_empty (env !! "SKYFLOW_API_KEY") ->
     createFromEnv overrides env = Abrupt missing_credentials) /\
  (missing_id <> missing_url /\
   missing_id <> missing_credentials /\
   missing_url <> missing_credentials /\
   Forall (fun t => exists e, t = SdkError e /\
                              name e = "ConfigurationError" /\
                              code e = "CONFIGURATION_ERROR")
          [missing_id; missing_url; missing_credentials]) /\
  (forall bearer client,
     overrides ≫= o_credentials = None ->
     env !! "SKYFLOW_BEARER_TOKEN" = Some bearer -> bearer <> "" ->
     createFromEnv overrides env = Normal client ->
     uses_credentials client (SkyflowNode.Token bearer)).
Proof.
  cbv zeta. unfold createFromEnv.
  split; [|split; [|split; [|split]]].
  - intros Hid. apply truthy_false in Hid. by rewrite Hid.
  - intros Hid Hurl. rewrite <- truthy_false in Hid.
    apply not_false_is_true in Hid. apply truthy_false in Hurl.
    by rewrite Hid, Hurl.
  - intros Hid Hurl Hcred Hbearer Hkey.
    rewrite <- truthy_false in Hid, Hurl.
    apply not_false_is_true in Hid, Hurl.
    apply truthy_false in Hbearer, Hkey.
    by rewrite Hid, Hurl, Hcred, Hbearer, Hkey.
  - repeat split; try done. repeat constructor; by eexists.
  - intros bearer client Hcred Hbearer Hne.
    destruct (truthy (or_else _ (env !! "SKYFLOW_VAULT_ID"))); [|done].
    destruct (truthy (or_else _ (env !! "SKYFLOW_VAULT_URL"))); [|done].
    rewrite Hcred, Hbearer. destruct bearer as [|c bearer]; [done|].
    simpl. intros Hnew. by apply new_SkyflowMCP_credentials in Hnew as [_ ?].
Qed.

End EnvFacts.

(** The amended C8 at the environment of the unit tests. *)
Lemma createFromEnv_witness :
  (both_set !! "SKYFLOW_BEARER_TOKEN" = Some "env-bearer-token" /\
   both_set !! "SKYFLOW_API_KEY" = Some "env-api-key" /\
   exists client,
     createFromEnv (service := stub_service) None both_set = Normal client /\
     uses_credentials client (SkyflowNode.Token "env-bearer-token")) /\
  (createFromEnv (service := stub_service) None ∅
   = Abrupt (ConfigurationError
               "SKYFLOW_VAULT_ID environment variable is required" None)).
Proof.
  split.
  - split; [reflexivity|]. split; [reflexivity|].
    eexists. split; [reflexivity|].
    eapply (proj2 (proj2 (proj2 (proj2
              (createFromEnv_errors_and_precedence
                 (service := stub_service) None both_set)))));
      [reflexivity | reflexivity | discriminate | reflexivity].
  - apply (proj1 (createFromEnv_errors_and_precedence
                    (service := stub_service) None ∅)).
    by left.
Defined.

(** C8, as stated, fails: with both variables set, credentials passed to
    [createFromEnv] are used instead of the bearer token; and so is the
    API key when the bearer-token variable is set to the empty string. *)
Lemma bearer_not_used_counterexample :
  (both_set !! "SKYFLOW_BEARER_TOKEN" = Some "env-bearer-token" /\
   both_set !! "SKYFLOW_API_KEY" = Some "env-api-key" /\
   exists client,
     createFromEnv (service := stub_service)
       (Some credentials_override) both_set = Normal client /\
     uses_credentials client (SkyflowNode.ApiKey "override-api-key") /\
     ~ uses_credentials client (SkyflowNode.Token "env-bearer-token")) /\
  (empty_bearer !! "SKYFLOW_BEARER_TOKEN" = Some "" /\
   empty_bearer !! "SKYFLOW_API_KEY" = Some "env-api-key" /\
   exists client,
     createFromEnv (service := stub_service) None empty_bearer
       = Normal client /\
     uses_credentials client (SkyflowNode.ApiKey "env-api-key") /\
     ~ uses_credentials client (SkyflowNode.Token "")).
Proof.
  split.
  - split; [reflexivity|]. split; [reflexivity|].
    eexists. split; [reflexivity|]. split.
    + split; [reflexivity|]. split; [|done]. by repeat constructor.
    + by intros [? _].
  - split; [reflexivity|]. split; [reflexivity|].
    eexists. split; [reflexivity|]. split.
    + split; [reflexivity|]. split; [|done]. by repeat constructor.
    + by intros [? _].
Qed.

(** * More of the code

    The rest of the validator, the client, the envelope, the
    constructors, and the MCP tools and their registration. *)
Import ToolStubs Behaviour Accessors.

(** ** The validator, further *)
Section ValidatorExtras.
Import Validation ClusterLabel MatcherFacts.

Lemma list_ascii_append a b :
  list_ascii_of_string (String.append a b)
  = list_ascii_of_string a ++ list_ascii_of_string b.
Proof.
  induction a as [|c a IH]; [reflexivity|].
  change (c :: list_ascii_of_string (String.append a b)
          = c :: (list_ascii_of_string a ++ list_ascii_of_string b)).
  by rewrite IH.
Qed.

Lemma string_of_list_app a b :
  string_of_list_ascii (a ++ b)
  = String.append (string_of_list_ascii a) (string_of_list_ascii b).
Proof.
  induction a as [|c a IH]; [reflexivity|].
  change (String c (string_of_list_ascii (a ++ b))
          = String c (String.append (string_of_list_ascii a)
                                    (string_of_list_ascii b))).
  by rewrite IH.
Qed.

Lemma has_prefix_refl_app p s : has_prefix p (p ++ s) = true.
Proof.
  induction p as [|c p IH]; [done|]. simpl. by rewrite Ascii.eqb_refl.
Qed.

Lemma has_prefix_split p s : has_prefix p s = true -> s = p ++ drop (length p) s.
Proof.
  revert s. induction p as [|c p IH]; intros [|d s]; simpl; try done.
  intros [Hc Hp]%andb_prop. apply Ascii.eqb_eq in Hc as ->.
  f_equal. by apply IH.
Qed.

(** A label, then [.vault]: the scan stops there. *)
Lemma scan_built r l rest :
  dotfree l -> nonempty (r ++ l) = true ->
  scan r (l ++ "."%char :: vault ++ rest) = Some (skip_scheme (r ++ l)).
Proof.
  revert r. induction l as [|c l IH]; intros r Hl Hne.
  - rewrite app_nil_r in *. cbn [app scan].
    change (is_dot ".") with true. cbv iota.
    by rewrite Hne, has_prefix_refl_app.
  - apply Forall_cons in Hl as [Hc Hl]. cbn [app scan]. rewrite Hc.
    rewrite IH; [by rewrite <- app_assoc | done |].
    rewrite <- app_assoc. by destruct r.
Qed.

(** What the scan returns stands in the text, in front of [.vault]. *)
Lemma scan_occurs r s l :
  scan r s = Some l ->
  exists pre post, r ++ s = pre ++ l ++ "."%char :: vault ++ post.
Proof.
  revert r. induction s as [|c s IH]; intros r; cbn [scan]; [done|].
  destruct (is_dot c) eqn:Hc.
  - destruct (nonempty r && has_prefix vault s) eqn:Hv.
    + intros [= <-]. apply andb_prop in Hv as [_ Hv].
      apply has_prefix_split in Hv.
      unfold is_dot in Hc. apply Ascii.eqb_eq in Hc as ->.
      assert (exists pre, r = pre ++ skip_scheme r) as [pre Hpre].
      { unfold skip_scheme.
        destruct (_ && _); [exists (take 8 r); by rewrite take_drop|].
        destruct (_ && _); [exists (take 7 r); by rewrite take_drop|].
        by exists []. }
      exists pre, (drop (length vault) s).
      rewrite Hv at 1. rewrite Hpre at 1. by rewrite <- app_assoc.
    + intros H. apply IH in H as (pre & post & H).
      exists (r ++ c :: pre), post. rewrite <- app_assoc. simpl in *.
      by rewrite H.
  - intros H. apply IH in H as (pre & post & H).
    exists pre, post. rewrite <- H. by rewrite <- app_assoc.
Qed.

Lemma string_of_list_of_string s :
  string_of_list_ascii (list_ascii_of_string s) = s.
Proof. apply string_of_list_ascii_of_string. Qed.

Lemma skip_https l : nonempty l = true -> skip_scheme (https_scheme ++ l) = l.
Proof.
  intros Hl. unfold skip_scheme. rewrite has_prefix_refl_app.
  change (drop 8 (https_scheme ++ l)) with l. by rewrite Hl.
Qed.

Lemma skip_http l : nonempty l = true -> skip_scheme (http_scheme ++ l) = l.
Proof.
  intros Hl. unfold skip_scheme.
  change (has_prefix https_scheme (http_scheme ++ l)) with false.
  rewrite has_prefix_refl_app.
  change (drop 7 (http_scheme ++ l)) with l. by rewrite Hl.
Qed.

(** X2. Round trip. For a label that is not empty and has no dot, the
    url made of [https://] or [http://], the label, [.vault] and anything
    after it is read back as that label; without a scheme the label is
    read back less a leading scheme of its own. *)
Theorem extractClusterId_of_built_url (label rest : string) :
  label <> "" -> no_dot label ->
  extractClusterId
    (String.append "https://" (String.append label (String.append ".vault" rest)))
    = Some label /\
  extractClusterId
    (String.append "http://" (String.append label (String.append ".vault" rest)))
    = Some label /\
  extractClusterId (String.append label (String.append ".vault" rest))
    = Some (string_of_list_ascii (skip_scheme (list_ascii_of_string label))).
Proof.
  intros Hne Hdot. rewrite !extractClusterId_label_of. unfold label_of.
  rewrite !list_ascii_append.
  change (list_ascii_of_string ".vault") with ("."%char :: vault).
  change (list_ascii_of_string "https://") with https_scheme.
  change (list_ascii_of_string "http://") with http_scheme.
  unfold no_dot in Hdot.
  assert (nonempty (list_ascii_of_string label) = true) as Hl.
  { destruct label; [done|]. done. }
  set (l := list_ascii_of_string label) in *.
  assert (forall p, dotfree p -> nonempty (p ++ l) = true ->
            scan [] (p ++ l ++ ("."%char :: vault) ++ list_ascii_of_string rest)
            = Some (skip_scheme (p ++ l))) as Hscan.
  { intros p Hp Hpl. rewrite app_assoc.
    change (("."%char :: vault) ++ ?x) with ("."%char :: vault ++ x).
    rewrite (scan_built [] (p ++ l)); [done| |done].
    by apply Forall_app. }
  split; [|split].
  - rewrite (Hscan https_scheme).
    + rewrite skip_https by done. cbn [fmap option_fmap option_map].
      subst l. by rewrite string_of_list_of_string.
    + by vm_compute; repeat constructor.
    + done.
  - rewrite (Hscan http_scheme).
    + rewrite skip_http by done. cbn [fmap option_fmap option_map].
      subst l. by rewrite string_of_list_of_string.
    + by vm_compute; repeat constructor.
    + done.
  - pose proof (Hscan [] ltac:(constructor) Hl) as H.
    cbn [app] in H |- *. by rewrite H.
Qed.

(** X3. A cluster id that [extractClusterId] returns stands in the url,
    directly in front of [.vault]. *)
Theorem extractClusterId_occurs_in_url (url label : string) :
  extractClusterId url = Some label ->
  contains (String.append label ".vault") url.
Proof.
  rewrite extractClusterId_label_of. unfold label_of.
  destruct (scan [] _) as [l|] eqn:Hscan; [|done].
  intros [= <-]. apply scan_occurs in Hscan as (pre & post & H).
  cbn [app] in H.
  exists (string_of_list_ascii pre), (string_of_list_ascii post).
  rewrite <- (string_of_list_of_string url), H.
  change ("."%char :: vault ++ post)
    with (list_ascii_of_string ".vault" ++ post).
  rewrite !string_of_list_app. rewrite string_of_list_of_string.
  f_equal. clear.
  induction (string_of_list_ascii l) as [|c s IH]; [done|].
  change (String c (String.append s
            (String.append ".vault" (string_of_list_ascii post)))
          = String c (String.append (String.append s ".vault")
                        (string_of_list_ascii post))).
  by rewrite IH.
Qed.

Lemma extractClusterId_occurs_witness :
  extractClusterId "https://a.b.vault.com" = Some "b" /\
  contains "b.vault" "https://a.b.vault.com".
Proof.
  split; [reflexivity|].
  apply (extractClusterId_occurs_in_url "https://a.b.vault.com" "b").
  reflexivity.
Defined.

Lemma extractClusterId_of_built_url_witness :
  "abc123" <> "" /\ no_dot "abc123" /\
  extractClusterId "https://abc123.vault.skyflowapis.com" = Some "abc123" /\
  extractClusterId "http://abc123.vault.skyflowapis.com" = Some "abc123" /\
  extractClusterId "abc123.vault.skyflowapis.com" = Some "abc123".
Proof.
  assert (no_dot "abc123") as Hdot by (by vm_compute; repeat constructor).
  split; [discriminate|]. split; [exact Hdot|].
  exact (extractClusterId_of_built_url "abc123" ".skyflowapis.com"
           ltac:(discriminate) Hdot).
Defined.

(** X1. Every result of [validateVaultConfig] is a configuration
    without an error message or an error message without a
    configuration, and [isValid] says which. A configuration that is
    returned repeats the vault id and the url that were passed, neither of
    them empty; its cluster id is what [extractClusterId] reads from that
    url, not empty and without a dot; the two optional ids are copied. *)
Theorem validateVaultConfig_result_invariant (params : VaultParams) :
  let result := validateVaultConfig params in
  (isValid result = true <-> is_Some (config result)) /\
  (isValid result = false <-> is_Some (error result)) /\
  forall c, config result = Some c ->
    p_vaultId params = Some (vaultId c) /\ vaultId c <> "" /\
    p_vaultUrl params = Some (vaultUrl c) /\ vaultUrl c <> "" /\
    extractClusterId (vaultUrl c) = Some (clusterId c) /\
    clusterId c <> "" /\ no_dot (clusterId c) /\
    accountId c = p_accountId params /\
    workspaceId c = p_workspaceId params.
Proof.
  cbv zeta. unfold validateVaultConfig.
  destruct (p_vaultId params) as [[|c1 vid]|] eqn:Hid; cbn [truthy negb String.eqb];
    try (split; [split; [done | by intros [? ?]]|];
         split; [split; [by eexists | done] | done]).
  destruct (p_vaultUrl params) as [[|c2 vurl]|] eqn:Hurl; cbn [truthy negb String.eqb];
    try (split; [split; [done | by intros [? ?]]|];
         split; [split; [by eexists | done] | done]).
  unfold default, id.
  destruct (extractClusterId (String c2 vurl)) as [cid|] eqn:Hcid.
  - pose proof (extractClusterId_label _ _ Hcid) as [Hne Hdot].
    destruct cid as [|c3 cid]; [done|]. cbn [truthy negb String.eqb].
    split; [split; [by eexists | done]|].
    split; [split; [done | by intros [? ?]]|].
    intros c [= <-]. cbn [vaultId vaultUrl clusterId accountId workspaceId].
    repeat split; try done.
  - cbn [truthy negb].
    split; [split; [done | by intros [? ?]]|].
    split; [split; [by eexists | done] | done].
Qed.

End ValidatorExtras.

(** ** The client, further *)
Section ClientExtras.
Context {World : Type} {service : SkyflowNode.VaultService World}.

Lemma isValidEntity_get_property entity :
  isValidEntity entity = true <-> is_Some (get_property entity).
Proof.
  unfold isValidEntity, has_property, get_property.
  destruct (own_property entity ENTITY_MAP); [split; by eauto|].
  destruct (mem entity Object_prototype); [split; by eauto|].
  split; [done | by intros [? ?]].
Qed.

Lemma getEntityEnum_refuses entity :
  isValidEntity entity = false ->
  getEntityEnum entity
  = Abrupt (Error (String.append "Invalid entity type: " entity)).
Proof.
  intros H. unfold getEntityEnum.
  destruct (get_property entity) as [v|] eqn:Hv; [|done].
  assert (isValidEntity entity = true) by (apply isValidEntity_get_property; eauto).
  congruence.
Qed.

(** The loop over the names stops at the first one refused. *)
Lemma map_throwing_refused good bad rest :
  Forall (fun e => isValidEntity e = true) good ->
  isValidEntity bad = false ->
  map_throwing getEntityEnum (good ++ bad :: rest)
  = Abrupt (Error (String.append "Invalid entity type: " bad)).
Proof.
  intros Hgood Hbad. induction Hgood as [|e good He _ IH]; cbn [app map_throwing].
  - by rewrite getEntityEnum_refuses.
  - apply isValidEntity_get_property in He as [v Hv].
    unfold getEntityEnum at 1. rewrite Hv. cbn [cbind]. by rewrite IH.
Qed.

Lemma map_throwing_outcome es :
  match map_throwing getEntityEnum es with
  | Normal enums => Forall2 (fun e v => get_property e = Some v) es enums
  | Abrupt t =>
      exists good bad rest,
        es = good ++ bad :: rest /\
        Forall (fun e => isValidEntity e = true) good /\
        isValidEntity bad = false /\
        t = Error (String.append "Invalid entity type: " bad)
  end.
Proof.
  induction es as [|e es IH]; cbn [map_throwing]; [constructor|].
  unfold getEntityEnum at 1.
  destruct (get_property e) as [v|] eqn:Hv; cbn [cbind].
  - destruct (map_throwing getEntityEnum es) as [enums|t]; cbn [cbind].
    + by constructor.
    + destruct IH as (good & bad & rest & -> & Hgood & Hbad & ->).
      exists (e :: good), bad, rest. repeat split; try done.
      constructor; [|done]. apply isValidEntity_get_property. eauto.
  - exists [], e, es. repeat split; try done.
    destruct (isValidEntity e) eqn:He; [|done].
    apply isValidEntity_get_property in He as [? ?]. congruence.
Qed.

(** X4. The guard and the resolver agree: [isValidEntity] accepts a name
    exactly when [getEntityEnum] returns for it, and refuses it exactly
    when [getEntityEnum] throws [Invalid entity type: <name>]. *)
Theorem isValidEntity_agrees_with_getEntityEnum (entity : string) :
  (isValidEntity entity = true <-> exists v, getEntityEnum entity = Normal v) /\
  (isValidEntity entity = false <->
   getEntityEnum entity
   = Abrupt (Error (String.append "Invalid entity type: " entity))).
Proof.
  unfold getEntityEnum. split.
  - rewrite isValidEntity_get_property.
    destruct (get_property entity) as [v|]; split; try by eauto.
    all: by intros [? ?].
  - split; [apply getEntityEnum_refuses|].
    destruct (get_property entity) as [v|] eqn:Hv; [done|]. intros _.
    destruct (isValidEntity entity) eqn:He; [|done].
    apply isValidEntity_get_property in He as [? ?]. congruence.
Qed.

Lemma listed_own_property e :
  In e ENTITY_TYPES -> exists d, get_property e = Some (Enum d) /\
                                 own_property e ENTITY_MAP = Some d.
Proof.
  intros [d Hd]%own_property_keys. exists d. unfold get_property.
  by rewrite Hd.
Qed.

Lemma sent_format_effective client options :
  {| SkyflowNode.format_default :=
       Some (TOKEN_TYPE_MAP (effective_tokenType client options)) |}
  = sent_format client options.
Proof.
  unfold sent_format, effective_tokenType.
  destruct (options ≫= tokenType); [done|].
  by destruct (c_options (config client) ≫= defaultTokenType).
Qed.

Lemma listed_entities_resolved es :
  Forall (fun e => In e ENTITY_TYPES) es ->
  exists enums,
    map_throwing getEntityEnum es = Normal enums /\
    Forall2 (fun e v => exists d, own_property e ENTITY_MAP = Some d /\ v = Enum d)
            es enums.
Proof.
  induction 1 as [|e es Hin _ (enums & IH & Hall)]; cbn [map_throwing].
  - exists []. split; [done | constructor].
  - apply listed_own_property in Hin as (d & Hd & Hown).
    unfold getEntityEnum at 1. rewrite Hd, IH. cbn [cbind].
    exists (Enum d :: enums). split; [done|]. constructor; [|done].
    by exists d.
Qed.

(** X5. Entities taken from [ENTITY_TYPES] are never refused: when the
    effective entities of a call are a list, not empty, of listed names,
    the options for the vault are built, with the token format of the call
    and one enumeration member per name, in order, each the member that
    [ENTITY_MAP] has under that name. *)
Theorem listed_entities_accepted (client : SkyflowMCP) options es :
  effective_entities client options = Some es -> es <> [] ->
  Forall (fun e => In e ENTITY_TYPES) es ->
  exists enums,
    deidentifyOptions_for client options
    = Normal {| SkyflowNode.opt_tokenFormat := Some (sent_format client options);
                SkyflowNode.opt_entities := Some enums |} /\
    Forall2 (fun e v => exists d, own_property e ENTITY_MAP = Some d /\ v = Enum d)
            es enums.
Proof.
  intros Hes Hne Hall. unfold deidentifyOptions_for.
  rewrite Hes, sent_format_effective. destruct es as [|e es]; [done|].
  destruct (listed_entities_resolved (e :: es) Hall) as (enums & -> & H).
  by exists enums.
Qed.

(** X6. When a name among the effective entities is refused,
    [deidentify] rejects with a [DeidentifyError] whose message and cause
    name the first such name, without a status code; the state is as it
    was, so the vault is not called. *)
Theorem deidentify_first_refused_entity (client : SkyflowMCP) text options
    (sys : Sys World) good bad rest :
  effective_entities client options = Some (good ++ bad :: rest) ->
  Forall (fun e => isValidEntity e = true) good ->
  isValidEntity bad = false ->
  let refusal := Error (String.append "Invalid entity type: " bad) in
  deidentify client text options sys
  = (Abrupt (DeidentifyError (message_of refusal) None JsUndefined
               (Some refusal)), sys).
Proof.
  intros Hes Hgood Hbad refusal. rewrite deidentify_run.
  unfold deidentifyOptions_for. rewrite Hes.
  destruct (good ++ bad :: rest) as [|e es] eqn:Heq; [by destruct good|].
  rewrite <- Heq. by rewrite map_throwing_refused.
Qed.

Lemma deidentifyOptions_for_shape (client : SkyflowMCP) options o :
  deidentifyOptions_for client options = Normal o ->
  SkyflowNode.opt_tokenFormat o = Some (sent_format client options) /\
  SkyflowNode.opt_entities o <> Some [].
Proof.
  unfold deidentifyOptions_for. rewrite sent_format_effective.
  destruct (effective_entities client options) as [[|e es]|];
    try (intros [= <-]; by split).
  destruct (map_throwing getEntityEnum (e :: es)) as [enums|t] eqn:Hm; [|done].
  intros [= <-]. split; [done|]. cbn. intros [= ->].
  pose proof (map_throwing_outcome (e :: es)) as Hout. rewrite Hm in Hout.
  inversion Hout.
Qed.

Lemma deidentifyOptions_for_refusal (client : SkyflowMCP) options t :
  deidentifyOptions_for client options = Abrupt t ->
  exists good bad rest,
    effective_entities client options = Some (good ++ bad :: rest) /\
    Forall (fun e => isValidEntity e = true) good /\
    isValidEntity bad = false /\
    t = Error (String.append "Invalid entity type: " bad).
Proof.
  unfold deidentifyOptions_for.
  destruct (effective_entities client options) as [[|e es]|]; try done.
  pose proof (map_throwing_outcome (e :: es)) as Hout.
  destruct (map_throwing getEntityEnum (e :: es)) as [enums|t']; [done|].
  intros [= <-]. destruct Hout as (good & bad & rest & -> & ? & ? & ->).
  by exists good, bad, rest.
Qed.

(** X7. [deidentify] either rejects before calling the vault, leaving
    the state as it was, or calls the vault exactly once, on the text it
    was given, with options that always carry a token format (per call,
    else the client's default, else [VAULT_TOKEN]) and never an empty
    list of entities; what it then returns is the response of the vault,
    field by field. *)
Theorem deidentify_call_shape (client : SkyflowMCP) text options
    (sys : Sys World) :
  let out := deidentify client text options sys in
  (out.2 = sys /\ exists t, out.1 = Abrupt t) \/
  exists o,
    trace out.2 = trace sys ++ [CallDeidentifyText text o] /\
    SkyflowNode.opt_tokenFormat o = Some (sent_format client options) /\
    SkyflowNode.opt_entities o <> Some [] /\
    (SkyflowNode.deidentifyText (skyflow client) text o (world sys)).2
      = world out.2 /\
    forall d, out.1 = Normal d ->
      exists response,
        (SkyflowNode.deidentifyText (skyflow client) text o (world sys)).1
          = Normal response /\
        d = {| processedText := SkyflowNode.resp_processedText response;
               r_entities := SkyflowNode.resp_entities response;
               wordCount := SkyflowNode.resp_wordCount response;
               charCount := SkyflowNode.resp_charCount response |}.
Proof.
  cbv zeta. rewrite deidentify_run.
  destruct (deidentifyOptions_for client options) as [o|t] eqn:Ho.
  - right. exists o. apply deidentifyOptions_for_shape in Ho as [Hf He].
    destruct (SkyflowNode.deidentifyText _ _ _ _) as [[response|error] w'];
      cbn; repeat split; try done.
    intros d [= <-]. by eexists.
  - left. split; [done | by eexists].
Qed.

(** X8. [deidentify] rejects with a [DeidentifyError] only. Either a
    name among the effective entities was refused: the message names it,
    there is no status code and nothing was sent. Or the vault was called
    and failed: its status code and details are on the error, and the
    failure is the cause, with its message, when it is an [Error]. *)
Theorem deidentify_rejects_with_DeidentifyError (client : SkyflowMCP) text
    options (sys : Sys World) t :
  (deidentify client text options sys).1 = Abrupt t ->
  exists e,
    t = SdkError e /\ is_DeidentifyError e /\
    ((exists bad,
        isValidEntity bad = false /\
        (exists es, effective_entities client options = Some es /\ In bad es) /\
        message e = String.append "Invalid entity type: " bad /\
        httpCode e = None /\
        (deidentify client text options sys).2 = sys) \/
     (exists o failure w1,
        deidentifyOptions_for client options = Normal o /\
        SkyflowNode.deidentifyText (skyflow client) text o (world sys)
          = (Abrupt failure, w1) /\
        carries_status failure e /\
        (instanceof_Error failure = true ->
           cause e = Some failure /\ message e = message_of failure))).
Proof.
  rewrite deidentify_run.
  destruct (deidentifyOptions_for client options) as [o|refusal] eqn:Ho.
  - destruct (SkyflowNode.deidentifyText _ _ _ _) as [[response|failure] w1]
      eqn:Hde; [done|].
    cbn. intros [= <-].
    destruct (reclassify_DeidentifyError failure) as (e & He & Hd & Hs & Hc & _).
    exists e. split; [done|]. split; [done|]. right.
    by exists o, failure, w1.
  - cbn. intros [= <-].
    apply deidentifyOptions_for_refusal in Ho
      as (good & bad & rest & Hes & _ & Hbad & ->).
    eexists. split; [reflexivity|]. split; [done|]. left.
    exists bad. split; [done|]. split; [|done].
    eexists. split; [done|]. apply in_app_iff. right. by left.
Qed.

Lemma reclassify_ReidentifyError failure :
  exists e,
    reclassify ReidentifyError "Unknown reidentify error" failure = SdkError e /\
    is_ReidentifyError e /\ carries_status failure e /\
    (instanceof_Error failure = true ->
       cause e = Some failure /\ message e = message_of failure) /\
    (instanceof_Error failure = false ->
       cause e = None /\ message e = "Unknown reidentify error").
Proof.
  unfold is_ReidentifyError, carries_status.
  destruct failure as [v|msg|msg body|e0]; eexists; (split; [reflexivity|]);
    simpl; repeat split; try done.
  - intros msg' body' n [= -> ->] Hn. simpl. by rewrite Hn.
  - by intros msg' body' [= -> ->].
Qed.

(** X9. [reidentify] calls the vault exactly once, on the text it was
    given, whatever the outcome. It returns the restored text, or rejects
    with a [ReidentifyError] that carries the status code and the details
    of the failure, with the failure as cause and its message when it is
    an [Error], and without a cause, as [Unknown reidentify error],
    otherwise. *)
Theorem reidentify_call_shape (client : SkyflowMCP) text (sys : Sys World) :
  let out := reidentify client text sys in
  trace out.2 = trace sys ++ [CallReidentifyText text] /\
  (SkyflowNode.reidentifyText (skyflow client) text (world sys)).2
    = world out.2 /\
  match (SkyflowNode.reidentifyText (skyflow client) text (world sys)).1 with
  | Normal response =>
      out.1 = Normal {| reidentified := SkyflowNode.reid_processedText response |}
  | Abrupt failure =>
      exists e,
        out.1 = Abrupt (SdkError e) /\
        is_ReidentifyError e /\ carries_status failure e /\
        (instanceof_Error failure = true ->
           cause e = Some failure /\ message e = message_of failure) /\
        (instanceof_Error failure = false ->
           cause e = None /\ message e = "Unknown reidentify error")
  end.
Proof.
  cbv zeta. rewrite reidentify_run.
  destruct (SkyflowNode.reidentifyText _ _ _) as [[response|failure] w1];
    cbn; repeat split; try done.
  destruct (reclassify_ReidentifyError failure) as (e & -> & H).
  by exists e.
Qed.


Lemma deidentify_failure_class (client : SkyflowMCP) text options
    (sys : Sys World) t :
  (deidentify client text options sys).1 = Abrupt t ->
  exists e, t = SdkError e /\ is_DeidentifyError e.
Proof.
  rewrite deidentify_run.
  destruct (deidentifyOptions_for client options) as [o|refusal].
  - destruct (SkyflowNode.deidentifyText _ _ _ _) as [[response|failure] w1];
      [done|].
    cbn. intros [= <-].
    destruct (reclassify_DeidentifyError failure) as (e & He & Hd & _).
    by exists e.
  - cbn. intros [= <-].
    destruct (reclassify_DeidentifyError refusal) as (e & He & Hd & _).
    by exists e.
Qed.

End ClientExtras.

(** ** The envelope, further *)
Section EnvelopeExtras.
Context {World : Type} {service : SkyflowNode.VaultService World}.

(** X10. [SkyflowMCP.wrap] is [wrapWithProtection], and
    [createProtectedWrapper], given the same options: the same result and
    the same calls, from every state. *)
Theorem wrap_as_wrapWithProtection (client : SkyflowMCP) (input : string)
    (operation : Operation) (options : option WrapOptions) (sys : Sys World) :
  wrap client input operation options sys
  = wrapWithProtection client input operation (as_protection <$> options) sys /\
  createProtectedWrapper client input operation (as_protection <$> options) sys
  = wrap client input operation options sys.
Proof.
  assert (wrap client input operation options sys
          = wrapWithProtection client input operation
              (as_protection <$> options) sys) as H; [|by split].
  unfold wrap, wrapWithProtection, bind.
  assert (deidentify client input (w_deidentify <$> options) sys
          = deidentify client input
              (Some (p_deidentify (default no_options (as_protection <$> options))))
              sys) as <-.
  { destruct options as [o|]; [done|]. by rewrite !deidentify_run. }
  destruct (deidentify client input _ sys) as [[d|t] sys1]; [|done].
  assert (onDeidentify (default no_options (as_protection <$> options)) = None)
    as -> by (by destruct options).
  cbn [call_optional ret].
  destruct (call _ _ sys1) as [[result|t] sys2]; [|done].
  assert (default true (reidentifyOutput
                          (default no_options (as_protection <$> options)))
          = match options ≫= w_reidentifyOutput with
            | Some false => false
            | _ => true
            end) as ->.
  { destruct options as [[? [[|]|]]|]; done. }
  assert (reidentifyField (default no_options (as_protection <$> options)) = None)
    as -> by (by destruct options).
  assert (onReidentify (default no_options (as_protection <$> options)) = None)
    as -> by (by destruct options).
  destruct (match options ≫= w_reidentifyOutput with
            | Some false => false
            | _ => true
            end); cbn [negb].
  - by destruct result.
  - by destruct result.
Qed.

(** X11. When the operation rejects, [wrapWithProtection] rejects with
    the very value the operation threw, not reclassified; the operation
    has been called once, and reidentify is not called. *)
Theorem operation_failure_propagates (client : SkyflowMCP) (input : string)
    (operation : Operation) options (sys : Sys World) d sys1 sys2 failure w3 :
  let opts := default no_options options in
  deidentify client input (Some (p_deidentify opts)) sys = (Normal d, sys1) ->
  call_optional (CallOnDeidentify d) (onDeidentify opts) d sys1
    = (Normal (), sys2) ->
  operation (processedText d) (world sys2) = (Abrupt failure, w3) ->
  let out := wrapWithProtection client input operation options sys in
  out = (Abrupt failure,
         {| world := w3;
            trace := trace sys2 ++ [CallOperation (processedText d)] |}) /\
  one_operation_since sys out.2 (processedText d) /\
  no_reidentify_since sys out.2.
Proof.
  intros opts Hde Hcb Hop out.
  assert (out = (Abrupt failure,
                 {| world := w3;
                    trace := trace sys2 ++ [CallOperation (processedText d)] |}))
    as Hout.
  { subst out. unfold wrapWithProtection, bind. fold opts.
    rewrite Hde, Hcb. unfold call at 1. by rewrite Hop. }
  split; [done|]. rewrite Hout. cbn [snd].
  pose proof (deidentify_quiet client input (Some (p_deidentify opts)) sys)
    as [Ho1 Hr1].
  rewrite Hde in Ho1, Hr1.
  pose proof (call_optional_quiet (CallOnDeidentify d) (onDeidentify opts) d sys1)
    as [Ho2 Hr2]; [done..|].
  rewrite Hcb in Ho2, Hr2.
  unfold no_reidentify_since, no_operation_since, one_operation_since in *.
  cbn in *. rewrite operations_app, reidentify_calls_app. cbn.
  rewrite app_nil_r. split; congruence.
Qed.

(** X12. When the operation has returned a string, or a structured
    value whose named field holds one, and the reidentify call on it
    fails, [wrapWithProtection] rejects with a [ReidentifyError] carrying
    the status of the failure; by then the operation has run, once, and
    the [onReidentify] callback is not called. *)
Theorem reidentify_failure_after_operation (client : SkyflowMCP)
    (input : string) (operation : Operation) options (sys : Sys World)
    d sys1 sys2 result text w3 failure w4 :
  let opts := default no_options options in
  deidentify client input (Some (p_deidentify opts)) sys = (Normal d, sys1) ->
  call_optional (CallOnDeidentify d) (onDeidentify opts) d sys1
    = (Normal (), sys2) ->
  operation (processedText d) (world sys2) = (Normal result, w3) ->
  reidentifyOutput opts <> Some false ->
  result = JsString text \/
    (exists field fields,
       result = JsObject fields /\ reidentifyField opts = Some field /\
       field <> "" /\ fields !! field = Some (JsString text)) ->
  SkyflowNode.reidentifyText (skyflow client) text w3 = (Abrupt failure, w4) ->
  let out := wrapWithProtection client input operation options sys in
  exists e,
    out.1 = Abrupt (SdkError e) /\
    is_ReidentifyError e /\ carries_status failure e /\
    (instanceof_Error failure = true ->
       cause e = Some failure /\ message e = message_of failure) /\
    trace out.2 = trace sys2 ++ [CallOperation (processedText d);
                                 CallReidentifyText text] /\
    one_operation_since sys out.2 (processedText d).
Proof.
  intros opts Hde Hcb Hop Hon Hres Hre out.
  destruct (wrapWithProtection_prefix client input operation options sys
              d sys1 sys2 result w3 Hde Hcb Hop) as (_ & Hone & Hrun).
  fold opts in Hrun. fold out in Hrun.
  set (sys3 := {| world := w3; trace := _ |}) in *.
  assert (negb (default true (reidentifyOutput opts)) = false) as Hneg.
  { by destruct (reidentifyOutput opts) as [[|]|]. }
  rewrite Hneg in Hrun.
  destruct (reclassify_ReidentifyError failure) as (e & He & Hcls & Hst & Hc & _).
  assert (out = (Abrupt (SdkError e),
                 {| world := w4;
                    trace := trace sys3 ++ [CallReidentifyText text] |}))
    as Hout.
  { clearbody out. subst out sys3.
    destruct Hres as [-> | (field & fields & -> & Hf & Hnamed & Hlook)].
    - rewrite reidentify_run. cbn [world]. rewrite Hre. by rewrite He.
    - rewrite Hf, Hlook. destruct (String.eqb_spec field "") as [?|_]; [done|].
      rewrite reidentify_run. cbn [world]. rewrite Hre. by rewrite He. }
  exists e. rewrite Hout. cbn [fst snd trace].
  do 4 (split; [done|]). split.
  - subst sys3. cbn. by rewrite <- app_assoc.
  - unfold one_operation_since in *. cbn. rewrite operations_app. cbn.
    by rewrite app_nil_r.
Qed.

(** X13. The callbacks are called inside the envelope, without [await]:
    what a callback returns is dropped, a promise included, and only a
    throw of the call itself is a failure here. When the call of
    [onDeidentify] throws, [wrapWithProtection] rejects with what it threw
    and the operation is not called; when the call of [onReidentify]
    throws, the envelope rejects with what it threw although the
    operation and reidentify have both run. *)
Theorem callback_failure_rejects (client : SkyflowMCP) (input : string)
    (operation : Operation) options (sys : Sys World) d sys1 failure :
  let opts := default no_options options in
  deidentify client input (Some (p_deidentify opts)) sys = (Normal d, sys1) ->
  let out := wrapWithProtection client input operation options sys in
  (forall callback w2,
     onDeidentify opts = Some callback ->
     callback d (world sys1) = (Abrupt failure, w2) ->
     out = (Abrupt failure,
            {| world := w2; trace := trace sys1 ++ [CallOnDeidentify d] |}) /\
     no_operation_since sys out.2) /\
  (forall sys2 text w3 restored w4 callback w5,
     call_optional (CallOnDeidentify d) (onDeidentify opts) d sys1
       = (Normal (), sys2) ->
     operation (processedText d) (world sys2) = (Normal (JsString text), w3) ->
     reidentifyOutput opts <> Some false ->
     SkyflowNode.reidentifyText (skyflow client) text w3
       = (Normal restored, w4) ->
     onReidentify opts = Some callback ->
     callback (SkyflowNode.reid_processedText restored) w4
       = (Abrupt failure, w5) ->
     out.1 = Abrupt failure /\
     one_operation_since sys out.2 (processedText d) /\
     one_reidentify_since sys out.2 text).
Proof.
  intros opts Hde out. split.
  - intros callback w2 Hcb Hthrow.
    assert (out = (Abrupt failure,
                   {| world := w2;
                      trace := trace sys1 ++ [CallOnDeidentify d] |})) as Hout.
    { subst out. unfold wrapWithProtection, bind. fold opts.
      rewrite Hde, Hcb. unfold call_optional, call. by rewrite Hthrow. }
    split; [done|]. rewrite Hout.
    pose proof (deidentify_quiet client input (Some (p_deidentify opts)) sys)
      as [Ho1 _].
    rewrite Hde in Ho1. unfold no_operation_since in *. cbn in *.
    rewrite operations_app. cbn. by rewrite app_nil_r.
  - intros sys2 text w3 restored w4 callback w5 Hcb Hop Hon Hre Hcb2 Hthrow.
    destruct (wrapWithProtection_prefix client input operation options sys
                d sys1 sys2 (JsString text) w3 Hde Hcb Hop) as (Hnone & Hone & Hrun).
    fold opts in Hrun. fold out in Hrun.
    set (sys3 := {| world := w3; trace := _ |}) in *.
    assert (negb (default true (reidentifyOutput opts)) = false) as Hneg.
    { by destruct (reidentifyOutput opts) as [[|]|]. }
    subst sys3. rewrite Hneg, reidentify_run in Hrun. cbn [world] in Hrun.
    rewrite Hre, Hcb2 in Hrun. unfold call_optional, call in Hrun.
    cbn [world reidentified] in Hrun. rewrite Hthrow in Hrun.
    rewrite Hrun. cbn [fst snd].
    unfold one_operation_since, one_reidentify_since, no_reidentify_since in *.
    cbn in *. rewrite !operations_app, !reidentify_calls_app. cbn.
    rewrite !app_nil_r. rewrite <- Hnone.
    rewrite operations_app, reidentify_calls_app in *. cbn in *.
    rewrite ?app_nil_r in *. done.
Qed.

End EnvelopeExtras.

Section EnvelopeOrder.
Context {World : Type} {service : SkyflowNode.VaultService World}.







End EnvelopeOrder.


Section EnvelopeFailures.
Context {World : Type} {service : SkyflowNode.VaultService World}.





End EnvelopeFailures.

(** ** Construction, further *)
Section ConstructionExtras.
Context {World : Type} {service : SkyflowNode.VaultService World}.

(** The constructor, by the outcome of the validation and of the SDK's
    constructor. *)
Lemma new_SkyflowMCP_run (config : SkyflowMCPConfig) :
  new_SkyflowMCP config =
  if String.eqb (c_vaultId config) "" then
    Abrupt (ConfigurationError "vaultId is required" None)
  else if String.eqb (c_vaultUrl config) "" then
    Abrupt (ConfigurationError "vaultUrl is required" None)
  else
    match Validation.extractClusterId (c_vaultUrl config) with
    | None =>
        Abrupt (ConfigurationError
                  "Invalid vaultUrl format. Expected format: https://<clusterId>.vault.skyflowapis.com"
                  None)
    | Some cluster =>
        match SkyflowNode.Skyflow_new (sdk_for config cluster) with
        | Some failure =>
            Abrupt (ConfigurationError "Failed to initialize Skyflow SDK"
                      (if instanceof_Error failure then Some failure else None))
        | None =>
            Normal {| skyflow := sdk_for config cluster;
                      vaultId := c_vaultId config;
                      config := config |}
        end
    end.
Proof.
  unfold new_SkyflowMCP, Validation.validateVaultConfig, sdk_for.
  cbn [Validation.p_vaultId Validation.p_vaultUrl truthy default from_option].
  unfold id.
  destruct (String.eqb (c_vaultId config) ""); cbn [negb]; [done|].
  destruct (String.eqb (c_vaultUrl config) ""); cbn [negb]; [done|].
  destruct (Validation.extractClusterId (c_vaultUrl config)) as [cluster|] eqn:Hc;
    [|done].
  apply MatcherFacts.extractClusterId_label in Hc as [Hne _].
  destruct cluster; [done|]. done.
Qed.

(** X16. [new SkyflowMCP(config)] returns exactly when the vault id is
    not empty, a cluster id is read from the url, and the SDK's
    constructor, given one vault with that id, that cluster and the
    credentials of the configuration, does not throw; [getVaultId] is
    then the vault id that was passed, [getSkyflowInstance] that SDK
    instance, and the configuration is kept as passed. *)
Theorem new_SkyflowMCP_succeeds_iff (config : SkyflowMCPConfig)
    (client : SkyflowMCP) :
  new_SkyflowMCP config = Normal client <->
  c_vaultId config <> "" /\
  exists cluster,
    Validation.extractClusterId (c_vaultUrl config) = Some cluster /\
    SkyflowNode.Skyflow_new (sdk_for config cluster) = None /\
    getVaultId client = c_vaultId config /\
    getSkyflowInstance client = sdk_for config cluster /\
    Client.config client = config.
Proof.
  rewrite new_SkyflowMCP_run. unfold getVaultId, getSkyflowInstance.
  destruct (String.eqb_spec (c_vaultId config) "") as [Hid|Hid].
  { split; [done | by intros [? _]]. }
  destruct (String.eqb_spec (c_vaultUrl config) "") as [Hurl|Hurl].
  { split; [done|]. intros [_ (cluster & Hc & _)]. by rewrite Hurl in Hc. }
  destruct (Validation.extractClusterId (c_vaultUrl config)) as [cluster|].
  - destruct (SkyflowNode.Skyflow_new (sdk_for config cluster)) as [failure|]
      eqn:Hnew.
    + split; [done|]. intros [_ (cluster' & [= <-] & Hnew' & _)]. congruence.
    + split.
      * intros [= <-]. split; [done|]. by exists cluster.
      * intros [_ (cluster' & [= <-] & _ & H1 & H2 & H3)].
        destruct client as [s v c]. cbn in *. by subst.
  - split; [done|]. by intros [_ (cluster & ? & _)].
Qed.

(** X17. The constructor throws a [ConfigurationError] only, without
    status code or details: [vaultId is required] for an empty id,
    [vaultUrl is required] for an empty url, the format message when no
    cluster id is read from the url, each without a cause; and [Failed to
    initialize Skyflow SDK] when the SDK's constructor throws, with what
    it threw as the cause when that is an [Error]. *)
Theorem new_SkyflowMCP_rejects_with_ConfigurationError
    (config : SkyflowMCPConfig) (t : Thrown) :
  new_SkyflowMCP config = Abrupt t ->
  exists e,
    t = SdkError e /\ is_ConfigurationError e /\
    httpCode e = None /\ details e = JsUndefined /\
    ((c_vaultId config = "" /\
      message e = "vaultId is required" /\ cause e = None) \/
     (c_vaultId config <> "" /\ c_vaultUrl config = "" /\
      message e = "vaultUrl is required" /\ cause e = None) \/
     (c_vaultId config <> "" /\ c_vaultUrl config <> "" /\
      Validation.extractClusterId (c_vaultUrl config) = None /\
      contains "Invalid vaultUrl format" (message e) /\ cause e = None) \/
     (exists cluster failure,
        c_vaultId config <> "" /\
        Validation.extractClusterId (c_vaultUrl config) = Some cluster /\
        SkyflowNode.Skyflow_new (sdk_for config cluster) = Some failure /\
        message e = "Failed to initialize Skyflow SDK" /\
        cause e = if instanceof_Error failure then Some failure else None)).
Proof.
  rewrite new_SkyflowMCP_run.
  destruct (String.eqb_spec (c_vaultId config) "") as [Hid|Hid].
  { intros [= <-]. eexists. split; [reflexivity|]. do 3 (split; [done|]).
    by left. }
  destruct (String.eqb_spec (c_vaultUrl config) "") as [Hurl|Hurl].
  { intros [= <-]. eexists. split; [reflexivity|]. do 3 (split; [done|]).
    right. by left. }
  destruct (Validation.extractClusterId (c_vaultUrl config)) as [cluster|].
  - destruct (SkyflowNode.Skyflow_new (sdk_for config cluster)) as [failure|]
      eqn:Hnew; [|done].
    intros [= <-]. eexists. split; [reflexivity|]. do 3 (split; [done|]).
    do 3 right. by exists cluster, failure.
  - intros [= <-]. eexists. split; [reflexivity|]. do 3 (split; [done|]).
    right. right. left. do 3 (split; [done|]). split; [|done].
    apply contains_prefix with (sub := "Invalid vaultUrl format").
Qed.

Lemma new_SkyflowMCP_ConfigurationError (config : SkyflowMCPConfig) t :
  new_SkyflowMCP config = Abrupt t ->
  exists message cause, t = ConfigurationError message cause.
Proof.
  rewrite new_SkyflowMCP_run.
  repeat match goal with
         | |- context [if ?b then _ else _] => destruct b
         | |- context [match ?x with Some _ => _ | None => _ end] => destruct x
         end; try done; intros [= <-]; by do 2 eexists.
Qed.

Lemma createFromEnv_ConfigurationError
    (overrides : option PartialConfig) (env : gmap string string) (t : Thrown) :
  createFromEnv overrides env = Abrupt t ->
  exists message cause, t = ConfigurationError message cause.
Proof.
  unfold createFromEnv.
  destruct (truthy (or_else _ (env !! "SKYFLOW_VAULT_ID")));
    [|intros [= <-]; by do 2 eexists].
  destruct (truthy (or_else _ (env !! "SKYFLOW_VAULT_URL")));
    [|intros [= <-]; by do 2 eexists].
  cbn [negb].
  destruct (overrides ≫= o_credentials) as [credentials|]; cbn [cbind];
    [apply new_SkyflowMCP_ConfigurationError|].
  destruct (truthy (env !! "SKYFLOW_BEARER_TOKEN")); cbn [cbind];
    [apply new_SkyflowMCP_ConfigurationError|].
  destruct (truthy (env !! "SKYFLOW_API_KEY")); cbn [cbind];
    [apply new_SkyflowMCP_ConfigurationError|].
  intros [= <-]. by do 2 eexists.
Qed.

(** X18. Whatever is passed and whatever the environment holds,
    [createFromEnv] throws a [ConfigurationError] only, without status
    code or details. *)
Theorem createFromEnv_rejects_with_ConfigurationError
    (overrides : option PartialConfig) (env : gmap string string) (t : Thrown) :
  createFromEnv overrides env = Abrupt t ->
  exists e, t = SdkError e /\ is_ConfigurationError e /\
            httpCode e = None /\ details e = JsUndefined.
Proof.
  intros (message & cause & ->)%createFromEnv_ConfigurationError.
  by eexists.
Qed.

(** X19. What is passed to [createFromEnv] comes before the
    environment: a vault id, url, account id or workspace id that is
    passed and not empty makes the value of its variable irrelevant, and
    credentials that are passed make both credential variables
    irrelevant; a vault id that is passed and not empty is the one
    [getVaultId] gives. *)
Theorem createFromEnv_override_precedence (passed : PartialConfig)
    (env : gmap string string) (x : string) :
  (truthy (o_vaultId passed) = true ->
     createFromEnv (Some passed) (<["SKYFLOW_VAULT_ID" := x]> env)
     = createFromEnv (Some passed) env) /\
  (truthy (o_vaultUrl passed) = true ->
     createFromEnv (Some passed) (<["SKYFLOW_VAULT_URL" := x]> env)
     = createFromEnv (Some passed) env) /\
  (is_Some (o_credentials passed) ->
     createFromEnv (Some passed) (<["SKYFLOW_BEARER_TOKEN" := x]> env)
     = createFromEnv (Some passed) env /\
     createFromEnv (Some passed) (<["SKYFLOW_API_KEY" := x]> env)
     = createFromEnv (Some passed) env) /\
  (truthy (o_accountId passed) = true ->
     createFromEnv (Some passed) (<["SKYFLOW_ACCOUNT_ID" := x]> env)
     = createFromEnv (Some passed) env) /\
  (truthy (o_workspaceId passed) = true ->
     createFromEnv (Some passed) (<["SKYFLOW_WORKSPACE_ID" := x]> env)
     = createFromEnv (Some passed) env) /\
  (forall client vid,
     o_vaultId passed = Some vid -> vid <> "" ->
     createFromEnv (Some passed) env = Normal client ->
     getVaultId client = vid).
Proof.
  unfold createFromEnv. cbn [mbind option_bind].
  split; [|split; [|split; [|split; [|split]]]].
  1-2, 4-5: intros H; rewrite ?lookup_insert_eq, ?lookup_insert_ne by done;
    unfold or_else; rewrite H; done.
  - intros [credentials ->]; split;
    by rewrite ?lookup_insert_eq, ?lookup_insert_ne by done.
  - intros client vid Hvid Hne. rewrite Hvid.
    destruct vid as [|c vid]; [done|].
    change (or_else (Some (String c vid)) (env !! "SKYFLOW_VAULT_ID"))
      with (Some (String c vid)).
    cbn [truthy String.eqb negb].
    destruct (truthy (or_else _ _)); [|done]. cbn [negb].
    destruct (match o_credentials passed with Some _ => _ | None => _ end)
      as [credentials|]; [|done].
    cbn [cbind from_option]. unfold id. rewrite new_SkyflowMCP_run.
    repeat match goal with
           | |- context [if ?b then _ else _] => destruct b
           | |- context [match ?x with Some _ => _ | None => _ end] => destruct x
           end; try done.
    by intros [= <-].
Qed.

(** X20. With no credentials passed and the bearer-token variable
    absent or empty, a client built by [createFromEnv] uses the API key
    of the environment. *)
Theorem createFromEnv_api_key_fallback (overrides : option PartialConfig)
    (env : gmap string string) (key : string) (client : SkyflowMCP) :
  overrides ≫= o_credentials = None ->
  absent_or_empty (env !! "SKYFLOW_BEARER_TOKEN") ->
  env !! "SKYFLOW_API_KEY" = Some key -> key <> "" ->
  createFromEnv overrides env = Normal client ->
  uses_credentials client (SkyflowNode.ApiKey key).
Proof.
  intros Hcred Hbearer%truthy_false Hkey Hne. unfold createFromEnv.
  destruct (truthy (or_else _ (env !! "SKYFLOW_VAULT_ID"))); [|done].
  destruct (truthy (or_else _ (env !! "SKYFLOW_VAULT_URL"))); [|done].
  rewrite Hcred, Hbearer, Hkey. destruct key as [|c key]; [done|].
  cbn. intros Hnew. by apply new_SkyflowMCP_credentials in Hnew as [_ ?].
Qed.

End ConstructionExtras.

(** ** The MCP tools *)
Section ToolExtras.
Import Schemas Tools.
Context {World : Type} {service : SkyflowNode.VaultService World}
        {runtime : Runtime}.

Lemma createDeidentifyTool_handler (client : SkyflowMCP) prefix tool :
  createDeidentifyTool client prefix = Normal tool ->
  zod_installed = true /\
  name tool = String.append (default "" prefix) "deidentify" /\
  handler tool = deidentify_handler client /\
  createDeidentifyInputSchema = Normal (inputSchema tool) /\
  createDeidentifyOutputSchema = Normal (outputSchema tool).
Proof.
  unfold createDeidentifyTool, createDeidentifyInputSchema,
    createDeidentifyOutputSchema, getZod.
  destruct zod_installed; [|done]. cbn [cbind]. by intros [= <-].
Qed.

Lemma createReidentifyTool_handler (client : SkyflowMCP) prefix tool :
  createReidentifyTool client prefix = Normal tool ->
  zod_installed = true /\
  name tool = String.append (default "" prefix) "reidentify" /\
  handler tool = reidentify_handler client /\
  createReidentifyInputSchema = Normal (inputSchema tool) /\
  createReidentifyOutputSchema = Normal (outputSchema tool).
Proof.
  unfold createReidentifyTool, createReidentifyInputSchema,
    createReidentifyOutputSchema, getZod.
  destruct zod_installed; [|done]. cbn [cbind]. by intros [= <-].
Qed.

(** X21. When the vault answers, the handler of the deidentify tool
    resolves, after that one call, with a structured content holding the
    processed text, the two counts as the vault gave them ([undefined]
    when absent) and the number of entities found, and nothing under a
    key that the output schema of the tool does not declare; the content
    is one text block, the serialisation of that same value. *)
Theorem deidentify_tool_result (client : SkyflowMCP) prefix tool args
    (sys : Sys World) o response w1 :
  createDeidentifyTool client prefix = Normal tool ->
  deidentifyOptions_for client (options_of args) = Normal o ->
  SkyflowNode.deidentifyText (skyflow client) (inputString args) o (world sys)
    = (Normal response, w1) ->
  exists result,
    handler tool args sys
    = (Normal result,
       {| world := w1;
          trace := trace sys ++ [CallDeidentifyText (inputString args) o] |}) /\
    get (structuredContent result) "processedText"
      = JsString (SkyflowNode.resp_processedText response) /\
    get (structuredContent result) "wordCount"
      = optional_number (SkyflowNode.resp_wordCount response) /\
    get (structuredContent result) "charCount"
      = optional_number (SkyflowNode.resp_charCount response) /\
    get (structuredContent result) "entitiesFound"
      = optional_number
          ((fun es => Z.of_nat (length es)) <$> SkyflowNode.resp_entities response) /\
    (forall key, get (structuredContent result) key <> JsUndefined ->
                 In key (map fst (outputSchema tool))) /\
    content result
      = [ {| content_type := "text";
             text := JSON_stringify (structuredContent result) |} ].
Proof.
  intros (_ & _ & Hh & _ & Hout)%createDeidentifyTool_handler Ho Hde.
  rewrite Hh. unfold deidentify_handler, bind.
  fold (options_of args). rewrite deidentify_run, Ho, Hde.
  eexists. split; [reflexivity|].
  cbn [structuredContent content get processedText wordCount charCount r_entities].
  do 4 (split; [reflexivity|]). split; [|reflexivity].
  intros key Hkey.
  unfold createDeidentifyOutputSchema, getZod in Hout.
  destruct zod_installed; [|done]. injection Hout as <-. cbn [map fst].
  destruct (decide (key = "processedText")) as [->|H1]; [by left|].
  destruct (decide (key = "wordCount")) as [->|H2]; [right; by left|].
  destruct (decide (key = "charCount")) as [->|H3]; [do 2 right; by left|].
  destruct (decide (key = "entitiesFound")) as [->|H4]; [do 3 right; by left|].
  exfalso. apply Hkey.
  by rewrite !lookup_insert_ne by done.
Qed.

(** X22. The handler of the deidentify tool fails exactly as
    [client.deidentify(inputString, { tokenType, entities })] does: it
    leaves the state that call leaves; it rejects with a value exactly
    when that call rejects with it, and the value is then a
    [DeidentifyError]; and it resolves whenever that call resolves. So a
    failure of the client is never turned into a result, and the handler
    fails in no other way. *)
Theorem deidentify_tool_rejects_as_client (client : SkyflowMCP) prefix tool
    args (sys : Sys World) :
  createDeidentifyTool client prefix = Normal tool ->
  let called :=
    deidentify client (inputString args) (options_of args) sys in
  let out := handler tool args sys in
  out.2 = called.2 /\
  (forall t, out.1 = Abrupt t <-> called.1 = Abrupt t) /\
  (forall t, called.1 = Abrupt t ->
     exists e, t = SdkError e /\ is_DeidentifyError e) /\
  (forall d, called.1 = Normal d -> exists result, out.1 = Normal result).
Proof.
  intros (_ & _ & Hh & _)%createDeidentifyTool_handler. cbv zeta.
  rewrite Hh. unfold deidentify_handler, bind. fold (options_of args).
  pose proof (deidentify_failure_class client (inputString args)
                (options_of args) sys) as Hclass.
  destruct (deidentify client _ _ sys) as [[d|t'] sys1]; cbn [fst snd] in *.
  - unfold ret. cbn [fst snd].
    split; [reflexivity|]. split; [intros t; split; discriminate|].
    split; [discriminate|]. intros d' _. by eexists.
  - split; [reflexivity|]. split; [intros t; split; by intros [= ->]|].
    split; [exact Hclass | discriminate].
Qed.

(** X23. Entities that the input schema of the deidentify tool allows
    are never refused by the client: for such arguments the handler
    calls the vault, once, with the token format of the call and one own
    member of [ENTITY_MAP] per name (no entities for an empty list). *)
Theorem schema_entities_reach_the_vault (client : SkyflowMCP) prefix tool
    args (sys : Sys World) names es :
  createDeidentifyTool client prefix = Normal tool ->
  allowed_names "entities" (inputSchema tool) = Some names ->
  arg_entities args = Some es ->
  Forall (fun e => In e names) es ->
  exists o,
    trace (handler tool args sys).2
      = trace sys ++ [CallDeidentifyText (inputString args) o] /\
    SkyflowNode.opt_tokenFormat o = Some (sent_format client (options_of args)) /\
    (es = [] -> SkyflowNode.opt_entities o = None) /\
    (es <> [] ->
       exists enums,
         SkyflowNode.opt_entities o = Some enums /\
         Forall2 (fun e v => exists d, own_property e ENTITY_MAP = Some d /\
                                       v = Enum d) es enums).
Proof.
  intros (_ & _ & Hh & Hin & _)%createDeidentifyTool_handler Hnames Hes Hall.
  unfold createDeidentifyInputSchema, getZod in Hin.
  destruct zod_installed; [|done]. injection Hin as Hin. rewrite <- Hin in Hnames.
  injection Hnames as <-.
  rewrite Hh. unfold deidentify_handler, bind. fold (options_of args).
  rewrite deidentify_run.
  assert (effective_entities client (options_of args) = Some es) as Heff.
  { unfold effective_entities, options_of. cbn. by rewrite Hes. }
  destruct es as [|e es].
  - unfold deidentifyOptions_for. rewrite Heff, sent_format_effective.
    eexists.
    destruct (SkyflowNode.deidentifyText _ _ _ _) as [[response|failure] w1];
      cbn; (split; [reflexivity|]); by repeat split.
  - unfold deidentifyOptions_for. rewrite Heff, sent_format_effective.
    destruct (listed_entities_resolved (e :: es) Hall) as (enums & -> & H2).
    cbn [cbind]. eexists.
    destruct (SkyflowNode.deidentifyText _ _ _ _) as [[response|failure] w1];
      cbn; (split; [reflexivity|]); (split; [reflexivity|]);
      (split; [done|]); intros _; by exists enums.
Qed.

(** X24. The handler of the reidentify tool calls the vault once, on
    [inputString]; it resolves with [{ processedText }], the restored
    text, declared by its output schema, and one text block that
    serialises it, or rejects with the client's [ReidentifyError]. *)
Theorem reidentify_tool_result (client : SkyflowMCP) prefix tool args
    (sys : Sys World) :
  createReidentifyTool client prefix = Normal tool ->
  let out := handler tool args sys in
  let called :=
    SkyflowNode.reidentifyText (skyflow client) (inputString args) (world sys) in
  out.2 = {| world := called.2;
             trace := trace sys ++ [CallReidentifyText (inputString args)] |} /\
  match called.1 with
  | Normal restored =>
      exists result,
        out.1 = Normal result /\
        structuredContent result
          = JsObject {[ "processedText" :=
                          JsString (SkyflowNode.reid_processedText restored) ]} /\
        content result
          = [ {| content_type := "text";
                 text := JSON_stringify (structuredContent result) |} ] /\
        (forall key, get (structuredContent result) key <> JsUndefined ->
                     In key (map fst (outputSchema tool)))
  | Abrupt failure =>
      exists e,
        out.1 = Abrupt (SdkError e) /\
        is_ReidentifyError e /\ carries_status failure e
  end.
Proof.
  intros (_ & _ & Hh & _ & Hout)%createReidentifyTool_handler. cbv zeta.
  rewrite Hh. unfold reidentify_handler, bind. rewrite reidentify_run.
  destruct (SkyflowNode.reidentifyText _ _ _) as [[restored|failure] w1]; cbn.
  - split; [done|]. eexists. split; [reflexivity|].
    cbn [structuredContent content]. do 2 (split; [reflexivity|]).
    intros key Hkey.
    unfold createReidentifyOutputSchema, getZod in Hout.
    destruct zod_installed; [|done]. injection Hout as <-. cbn [map fst].
    destruct (decide (key = "processedText")) as [->|H1]; [by left|].
    exfalso. apply Hkey. cbn. by rewrite lookup_insert_ne by done.
  - split; [done|].
    destruct (reclassify_ReidentifyError failure) as (e & -> & Hc & Hs & _).
    by exists e.
Qed.

End ToolExtras.

(** ** Registration *)
Section RegistrationExtras.
Import Schemas Tools.
Context {World : Type} {service : SkyflowNode.VaultService World}
        {runtime : Runtime} {Server : Type}
        {mcp : McpServerLike (World := World) Server}.


Lemma tools_without_zod (client : SkyflowMCP) prefix :
  zod_installed = false ->
  createDeidentifyTool client (Some prefix) = Abrupt zod_missing /\
  createReidentifyTool client (Some prefix) = Abrupt zod_missing.
Proof.
  intros Hzod.
  unfold createDeidentifyTool, createReidentifyTool,
    createDeidentifyInputSchema, createDeidentifyOutputSchema,
    createReidentifyInputSchema, createReidentifyOutputSchema, getZod.
  by rewrite Hzod.
Qed.


(** X26. Without zod, [registerSkyflowTools] rejects with the error of
    [getZod] as soon as one tool is asked for, and the server is not
    touched; with both tools switched off it resolves, zod or not. *)
Theorem registerSkyflowTools_without_zod (server : Server)
    (client : SkyflowMCP) options :
  zod_installed = false ->
  registerSkyflowTools server (inl client) options
  = (if default true (options ≫= includeDeidentify)
        || default true (options ≫= includeReidentify)
     then Abrupt zod_missing else Normal (),
     server).
Proof.
  intros Hzod. unfold registerSkyflowTools.
  destruct (tools_without_zod client (default "" (options ≫= toolNamePrefix)) Hzod)
    as [-> ->].
  by destruct (default true (options ≫= includeDeidentify)),
              (default true (options ≫= includeReidentify)).
Qed.

(** X27. Registration from a configuration, or from the environment,
    builds the client first: when that fails the promise rejects with
    the [ConfigurationError] of the constructor or of [createFromEnv] and
    the server is not touched; otherwise it goes on as for that
    client. *)
Theorem registration_needs_a_client (server : Server) options :
  (forall config,
     match new_SkyflowMCP config with
     | Abrupt t =>
         registerSkyflowTools server (inr config) options = (Abrupt t, server) /\
         exists e, t = SdkError e /\ is_ConfigurationError e
     | Normal client =>
         registerSkyflowTools server (inr config) options
         = registerSkyflowTools server (inl client) options
     end) /\
  (forall env,
     match createFromEnv None env with
     | Abrupt t =>
         registerSkyflowToolsFromEnv server options env = (Abrupt t, server) /\
         exists e, t = SdkError e /\ is_ConfigurationError e
     | Normal client =>
         registerSkyflowToolsFromEnv server options env
         = registerSkyflowTools server (inl client) options
     end).
Proof.
  split.
  - intros config. unfold registerSkyflowTools.
    destruct (new_SkyflowMCP config) as [client|t] eqn:Hnew; [done|].
    split; [done|].
    apply new_SkyflowMCP_ConfigurationError in Hnew as (m & c & ->).
    by eexists.
  - intros env. unfold registerSkyflowToolsFromEnv.
    destruct (createFromEnv None env) as [client|t] eqn:Hnew; [done|].
    split; [done|].
    apply createFromEnv_ConfigurationError in Hnew as (m & c & ->).
    by eexists.
Qed.

End RegistrationExtras.

(** ** The client, the envelope and the constructors on the test doubles *)
Lemma listed_entities_accepted_witness :
  let options :=
    Some {| tokenType := None; entities := Some ["email_address"; "ssn"] |} in
  In "email_address" ENTITY_TYPES /\ In "ssn" ENTITY_TYPES /\
  exists enums,
    deidentifyOptions_for stub_client options
    = Normal {| SkyflowNode.opt_tokenFormat :=
                  Some {| SkyflowNode.format_default :=
                            Some SkyflowNode.VAULT_TOKEN |};
                SkyflowNode.opt_entities := Some enums |} /\
    length enums = 2.
Proof.
  cbv zeta.
  assert (In "email_address" ENTITY_TYPES) as H1 by (apply mem_In; reflexivity).
  assert (In "ssn" ENTITY_TYPES) as H2 by (apply mem_In; reflexivity).
  split; [exact H1|]. split; [exact H2|].
  destruct (listed_entities_accepted stub_client
              (Some {| tokenType := None;
                       entities := Some ["email_address"; "ssn"] |})
              ["email_address"; "ssn"] eq_refl ltac:(discriminate)
              ltac:(by repeat constructor)) as (enums & Ho & Hall).
  exists enums. split; [exact Ho|].
  by apply Forall2_length in Hall.
Defined.

Lemma deidentify_first_refused_entity_witness :
  isValidEntity "email_address" = true /\ isValidEntity "bogus" = false /\
  deidentify (service := stub_service) stub_client "john@example.com"
    (Some {| tokenType := None;
             entities := Some ["email_address"; "bogus"; "toString"] |}) start
  = (Abrupt (DeidentifyError "Invalid entity type: bogus" None JsUndefined
               (Some (Error "Invalid entity type: bogus"))), start).
Proof.
  split; [reflexivity|]. split; [reflexivity|].
  apply (deidentify_first_refused_entity (service := stub_service) stub_client
           "john@example.com" _ start ["email_address"] "bogus" ["toString"]);
    [reflexivity | by repeat constructor | reflexivity].
Defined.

Lemma deidentify_rejects_witness :
  let failure :=
    SkyflowError "Unauthorized"
      (Some {| http_code := JsNumber 401; body_details := JsString "denied" |}) in
  exists e,
    (deidentify (service := rejecting_service failure) stub_client
       "john@example.com" None start).1 = Abrupt (SdkError e) /\
    is_DeidentifyError e.
Proof.
  cbv zeta.
  edestruct (deidentify_rejects_with_DeidentifyError
               (service := rejecting_service
                  (SkyflowError "Unauthorized"
                     (Some {| http_code := JsNumber 401;
                              body_details := JsString "denied" |})))
               stub_client "john@example.com" None start)
    as (e & He & Hd & _); [reflexivity|].
  exists e. split; [by rewrite <- He | exact Hd].
Defined.

Lemma operation_failure_witness :
  let out := wrapWithProtection (service := stub_service) stub_client
               "john@example.com" (failing_operation (Error "upstream down"))
               None start in
  out.1 = Abrupt (Error "upstream down") /\
  operations (trace out.2) = ["[EMAIL_ADDRESS_abc123]"] /\
  reidentify_calls (trace out.2) = [].
Proof.
  cbv zeta.
  edestruct (operation_failure_propagates (service := stub_service) stub_client
               "john@example.com" (failing_operation (Error "upstream down"))
               None start)
    as (Hout & Hop & Hre); [reflexivity | reflexivity | reflexivity |].
  split; [by rewrite Hout|]. split; [exact Hop | exact Hre].
Defined.

Lemma reidentify_failure_witness :
  let failure := SkyflowError "Token not found" None in
  let out := wrapWithProtection (service := failing_reidentify_service failure)
               stub_client "john@example.com" echo None start in
  exists e,
    out.1 = Abrupt (SdkError e) /\ code e = "REIDENTIFY_ERROR" /\
    cause e = Some failure /\
    operations (trace out.2) = ["[EMAIL_ADDRESS_abc123]"].
Proof.
  cbv zeta.
  edestruct (reidentify_failure_after_operation
               (service := failing_reidentify_service
                             (SkyflowError "Token not found" None))
               stub_client "john@example.com" echo None start)
    as (e & He & [_ Hcode] & _ & Hcause & _ & Hop);
    [reflexivity | reflexivity | reflexivity | discriminate
    | left; reflexivity | reflexivity |].
  exists e. split; [exact He|]. split; [exact Hcode|].
  split; [exact (proj1 (Hcause eq_refl)) | exact Hop].
Defined.

Lemma callback_failure_witness :
  (let options :=
     Some (callback_options (Some (throwing_callback (Error "audit log full")))
                            None) in
   let out := wrapWithProtection (service := stub_service) stub_client
                "john@example.com" echo options start in
   out.1 = Abrupt (Error "audit log full") /\
   operations (trace out.2) = []) /\
  (let options :=
     Some (callback_options (Some quiet_callback)
                            (Some (throwing_callback (Error "audit log full")))) in
   let out := wrapWithProtection (service := stub_service) stub_client
                "john@example.com" echo options start in
   out.1 = Abrupt (Error "audit log full") /\
   operations (trace out.2) = ["[EMAIL_ADDRESS_abc123]"] /\
   reidentify_calls (trace out.2) = ["[EMAIL_ADDRESS_abc123]"]).
Proof.
  cbv zeta. split.
  - edestruct (callback_failure_rejects (service := stub_service) stub_client
                 "john@example.com" echo
                 (Some (callback_options
                          (Some (throwing_callback (Error "audit log full")))
                          None))
                 start) as [Hde _]; [reflexivity|].
    destruct (Hde _ () eq_refl eq_refl) as [Hout Hop].
    split; [by rewrite Hout | exact Hop].
  - edestruct (callback_failure_rejects (service := stub_service) stub_client
                 "john@example.com" echo
                 (Some (callback_options (Some quiet_callback)
                          (Some (throwing_callback (Error "audit log full")))))
                 start) as [_ Hre]; [reflexivity|].
    exact (Hre _ "[EMAIL_ADDRESS_abc123]" ()
               {| SkyflowNode.reid_processedText := "john@example.com" |} ()
               _ () eq_refl eq_refl ltac:(discriminate) eq_refl eq_refl eq_refl).
Defined.

Lemma new_SkyflowMCP_rejects_witness :
  (let config :=
     {| c_vaultId := "vault-123"; c_vaultUrl := "https://invalid.com";
        c_credentials := SkyflowNode.Token "test-bearer-token";
        c_accountId := None; c_workspaceId := None; c_options := None |} in
   exists e,
     new_SkyflowMCP (service := stub_service) config = Abrupt (SdkError e) /\
     is_ConfigurationError e /\
     contains "Invalid vaultUrl format" (message e)) /\
  (let failure := Error "unsupported runtime" in
   exists e,
     new_SkyflowMCP (service := unavailable_sdk failure) validConfig
       = Abrupt (SdkError e) /\
     message e = "Failed to initialize Skyflow SDK" /\
     cause e = Some failure).
Proof.
  cbv zeta. split.
  - edestruct (new_SkyflowMCP_rejects_with_ConfigurationError
                 (service := stub_service)
                 {| c_vaultId := "vault-123"; c_vaultUrl := "https://invalid.com";
                    c_credentials := SkyflowNode.Token "test-bearer-token";
                    c_accountId := None; c_workspaceId := None;
                    c_options := None |})
      as (e & He & Hc & _ & _ & Hcase); [reflexivity|].
    exists e. split; [by rewrite <- He|]. split; [exact Hc|].
    destruct Hcase as [[Hid _] | [(_ & Hurl & _) | [(_ & _ & _ & Hm & _) | Hsdk]]].
    + discriminate Hid.
    + discriminate Hurl.
    + exact Hm.
    + destruct Hsdk as (cluster & failure & _ & Hx & _). discriminate Hx.
  - edestruct (new_SkyflowMCP_rejects_with_ConfigurationError
                 (service := unavailable_sdk (Error "unsupported runtime"))
                 validConfig)
      as (e & He & _ & _ & _ & Hcase); [reflexivity|].
    exists e. split; [by rewrite <- He|].
    destruct Hcase as [[Hid _] | [(_ & Hurl & _) | [(_ & _ & Hx & _) | Hsdk]]].
    + discriminate Hid.
    + discriminate Hurl.
    + discriminate Hx.
    + destruct Hsdk as (cluster & failure & _ & Hc & Hnew & Hm & Hcause).
      split; [exact Hm|]. injection Hc as <-. injection Hnew as <-.
      exact Hcause.
Defined.

Lemma createFromEnv_rejects_witness :
  exists e,
    createFromEnv (service := stub_service) None ∅ = Abrupt (SdkError e) /\
    is_ConfigurationError e.
Proof.
  edestruct (createFromEnv_rejects_with_ConfigurationError
               (service := stub_service) None ∅) as (e & He & Hc & _);
    [reflexivity|].
  exists e. split; [by rewrite <- He | exact Hc].
Defined.

Lemma createFromEnv_api_key_witness :
  exists client,
    createFromEnv (service := stub_service) None api_key_only = Normal client /\
    uses_credentials client (SkyflowNode.ApiKey "env-api-key").
Proof.
  eexists. split; [reflexivity|].
  apply (createFromEnv_api_key_fallback (service := stub_service) None
           api_key_only "env-api-key");
    [reflexivity | by left | reflexivity | discriminate | reflexivity].
Defined.


Lemma createFromEnv_override_precedence_witness :
  createFromEnv (service := stub_service) (Some full_overrides)
    (<["SKYFLOW_VAULT_ID" := "env-vault-id"]> ∅)
  = createFromEnv (service := stub_service) (Some full_overrides) ∅ /\
  exists client,
    createFromEnv (service := stub_service) (Some full_overrides) both_set
      = Normal client /\
    getVaultId client = "override-vault".
Proof.
  destruct (createFromEnv_override_precedence (service := stub_service)
              full_overrides ∅ "env-vault-id") as (Hid & _).
  destruct (createFromEnv_override_precedence (service := stub_service)
              full_overrides both_set "") as (_ & _ & _ & _ & _ & Hvault).
  split; [exact (Hid eq_refl)|].
  eexists. split; [reflexivity|].
  apply (Hvault _ "override-vault"); [reflexivity | discriminate | reflexivity].
Defined.

(** ** The tools and the registration on the test doubles *)
Section ToolWitnesses.
Import Schemas Tools.

Lemma deidentify_tool_result_witness :
  exists tool result,
    createDeidentifyTool (service := counting_service) (runtime := with_zod)
      stub_client (Some "skyflow_") = Normal tool /\
    name tool = "skyflow_deidentify" /\
    (handler tool email_args start).1 = Normal result /\
    get (structuredContent result) "processedText"
      = JsString "My email is [EMAIL_ADDRESS_abc123]" /\
    get (structuredContent result) "wordCount" = JsNumber 4 /\
    get (structuredContent result) "entitiesFound" = JsNumber 1.
Proof.
  destruct (createDeidentifyTool (service := counting_service)
              (runtime := with_zod) stub_client (Some "skyflow_"))
    as [tool|t] eqn:Htool; [|discriminate Htool].
  edestruct (deidentify_tool_result (service := counting_service)
               (runtime := with_zod) stub_client (Some "skyflow_") tool email_args start)
    as (result & Hrun & Htext & Hwords & _ & Hfound & _);
    [exact Htool | reflexivity | reflexivity |].
  exists tool, result. split; [reflexivity|].
  split; [by injection Htool as <-|].
  split; [by rewrite Hrun|]. split; [exact Htext|].
  split; [exact Hwords | exact Hfound].
Defined.

Lemma deidentify_tool_rejects_witness :
  let failure := Error "network unreachable" in
  exists tool e,
    createDeidentifyTool (service := rejecting_service failure)
      (runtime := with_zod) stub_client None = Normal tool /\
    (deidentify (service := rejecting_service failure) stub_client
       (inputString email_args) (options_of email_args) start).1
      = Abrupt (SdkError e) /\
    (handler tool email_args start).1 = Abrupt (SdkError e) /\
    is_DeidentifyError e /\ cause e = Some failure.
Proof.
  cbv zeta.
  destruct (createDeidentifyTool
              (service := rejecting_service (Error "network unreachable"))
              (runtime := with_zod) stub_client None)
    as [tool|t] eqn:Htool; [|discriminate Htool].
  pose proof (deidentify_tool_rejects_as_client
                (service := rejecting_service (Error "network unreachable"))
                (runtime := with_zod) stub_client None tool email_args start
                Htool) as (_ & Hiff & _ & _).
  exists tool. eexists. split; [reflexivity|]. split; [reflexivity|].
  split; [apply Hiff; reflexivity|]. split; [split; reflexivity | reflexivity].
Defined.

Lemma schema_entities_witness :
  exists tool o,
    createDeidentifyTool (service := stub_service) (runtime := with_zod)
      stub_client None = Normal tool /\
    allowed_names "entities" (inputSchema tool) = Some ENTITY_TYPES /\
    trace (handler tool email_args start).2
      = [CallDeidentifyText "My email is john@example.com" o] /\
    SkyflowNode.opt_entities o = Some [Enum EMAIL_ADDRESS].
Proof.
  destruct (createDeidentifyTool (service := stub_service)
              (runtime := with_zod) stub_client None)
    as [tool|t] eqn:Htool; [|discriminate Htool].
  assert (allowed_names "entities" (inputSchema tool) = Some ENTITY_TYPES)
    as Hnames by (by injection Htool as <-).
  edestruct (schema_entities_reach_the_vault (service := stub_service)
               (runtime := with_zod) stub_client None tool email_args start
               ENTITY_TYPES ["email_address"])
    as (o & Htrace & _ & _ & Hsome);
    [exact Htool | exact Hnames | reflexivity
    | repeat constructor; apply mem_In; reflexivity |].
  exists tool, o. split; [reflexivity|]. split; [exact Hnames|].
  split; [exact Htrace|].
  destruct (Hsome ltac:(discriminate)) as (enums & -> & Hall).
  inversion Hall as [|? v ? vs (d & Hd & ->) Hrest]; subst.
  inversion Hrest; subst. injection Hd as <-. reflexivity.
Defined.

Lemma reidentify_tool_result_witness :
  exists tool result,
    createReidentifyTool (service := stub_service) (runtime := with_zod)
      stub_client None = Normal tool /\
    name tool = "reidentify" /\
    (handler tool email_args start).1 = Normal result /\
    structuredContent result
      = JsObject {[ "processedText" := JsString "john@example.com" ]}.
Proof.
  destruct (createReidentifyTool (service := stub_service)
              (runtime := with_zod) stub_client None)
    as [tool|t] eqn:Htool; [|discriminate Htool].
  pose proof (reidentify_tool_result (service := stub_service)
                (runtime := with_zod) stub_client None tool email_args start
                Htool) as (_ & result & Hout & Hsc & _).
  exists tool, result. split; [reflexivity|].
  split; [by injection Htool as <-|].
  split; [exact Hout | exact Hsc].
Defined.


Lemma registerSkyflowTools_without_zod_witness :
  registerSkyflowTools (service := stub_service) (runtime := without_zod)
    (mcp := recording_server) [] (inl stub_client) None
  = (Abrupt zod_missing, []).
Proof.
  exact (registerSkyflowTools_without_zod (service := stub_service)
           (runtime := without_zod) (mcp := recording_server) []
           stub_client None eq_refl).
Defined.

End ToolWitnesses.
